(** * Terraform AWS provider: SNS topic subscription and SESv2 custom
      verification email template resources.

    Shallow embedding of
      - aws/resource_aws_sns_topic_subscription.go
      - internal/service/sesv2/custom_verification_email_template*.go
    together with the properties of the attribute codec, the delivery-policy
    normaliser, the confirmation skip rule and the attribute updater.

    Conventions.  Go strings are byte strings: [string] (a list of 8-bit
    [ascii]) at the API, [list ascii] inside the JSON code.  A [*string] is an
    [option string].  Go's [int] and [time.Duration] are 64-bit: [Z] with the
    wrap-around written out.  The resource data [d] is mutated in place by the
    Go code; here it is threaded through a state-and-error monad together
    with the trace of remote calls. *)

From Stdlib Require Import ZArith NArith Ascii String List Lia Bool.
From stdpp Require Import base gmap strings list fin_maps.

Import ListNotations.
Local Open Scope string_scope.
Local Open Scope list_scope.

(** ** Go standard library: package strings *)

(** [strings.HasPrefix(s, prefix)]. *)
Fixpoint strings_HasPrefix (s prefix : string) : bool :=
  match prefix, s with
  | EmptyString, _ => true
  | String a p', String b s' => Ascii.eqb a b && strings_HasPrefix s' p'
  | String _ _, EmptyString => false
  end.

(** [strings.Contains(s, substr)]: [substr] occurs at some offset of [s]. *)
Fixpoint strings_Contains (s substr : string) : bool :=
  strings_HasPrefix s substr ||
  match s with
  | EmptyString => false
  | String _ s' => strings_Contains s' substr
  end.

(** [strings.ToLower(s)] on the letters of ASCII; the bytes of other runes
    are kept. *)
Definition ascii_ToLower (c : ascii) : ascii :=
  if (Ascii.leb "A" c && Ascii.leb c "Z")%bool
  then ascii_of_N (N_of_ascii c + 32) else c.

Fixpoint strings_ToLower (s : string) : string :=
  match s with
  | EmptyString => EmptyString
  | String c s' => String (ascii_ToLower c) (strings_ToLower s')
  end.

(** ** Terraform plugin SDK: package helper/validation *)

(** [validation.StringInSlice(valid, ignoreCase)]: the value is one of the
    valid strings, or with [ignoreCase] it is one of them when both are put
    in lower case. *)
Definition validation_StringInSlice (valid : list string) (ignoreCase : bool) (v : string)
  : bool :=
  existsb (fun str => String.eqb v str
                      || (ignoreCase
                          && String.eqb (strings_ToLower v) (strings_ToLower str))) valid.

(** ** Go fixed-width integers *)

(** Two's-complement reduction of an integer to [int64]. *)
Definition wrap64 (z : Z) : Z := ((z + 2 ^ 63) mod 2 ^ 64 - 2 ^ 63)%Z.

(** [time.Minute], in nanoseconds. *)
Definition time_Minute : Z := 60000000000%Z.

(** [time.Duration(n) * time.Minute] on int64. *)
Definition minutes_duration (n : Z) : Z := wrap64 (wrap64 n * time_Minute).

(** ** AWS SDK helpers *)

Definition aws_String (s : string) : option string := Some s.
Definition aws_StringValue (p : option string) : string := default EmptyString p.
Definition aws_Bool (b : bool) : option bool := Some b.

(** [fmt.Sprintf("%t", b)]. *)
Definition fmt_bool (b : bool) : string := if b then "true" else "false".

(** ** The operation monad: a state threaded through, and errors *)

Inductive result (E A : Type) : Type :=
| Ok (a : A)
| Err (e : E).
Arguments Ok {E A} a.
Arguments Err {E A} e.

Definition Op (St E A : Type) : Type := St -> result E A * St.

Definition ret {St E A} (a : A) : Op St E A := fun s => (Ok a, s).
Definition fail {St E A} (e : E) : Op St E A := fun s => (Err e, s).
Definition bind {St E A B} (m : Op St E A) (k : A -> Op St E B) : Op St E B :=
  fun s => match m s with
           | (Ok a, s') => k a s'
           | (Err e, s') => (Err e, s')
           end.

(** [if cond { body }] for a body that can fail. *)
Definition when {St E} (cond : bool) (body : Op St E unit) : Op St E unit :=
  if cond then body else ret tt.

Declare Scope op_scope.
Delimit Scope op_scope with op.
Notation "x <- c1 ;; c2" := (bind c1 (fun x => c2))
  (at level 100, c1 at next level, right associativity) : op_scope.
Notation "c1 ;;; c2" := (bind c1 (fun _ => c2))
  (at level 100, right associativity) : op_scope.
Local Open Scope op_scope.

(** ** Go standard library: unicode/utf8 and unicode/utf16 *)

Module UTF8.

Local Open Scope N_scope.

Definition code (c : ascii) : N := N_of_ascii c.
Definition chr (n : N) : ascii := ascii_of_N n.

Definition RuneError : N := 0xFFFD.
Definition MaxRune : N := 0x10FFFF.
Definition RuneSelf : N := 0x80.

(** A rune that [EncodeRune] encodes as itself: in range and no surrogate. *)
Definition ValidRune (r : N) : bool :=
  (r <=? MaxRune) && negb ((0xD800 <=? r) && (r <=? 0xDFFF)).

(** [utf8.EncodeRune]: the bytes written; an invalid rune is written as
    [RuneError]. *)
Definition EncodeRune (r : N) : list ascii :=
  if r <=? 0x7F then [chr r]
  else if r <=? 0x7FF then
    [chr (N.lor 0xC0 (N.shiftr r 6)); chr (N.lor 0x80 (N.land r 0x3F))]
  else if negb (ValidRune r) then
    [chr 0xEF; chr 0xBF; chr 0xBD]
  else if r <=? 0xFFFF then
    [chr (N.lor 0xE0 (N.shiftr r 12));
     chr (N.lor 0x80 (N.land (N.shiftr r 6) 0x3F));
     chr (N.lor 0x80 (N.land r 0x3F))]
  else
    [chr (N.lor 0xF0 (N.shiftr r 18));
     chr (N.lor 0x80 (N.land (N.shiftr r 12) 0x3F));
     chr (N.lor 0x80 (N.land (N.shiftr r 6) 0x3F));
     chr (N.lor 0x80 (N.land r 0x3F))].

(** The table [first] and the accept ranges of package utf8: for a leading
    byte, the length of the sequence and the range of the second byte;
    [None] for a byte that starts no sequence. *)
Definition first (p0 : N) : option (nat * (N * N)) :=
  if p0 <? 0xC2 then None
  else if p0 <=? 0xDF then Some (2%nat, (0x80, 0xBF))
  else if p0 =? 0xE0 then Some (3%nat, (0xA0, 0xBF))
  else if p0 =? 0xED then Some (3%nat, (0x80, 0x9F))
  else if p0 <=? 0xEF then Some (3%nat, (0x80, 0xBF))
  else if p0 =? 0xF0 then Some (4%nat, (0x90, 0xBF))
  else if p0 <=? 0xF3 then Some (4%nat, (0x80, 0xBF))
  else if p0 =? 0xF4 then Some (4%nat, (0x80, 0x8F))
  else None.

Definition continuation (b : N) : bool := (0x80 <=? b) && (b <=? 0xBF).

(** [utf8.DecodeRune]: the rune at the head of [p] and its width in bytes;
    [(RuneError, 0)] on empty input, [(RuneError, 1)] on an invalid or
    truncated sequence. *)
Definition DecodeRune (p : list ascii) : N * nat :=
  match p with
  | [] => (RuneError, 0%nat)
  | c0 :: p1 =>
      let p0 := code c0 in
      if p0 <? RuneSelf then (p0, 1%nat)
      else
        match first p0 with
        | None => (RuneError, 1%nat)
        | Some (sz, (lo, hi)) =>
            match p1 with
            | [] => (RuneError, 1%nat)
            | c1 :: p2 =>
                let b1 := code c1 in
                if (b1 <? lo) || (hi <? b1) then (RuneError, 1%nat)
                else if (sz <=? 2)%nat then
                  (N.lor (N.shiftl (N.land p0 0x1F) 6) (N.land b1 0x3F), 2%nat)
                else
                  match p2 with
                  | [] => (RuneError, 1%nat)
                  | c2 :: p3 =>
                      let b2 := code c2 in
                      if negb (continuation b2) then (RuneError, 1%nat)
                      else if (sz <=? 3)%nat then
                        (N.lor (N.lor (N.shiftl (N.land p0 0x0F) 12)
                                      (N.shiftl (N.land b1 0x3F) 6))
                               (N.land b2 0x3F), 3%nat)
                      else
                        match p3 with
                        | [] => (RuneError, 1%nat)
                        | c3 :: _ =>
                            let b3 := code c3 in
                            if negb (continuation b3) then (RuneError, 1%nat)
                            else
                              (N.lor (N.lor (N.lor (N.shiftl (N.land p0 0x07) 18)
                                                   (N.shiftl (N.land b1 0x3F) 12))
                                            (N.shiftl (N.land b2 0x3F) 6))
                                     (N.land b3 0x3F), 4%nat)
                        end
                  end
            end
        end
  end.

(** [utf16.IsSurrogate]. *)
Definition IsSurrogate (r : N) : bool := (0xD800 <=? r) && (r <? 0xE000).

(** [utf16.DecodeRune]: the code point of a surrogate pair, or [RuneError]. *)
Definition utf16_DecodeRune (r1 r2 : N) : N :=
  if (0xD800 <=? r1) && (r1 <? 0xDC00) && (0xDC00 <=? r2) && (r2 <? 0xE000)
  then N.lor (N.shiftl (r1 - 0xD800) 10) (r2 - 0xDC00) + 0x10000
  else RuneError.

End UTF8.

(** ** Go standard library: encoding/json

    The scanner and the decoder are modelled in two phases, as in the
    library: a text is first checked and cut into values by the grammar of
    scanner.go (here: parsed into a tree that keeps string and number
    literals as written), then values are stored into the Go value
    (decode.go).  [Unmarshal] reports the first saved error after decoding
    the whole text; only the fact that an error is reported is kept. *)

Module JSON.

Import UTF8.
Local Open Scope char_scope.

Definition bytes : Type := list ascii.

(** A scanned value.  Strings (and object keys) are literals as written,
    without the quotes and not yet unquoted; numbers are literals. *)
#[warnings="-register-all"] Inductive value : Type :=
| Null
| Bool (b : bool)
| Number (lit : bytes)
| Str (raw : bytes)
| Array (items : list value)
| Object (members : list (bytes * value)).

(** *** scanner.go *)

Definition isSpace (c : ascii) : bool :=
  Ascii.eqb c " " || Ascii.eqb c "009" || Ascii.eqb c "013" || Ascii.eqb c "010".

Definition isDigit (c : ascii) : bool := (48 <=? code c)%N && (code c <=? 57)%N.

Definition isHex (c : ascii) : bool :=
  isDigit c || ((97 <=? code c)%N && (code c <=? 102)%N)
            || ((65 <=? code c)%N && (code c <=? 70)%N).

Fixpoint skipSpace (l : bytes) : bytes :=
  match l with
  | c :: t => if isSpace c then skipSpace t else l
  | [] => []
  end.

(** The digits at the head of a text, and what follows them. *)
Fixpoint spanDigits (l : bytes) : bytes * bytes :=
  match l with
  | c :: t => if isDigit c then let '(ds, r) := spanDigits t in (c :: ds, r)
              else ([], l)
  | [] => ([], [])
  end.

(** [stateE], [stateESign], [stateE0]: the exponent of a number. *)
Definition scanExp (acc l : bytes) : option (bytes * bytes) :=
  match l with
  | e :: t =>
      if Ascii.eqb e "e" || Ascii.eqb e "E" then
        let '(sign, t1) :=
          match t with
          | s :: t' => if Ascii.eqb s "+" || Ascii.eqb s "-" then ([s], t') else ([], t)
          | [] => ([], t)
          end in
        match spanDigits t1 with
        | ([], _) => None
        | (ds, r) => Some (acc ++ e :: sign ++ ds, r)
        end
      else Some (acc, l)
  | [] => Some (acc, l)
  end.

(** [state0], [stateDot], [stateDot0]: the fraction of a number. *)
Definition scanFrac (acc l : bytes) : option (bytes * bytes) :=
  match l with
  | "." :: t =>
      match spanDigits t with
      | ([], _) => None
      | (ds, r) => scanExp (acc ++ "." :: ds) r
      end
  | _ => scanExp acc l
  end.

(** [stateNeg], [state0], [state1]: a number literal at the head of [l]. *)
Definition scanNumber (l : bytes) : option (bytes * bytes) :=
  let '(sign, l1) :=
    match l with
    | "-" :: t => (["-"], t)
    | _ => ([], l)
    end in
  match l1 with
  | c :: t =>
      if Ascii.eqb c "0" then scanFrac (sign ++ [c]) t
      else if isDigit c then
        let '(ds, r) := spanDigits t in scanFrac (sign ++ c :: ds) r
      else None
  | [] => None
  end.

(** [stateInString] and the escape states: the literal up to the closing
    quote (the opening one is consumed), and what follows it. *)
Fixpoint scanString (l : bytes) : option (bytes * bytes) :=
  match l with
  | [] => None
  | c :: t =>
      if Ascii.eqb c "034" then Some ([], t)
      else if Ascii.eqb c "\" then
        match t with
        | [] => None
        | e :: t1 =>
            if Ascii.eqb e "u" then
              match t1 with
              | h1 :: h2 :: h3 :: h4 :: t2 =>
                  if isHex h1 && isHex h2 && isHex h3 && isHex h4 then
                    match scanString t2 with
                    | Some (s, r) => Some (c :: e :: h1 :: h2 :: h3 :: h4 :: s, r)
                    | None => None
                    end
                  else None
              | _ => None
              end
            else if Ascii.eqb e "b" || Ascii.eqb e "f" || Ascii.eqb e "n" ||
                    Ascii.eqb e "r" || Ascii.eqb e "t" || Ascii.eqb e "\" ||
                    Ascii.eqb e "/" || Ascii.eqb e "034" then
              match scanString t1 with
              | Some (s, r) => Some (c :: e :: s, r)
              | None => None
              end
            else None
        end
      else if (code c <? 32)%N then None
      else
        match scanString t with
        | Some (s, r) => Some (c :: s, r)
        | None => None
        end
  end.

(** [maxNestingDepth]. *)
Definition maxNestingDepth : N := 10000.

(** The grammar of values, by recursive descent.  [n] bounds the number of
    nested calls (every call consumes a byte, so the length of the text is
    enough); [depth] is the number of arrays and objects open. *)
Fixpoint parseValue (n : nat) (depth : N) (l : bytes) : option (value * bytes) :=
  match n with
  | O => None
  | S n' =>
      match skipSpace l with
      | [] => None
      | c :: t =>
          if Ascii.eqb c "{" then
            if (maxNestingDepth <? depth + 1)%N then None
            else
              match skipSpace t with
              | c' :: t' =>
                  if Ascii.eqb c' "}" then Some (Object [], t')
                  else
                    match parseMembers n' (depth + 1) t with
                    | Some (ms, r) => Some (Object ms, r)
                    | None => None
                    end
              | [] => None
              end
          else if Ascii.eqb c "[" then
            if (maxNestingDepth <? depth + 1)%N then None
            else
              match skipSpace t with
              | c' :: t' =>
                  if Ascii.eqb c' "]" then Some (Array [], t')
                  else
                    match parseElements n' (depth + 1) t with
                    | Some (vs, r) => Some (Array vs, r)
                    | None => None
                    end
              | [] => None
              end
          else if Ascii.eqb c "034" then
            match scanString t with
            | Some (s, r) => Some (Str s, r)
            | None => None
            end
          else if Ascii.eqb c "t" then
            match t with
            | "r" :: "u" :: "e" :: r => Some (Bool true, r)
            | _ => None
            end
          else if Ascii.eqb c "f" then
            match t with
            | "a" :: "l" :: "s" :: "e" :: r => Some (Bool false, r)
            | _ => None
            end
          else if Ascii.eqb c "n" then
            match t with
            | "u" :: "l" :: "l" :: r => Some (Null, r)
            | _ => None
            end
          else
            match scanNumber (c :: t) with
            | Some (lit, r) => Some (Number lit, r)
            | None => None
            end
      end
  end
with parseMembers (n : nat) (depth : N) (l : bytes) : option (list (bytes * value) * bytes) :=
  match n with
  | O => None
  | S n' =>
      match skipSpace l with
      | c :: t =>
          if Ascii.eqb c "034" then
            match scanString t with
            | Some (key, r) =>
                match skipSpace r with
                | c1 :: r1 =>
                    if Ascii.eqb c1 ":" then
                      match parseValue n' depth r1 with
                      | Some (v, r2) =>
                          match skipSpace r2 with
                          | c2 :: r3 =>
                              if Ascii.eqb c2 "," then
                                match parseMembers n' depth r3 with
                                | Some (ms, r4) => Some ((key, v) :: ms, r4)
                                | None => None
                                end
                              else if Ascii.eqb c2 "}" then Some ([(key, v)], r3)
                              else None
                          | [] => None
                          end
                      | None => None
                      end
                    else None
                | [] => None
                end
            | None => None
            end
          else None
      | [] => None
      end
  end
with parseElements (n : nat) (depth : N) (l : bytes) : option (list value * bytes) :=
  match n with
  | O => None
  | S n' =>
      match parseValue n' depth l with
      | Some (v, r) =>
          match skipSpace r with
          | c :: r1 =>
              if Ascii.eqb c "," then
                match parseElements n' depth r1 with
                | Some (vs, r2) => Some (v :: vs, r2)
                | None => None
                end
              else if Ascii.eqb c "]" then Some ([v], r1)
              else None
          | [] => None
          end
      | None => None
      end
  end.

(** [checkValid]: the text is one value, with white space around it. *)
Definition parse (data : bytes) : option value :=
  match parseValue (S (length data)) 0 data with
  | Some (v, r) =>
      match skipSpace r with
      | [] => Some v
      | _ :: _ => None
      end
  | None => None
  end.

(** *** indent.go: Compact *)

(** The bytes the scanner does not report as skipped space: everything but
    white space outside string literals. *)
Fixpoint dropSpace (inString escaped : bool) (l : bytes) : bytes :=
  match l with
  | [] => []
  | c :: t =>
      if inString then
        c :: (if escaped then dropSpace true false t
              else if Ascii.eqb c "\" then dropSpace true true t
              else if Ascii.eqb c "034" then dropSpace false false t
              else dropSpace true false t)
      else if isSpace c then dropSpace false false t
      else c :: dropSpace (Ascii.eqb c "034") false t
  end.

(** [json.Compact(dst, src)] on an empty [dst]: the bytes written, or an
    error when [src] is not valid JSON. *)
Definition Compact (src : bytes) : option bytes :=
  match parse src with
  | Some _ => Some (dropSpace false false src)
  | None => None
  end.

(** *** decode.go: string literals *)

(** The value of a hexadecimal digit. *)
Definition hexValue (c : ascii) : option N :=
  if isDigit c then Some (code c - 48)%N
  else if (97 <=? code c)%N && (code c <=? 102)%N then Some (code c - 97 + 10)%N
  else if (65 <=? code c)%N && (code c <=? 70)%N then Some (code c - 65 + 10)%N
  else None.

(** [getu4]: the rune of a [\uXXXX] at the head of [s]; [None] for -1. *)
Definition getu4 (s : bytes) : option N :=
  match s with
  | "\" :: "u" :: h1 :: h2 :: h3 :: h4 :: _ =>
      match hexValue h1, hexValue h2, hexValue h3, hexValue h4 with
      | Some a, Some b, Some c, Some d => Some (((a * 16 + b) * 16 + c) * 16 + d)%N
      | _, _, _, _ => None
      end
  | _ => None
  end.

(** The byte a one-letter escape stands for. *)
Definition unescape (e : ascii) : option ascii :=
  if Ascii.eqb e "034" || Ascii.eqb e "\" || Ascii.eqb e "/" || Ascii.eqb e "'"
  then Some e
  else if Ascii.eqb e "b" then Some "008"
  else if Ascii.eqb e "f" then Some "012"
  else if Ascii.eqb e "n" then Some "010"
  else if Ascii.eqb e "r" then Some "013"
  else if Ascii.eqb e "t" then Some "009"
  else None.

(** [unquoteBytes], on the literal without its quotes: escapes are
    replaced, a surrogate pair is joined, a lone surrogate and every byte
    that is no UTF-8 become U+FFFD.  [n] bounds the bytes read. *)
Fixpoint unquoteBytes (n : nat) (s : bytes) : option bytes :=
  match s with
  | [] => Some []
  | c :: t =>
      match n with
      | O => None
      | S n' =>
          if Ascii.eqb c "\" then
            match t with
            | [] => None
            | e :: t1 =>
                if Ascii.eqb e "u" then
                  match getu4 s with
                  | None => None
                  | Some rr =>
                      let s6 := skipn 6 s in
                      if IsSurrogate rr then
                        let dec :=
                          match getu4 s6 with
                          | Some rr1 => utf16_DecodeRune rr rr1
                          | None => RuneError
                          end in
                        if negb (dec =? RuneError)%N then
                          (* A valid pair; consume. *)
                          option_map (app (EncodeRune dec)) (unquoteBytes n' (skipn 6 s6))
                        else
                          (* Invalid surrogate; fall back to replacement rune. *)
                          option_map (app (EncodeRune RuneError)) (unquoteBytes n' s6)
                      else option_map (app (EncodeRune rr)) (unquoteBytes n' s6)
                  end
                else
                  match unescape e with
                  | Some b => option_map (cons b) (unquoteBytes n' t1)
                  | None => None
                  end
            end
          else if Ascii.eqb c "034" || (code c <? 32)%N then None
          else if (code c <? RuneSelf)%N then option_map (cons c) (unquoteBytes n' t)
          else
            let '(rr, size) := DecodeRune s in
            option_map (app (EncodeRune rr)) (unquoteBytes n' (skipn size s))
      end
  end.

Definition unquote (raw : bytes) : option bytes := unquoteBytes (length raw) raw.

(** *** encode.go: string literals *)

(** [htmlSafeSet]: the ASCII bytes written as they are. *)
Definition htmlSafe (b : ascii) : bool :=
  (32 <=? code b)%N && (code b <? 128)%N &&
  negb (Ascii.eqb b "034" || Ascii.eqb b "\" ||
        Ascii.eqb b "<" || Ascii.eqb b ">" || Ascii.eqb b "&").

(** [hex]: the digits of ["0123456789abcdef"]. *)
Definition hexDigit (n : N) : ascii :=
  if (n <? 10)%N then chr (48 + n) else chr (97 + (n - 10)).

(** What follows the backslash in the escape of an ASCII byte. *)
Definition escapeByte (b : ascii) : bytes :=
  if Ascii.eqb b "\" || Ascii.eqb b "034" then [b]
  else if Ascii.eqb b "010" then ["n"]
  else if Ascii.eqb b "013" then ["r"]
  else if Ascii.eqb b "009" then ["t"]
  else ["u"; "0"; "0"; hexDigit (N.shiftr (code b) 4); hexDigit (N.land (code b) 0xF)].

(** The loop of [encodeState.string] with [escapeHTML] set: the literal
    without its quotes.  [n] bounds the bytes read. *)
Fixpoint encodeStringBody (n : nat) (s : bytes) : bytes :=
  match s with
  | [] => []
  | b :: t =>
      match n with
      | O => []
      | S n' =>
          if (code b <? RuneSelf)%N then
            (if htmlSafe b then [b] else "\" :: escapeByte b) ++ encodeStringBody n' t
          else
            let '(c, size) := DecodeRune s in
            if (c =? RuneError)%N && (size =? 1)%nat then
              ["\"; "u"; "f"; "f"; "f"; "d"] ++ encodeStringBody n' (skipn size s)
            else if (c =? 0x2028)%N || (c =? 0x2029)%N then
              ["\"; "u"; "2"; "0"; "2"; hexDigit (N.land c 0xF)]
                ++ encodeStringBody n' (skipn size s)
            else firstn size s ++ encodeStringBody n' (skipn size s)
      end
  end.

Definition encodeString (s : bytes) : bytes :=
  "034" :: encodeStringBody (length s) s ++ ["034"].

(** *** strconv: ParseInt and FormatInt in base 10, for int64 *)

Definition digitValue (c : ascii) : Z := Z.of_N (code c) - 48.

(** [ParseUint] without its range check: the digits, most significant
    first. *)
Definition parseDigits (ds : bytes) : Z :=
  fold_left (fun acc c => (acc * 10 + digitValue c)%Z) ds 0%Z.

Definition inInt64 (z : Z) : bool := ((- 2 ^ 63 <=? z) && (z <=? 2 ^ 63 - 1))%Z.

(** [strconv.ParseInt(s, 10, 64)]; [None] for a syntax or range error. *)
Definition ParseInt (s : bytes) : option Z :=
  let '(neg, ds) :=
    match s with
    | c :: t => if Ascii.eqb c "+" then (false, t)
                else if Ascii.eqb c "-" then (true, t)
                else (false, s)
    | [] => (false, s)
    end in
  match ds with
  | [] => None
  | _ :: _ =>
      if forallb isDigit ds then
        let un := parseDigits ds in
        let z := if neg then (- un)%Z else un in
        if inInt64 z then Some z else None
      else None
  end.

(** The decimal digits of [u] in front of [acc]; [n] bounds their number. *)
Fixpoint formatDigits (n : nat) (u : Z) (acc : bytes) : bytes :=
  match n with
  | O => acc
  | S n' =>
      let acc' := chr (Z.to_N (48 + u mod 10)) :: acc in
      if (u <? 10)%Z then acc' else formatDigits n' (u / 10) acc'
  end.

(** [strconv.FormatInt(i, 10)] for an int64. *)
Definition FormatInt (i : Z) : bytes :=
  if (i <? 0)%Z then "-" :: formatDigits 20 (- i) [] else formatDigits 20 i [].

(** *** fold.go: matching an object key with a field name *)

Definition caseMask (c : ascii) : N := N.land (code c) 0xDF.

(** [equalFoldRight s t], which agrees with every folding function of the
    package on a name [s] of ASCII letters: [t] equals [s] up to the case of
    letters, where U+212A (Kelvin sign) counts as k and U+017F (long s)
    as s. *)
Fixpoint equalFold (s t : bytes) : bool :=
  match s with
  | [] => match t with [] => true | _ :: _ => false end
  | sb :: s' =>
      match t with
      | [] => false
      | tb :: t' =>
          if (code tb <? RuneSelf)%N then
            (Ascii.eqb sb tb ||
             ((65 <=? caseMask sb)%N && (caseMask sb <=? 90)%N &&
              (caseMask sb =? caseMask tb)%N)) && equalFold s' t'
          else if Ascii.eqb sb "s" || Ascii.eqb sb "S" then
            match t with
            | "197" :: "191" :: t'' => equalFold s' t''
            | _ => false
            end
          else if Ascii.eqb sb "k" || Ascii.eqb sb "K" then
            match t with
            | "226" :: "132" :: "170" :: t'' => equalFold s' t''
            | _ => false
            end
          else false
      end
  end.

Fixpoint bytes_eqb (a b : bytes) : bool :=
  match a, b with
  | [], [] => true
  | x :: a', y :: b' => Ascii.eqb x y && bytes_eqb a' b'
  | _, _ => false
  end.

(** The position of the first element of [names] that satisfies [f],
    counted from [i]. *)
Fixpoint indexWhere (f : bytes -> bool) (names : list bytes) (i : nat) : option nat :=
  match names with
  | [] => None
  | name :: names' => if f name then Some i else indexWhere f names' (S i)
  end.

(** The index of the field a key selects: the field of that name, else the
    first field whose name folds to the key. *)
Definition findField (names : list bytes) (key : bytes) : option nat :=
  match indexWhere (bytes_eqb key) names 0 with
  | Some i => Some i
  | None => indexWhere (fun name => equalFold name key) names 0
  end.

(** *** decode.go: storing a value into a Go value

    [None] stands for a saved [UnmarshalTypeError].  A JSON null is a no-op
    for a bool, an int, a string and a struct, and sets a pointer to nil. *)

Definition storeBool (v : value) (old : bool) : option bool :=
  match v with
  | Bool b => Some b
  | Null => Some old
  | _ => None
  end.

Definition storeInt (v : value) (old : Z) : option Z :=
  match v with
  | Number lit => ParseInt lit
  | Null => Some old
  | _ => None
  end.

Definition storeString (v : value) (old : bytes) : option bytes :=
  match v with
  | Str raw => unquote raw
  | Null => Some old
  | _ => None
  end.

(** [d.object] into a struct with fields [names], where [storeField i]
    stores into the field of index [i]: the members are decoded in order,
    a key that selects no field is skipped with its value. *)
Fixpoint decodeObject {T : Type} (names : list bytes)
    (storeField : nat -> value -> T -> option T)
    (members : list (bytes * value)) (s : T) : option T :=
  match members with
  | [] => Some s
  | (rawKey, v) :: members' =>
      match unquote rawKey with
      | None => None
      | Some key =>
          match findField names key with
          | Some i =>
              match storeField i v s with
              | Some s' => decodeObject names storeField members' s'
              | None => None
              end
          | None => decodeObject names storeField members' s
          end
      end
  end.

(** A value stored into a struct. *)
Definition storeStruct {T : Type} (decode : list (bytes * value) -> T -> option T)
    (v : value) (old : T) : option T :=
  match v with
  | Object members => decode members old
  | Null => Some old
  | _ => None
  end.

(** A value stored into a pointer to a struct: null sets the pointer to
    nil; an object is decoded into the struct pointed to, which is
    allocated (zero) when the pointer is nil. *)
Definition storePtr {T : Type} (zero : T)
    (decode : list (bytes * value) -> T -> option T)
    (v : value) (old : option T) : option (option T) :=
  match v with
  | Object members => option_map Some (decode members (default zero old))
  | Null => Some None
  | _ => None
  end.

(** *** encode.go: structs *)

(** A member of an object: the name as the encoder writes it, and the
    encoded value. *)
Definition member (name : bytes) (enc : bytes) : bytes :=
  "034" :: name ++ "034" :: ":" :: enc.

(** A field with [omitempty]. *)
Definition omitempty (empty : bool) (m : bytes) : list bytes :=
  if empty then [] else [m].

(** The struct encoder: the members between braces, separated by commas. *)
Definition encodeStruct (members : list bytes) : bytes :=
  match members with
  | [] => ["{"; "}"]
  | m :: members' => "{" :: m ++ flat_map (fun x => "," :: x) members' ++ ["}"]
  end.

Definition encodeBool (b : bool) : bytes :=
  list_ascii_of_string (if b then "true" else "false").

End JSON.

(** ** aws/resource_aws_sns_topic_subscription.go *)

Module SNS.

(** *** Errors *)

(** Errors are kept symbolic: one constructor per error the code builds,
    with the values its message is formatted from. *)
Inductive error : Type :=
| AwsErr (code message : string)            (* awserr.Error of the SDK *)
| OtherErr (message : string)               (* any other error value *)
| ErrCreating (inner : error)               (* "error creating SNS topic subscription: %w" *)
| ErrCreatingEmpty                          (* "...: empty response" *)
| ErrWaiting (id : string) (inner : error)  (* "waiting for SNS topic subscription (%s) confirmation: %w" *)
| ErrGetting (id : string) (inner : error)  (* "getting SNS subscription attributes (%s): %w" *)
| ErrGettingEmpty (id : string)             (* "...: empty response" *)
| ErrSetting (arn name : string) (inner : error)
                                            (* "error setting subscription (%s) attribute (%s): %s" *)
| ErrFirehoseNeedsRole                      (* "Protocol firehose must contain subscription_role_arn!" *)
| ErrOnlyFirehoseRole.                      (* "Only protocol firehose supports subscription_role_arn!" *)

(** A user configuration error is one raised locally by the validation of
    the role against the protocol. *)
Definition is_config_error (e : error) : bool :=
  match e with
  | ErrFirehoseNeedsRole | ErrOnlyFirehoseRole => true
  | _ => false
  end.

(** [sns.ErrCodeResourceNotFoundException], [sns.ErrCodeNotFoundException]
    and [sns.ErrCodeInvalidParameterException] of the SDK. *)
Definition ErrCodeResourceNotFoundException : string := "ResourceNotFound".
Definition ErrCodeNotFoundException : string := "NotFound".
Definition ErrCodeInvalidParameterException : string := "InvalidParameter".

(** [tfawserr.ErrCodeEquals(err, code)]: [err] is an awserr.Error (possibly
    wrapped with %w) whose code is [code]; false on a nil error. *)
Fixpoint err_code_equals (e : error) (code : string) : bool :=
  match e with
  | AwsErr c _ => String.eqb c code
  | ErrCreating e' | ErrWaiting _ e' | ErrGetting _ e' => err_code_equals e' code
  | _ => false
  end.

Definition tfawserr_ErrCodeEquals (err : option error) (code : string) : bool :=
  match err with
  | Some e => err_code_equals e code
  | None => false
  end.

(** [tfawserr.ErrMessageContains(err, code, message)]. *)
Fixpoint err_message_contains (e : error) (code message : string) : bool :=
  match e with
  | AwsErr c m => String.eqb c code && strings_Contains m message
  | ErrCreating e' | ErrWaiting _ e' | ErrGetting _ e' =>
      err_message_contains e' code message
  | _ => false
  end.

Definition tfawserr_ErrMessageContains (err : option error) (code message : string) : bool :=
  match err with
  | Some e => err_message_contains e code message
  | None => false
  end.

(** *** Remote requests and responses *)

(** [map[string]*string]. *)
Abbreviation AttributeMap := (gmap string (option string)).

Record SubscribeInput : Type := {
  si_Attributes : AttributeMap;
  si_Endpoint : option string;
  si_Protocol : option string;
  si_ReturnSubscriptionArn : option bool;
  si_TopicArn : option string
}.

Record SubscribeOutput : Type := { so_SubscriptionArn : option string }.

Record GetSubscriptionAttributesInput : Type := { gi_SubscriptionArn : option string }.

(** A nil [Attributes] map is an empty map for [len] and for lookups. *)
Record GetSubscriptionAttributesOutput : Type := { go_Attributes : AttributeMap }.

Record SetSubscriptionAttributesInput : Type := {
  sa_SubscriptionArn : option string;
  sa_AttributeName : option string;
  sa_AttributeValue : option string
}.

Record UnsubscribeInput : Type := { ui_SubscriptionArn : option string }.

(** The remote calls, as they appear in the trace of an operation. *)
Inductive Call : Type :=
| CallSubscribe (input : SubscribeInput)
| CallSubscriptionConfirmed (id expected : string) (timeout : Z)
| CallGetSubscriptionAttributes (input : GetSubscriptionAttributesInput)
| CallSetSubscriptionAttributes (input : SetSubscriptionAttributesInput)
| CallUnsubscribe (input : UnsubscribeInput).

(** The connection: what the remote service answers to a call, given the
    calls made before it.  [SubscriptionConfirmed] is the waiter of package
    [waiter]; only its error result is used. *)
Record Conn : Type := {
  conn_Subscribe : list Call -> SubscribeInput -> option SubscribeOutput * option error;
  conn_SubscriptionConfirmed : list Call -> string -> string -> Z -> option error;
  conn_GetSubscriptionAttributes :
    list Call -> GetSubscriptionAttributesInput ->
    option GetSubscriptionAttributesOutput * option error;
  conn_SetSubscriptionAttributes : list Call -> SetSubscriptionAttributesInput -> option error;
  conn_Unsubscribe : list Call -> UnsubscribeInput -> option error
}.

(** *** Resource data *)

(** [*schema.ResourceData] of the subscription resource: the identifier, the
    new-resource flag, the schema's attributes, and the set of attributes
    whose configured value differs from the stored one ([d.HasChange]). *)
Record ResourceData : Type := {
  Id : string;
  IsNewResource : bool;
  arn : string;
  confirmation_timeout_in_minutes : Z;
  confirmation_was_authenticated : bool;
  delivery_policy : string;
  endpoint : string;
  endpoint_auto_confirms : bool;
  filter_policy : string;
  owner_id : string;
  pending_confirmation : bool;
  protocol : string;
  raw_message_delivery : bool;
  redrive_policy : string;
  subscription_role_arn : string;
  topic_arn : string;
  changed : gset string
}.

Definition HasChange (d : ResourceData) (key : string) : bool :=
  bool_decide (key ∈ changed d).

(** Field updates ([d.SetId] and [d.Set]). *)
Definition SetId (v : string) (d : ResourceData) : ResourceData :=
  {| Id := v; IsNewResource := IsNewResource d; arn := arn d;
     confirmation_timeout_in_minutes := confirmation_timeout_in_minutes d;
     confirmation_was_authenticated := confirmation_was_authenticated d;
     delivery_policy := delivery_policy d; endpoint := endpoint d;
     endpoint_auto_confirms := endpoint_auto_confirms d;
     filter_policy := filter_policy d; owner_id := owner_id d;
     pending_confirmation := pending_confirmation d; protocol := protocol d;
     raw_message_delivery := raw_message_delivery d;
     redrive_policy := redrive_policy d;
     subscription_role_arn := subscription_role_arn d; topic_arn := topic_arn d;
     changed := changed d |}.

(** The attributes written by the read operation, as one update. *)
Record ReadFields : Type := {
  rf_arn : string;
  rf_delivery_policy : string;
  rf_endpoint : string;
  rf_filter_policy : string;
  rf_owner_id : string;
  rf_protocol : string;
  rf_redrive_policy : string;
  rf_topic_arn : string;
  rf_confirmation_was_authenticated : bool;
  rf_pending_confirmation : bool;
  rf_raw_message_delivery : bool
}.

Definition SetFields (f : ReadFields) (d : ResourceData) : ResourceData :=
  {| Id := Id d; IsNewResource := IsNewResource d; arn := rf_arn f;
     confirmation_timeout_in_minutes := confirmation_timeout_in_minutes d;
     confirmation_was_authenticated := rf_confirmation_was_authenticated f;
     delivery_policy := rf_delivery_policy f; endpoint := rf_endpoint f;
     endpoint_auto_confirms := endpoint_auto_confirms d;
     filter_policy := rf_filter_policy f; owner_id := rf_owner_id f;
     pending_confirmation := rf_pending_confirmation f; protocol := rf_protocol f;
     raw_message_delivery := rf_raw_message_delivery f;
     redrive_policy := rf_redrive_policy f;
     subscription_role_arn := subscription_role_arn d; topic_arn := rf_topic_arn f;
     changed := changed d |}.

(** *** The operations' state: resource data and trace of remote calls *)

Record State : Type := { rd : ResourceData; trace : list Call }.

Abbreviation M := (Op State error).

Definition get_d : M ResourceData := fun s => (Ok (rd s), s).
Definition modify_d (f : ResourceData -> ResourceData) : M unit :=
  fun s => (Ok tt, {| rd := f (rd s); trace := trace s |}).

(** A remote call appends itself to the trace and yields the answer of the
    connection. *)
Definition remote {A} (c : Call) (answer : list Call -> A) : M A :=
  fun s => (Ok (answer (trace s)), {| rd := rd s; trace := trace s ++ [c] |}).

(** Go functions return [error]; [nil] is success. *)
Definition returns (err : option error) : M unit :=
  match err with
  | Some e => fail e
  | None => ret tt
  end.

Section Operations.

Variable conn : Conn.

(** [waiter.SubscriptionPendingConfirmationTimeout], a constant of package
    [waiter] (int64 nanoseconds). *)
Variable SubscriptionPendingConfirmationTimeout : Z.

(** Assembles supplied attributes into a single map - empty/default values
    are excluded from the map. *)
Definition expandSNSSubscriptionAttributes (d : ResourceData) : AttributeMap :=
  let attributes : AttributeMap := ∅ in
  let attributes :=
    if negb (String.eqb (delivery_policy d) EmptyString)
    then <["DeliveryPolicy" := aws_String (delivery_policy d)]> attributes
    else attributes in
  let attributes :=
    if negb (String.eqb (filter_policy d) EmptyString)
    then <["FilterPolicy" := aws_String (filter_policy d)]> attributes
    else attributes in
  let attributes :=
    if raw_message_delivery d
    then <["RawMessageDelivery" := aws_String (fmt_bool (raw_message_delivery d))]> attributes
    else attributes in
  let attributes :=
    if negb (String.eqb (subscription_role_arn d) EmptyString)
    then <["SubscriptionRoleArn" := aws_String (subscription_role_arn d)]> attributes
    else attributes in
  let attributes :=
    if negb (String.eqb (redrive_policy d) EmptyString)
    then <["RedrivePolicy" := aws_String (redrive_policy d)]> attributes
    else attributes in
  attributes.

(** [attributes[key]]: the nil pointer when the key is absent. *)
Definition attr (attributes : AttributeMap) (key : string) : option string :=
  default None (attributes !! key).

(** [v, ok := attributes[key]; ok && aws.StringValue(v) == "true"]. *)
Definition attr_is_true (attributes : AttributeMap) (key : string) : bool :=
  match attributes !! key with
  | Some v => String.eqb (aws_StringValue v) "true"
  | None => false
  end.

(** The tail of the read operation (from the empty-response check on):
    the attribute map of the response is written into the resource data.
    [d.Set] of a nil [*string] stores the empty string. *)
Definition readAttributes (id : string) (output : option GetSubscriptionAttributesOutput)
  : M unit :=
  match output with
  | None => fail (ErrGettingEmpty id)
  | Some out =>
      let attributes := go_Attributes out in
      if bool_decide (size attributes = 0) then fail (ErrGettingEmpty id)
      else
        modify_d (SetFields
          {| rf_arn := aws_StringValue (attr attributes "SubscriptionArn");
             rf_delivery_policy := aws_StringValue (attr attributes "DeliveryPolicy");
             rf_endpoint := aws_StringValue (attr attributes "Endpoint");
             rf_filter_policy := aws_StringValue (attr attributes "FilterPolicy");
             rf_owner_id := aws_StringValue (attr attributes "Owner");
             rf_protocol := aws_StringValue (attr attributes "Protocol");
             rf_redrive_policy := aws_StringValue (attr attributes "RedrivePolicy");
             rf_topic_arn := aws_StringValue (attr attributes "TopicArn");
             rf_confirmation_was_authenticated :=
               attr_is_true attributes "ConfirmationWasAuthenticated";
             rf_pending_confirmation := attr_is_true attributes "PendingConfirmation";
             rf_raw_message_delivery := attr_is_true attributes "RawMessageDelivery" |})
  end.

Definition resourceAwsSnsTopicSubscriptionRead : M unit :=
  d <- get_d ;;
  let input := {| gi_SubscriptionArn := aws_String (Id d) |} in
  r <- remote (CallGetSubscriptionAttributes input)
              (fun h => conn_GetSubscriptionAttributes conn h input) ;;
  let '(output, err) := r in
  if negb (IsNewResource d) &&
     (tfawserr_ErrCodeEquals err ErrCodeResourceNotFoundException ||
      tfawserr_ErrCodeEquals err ErrCodeNotFoundException)
  then modify_d (SetId EmptyString)
  else
    match err with
    | Some e => fail (ErrGetting (Id d) e)
    | None => readAttributes (Id d) output
    end.

Definition resourceAwsSnsTopicSubscriptionCreate : M unit :=
  d <- get_d ;;
  let input :=
    {| si_Attributes := expandSNSSubscriptionAttributes d;
       si_Endpoint := aws_String (endpoint d);
       si_Protocol := aws_String (protocol d);
       si_ReturnSubscriptionArn := aws_Bool true;
       si_TopicArn := aws_String (topic_arn d) |} in
  r <- remote (CallSubscribe input) (fun h => conn_Subscribe conn h input) ;;
  let '(output, err) := r in
  match err with
  | Some e => fail (ErrCreating e)
  | None =>
      match output with
      | None => fail ErrCreatingEmpty
      | Some out =>
          if String.eqb (aws_StringValue (so_SubscriptionArn out)) EmptyString
          then fail ErrCreatingEmpty
          else
            modify_d (SetId (aws_StringValue (so_SubscriptionArn out))) ;;;
            d <- get_d ;;
            let waitForConfirmation := true in
            let waitForConfirmation :=
              if negb (endpoint_auto_confirms d) && strings_Contains (protocol d) "http"
              then false else waitForConfirmation in
            let waitForConfirmation :=
              if strings_Contains (protocol d) "email"
              then false else waitForConfirmation in
            let timeout := SubscriptionPendingConfirmationTimeout in
            let timeout :=
              if strings_Contains (protocol d) "http"
              then minutes_duration (confirmation_timeout_in_minutes d)
              else timeout in
            when waitForConfirmation
              (err <- remote (CallSubscriptionConfirmed (Id d) "false" timeout)
                             (fun h => conn_SubscriptionConfirmed conn h (Id d) "false" timeout) ;;
               match err with
               | Some e => fail (ErrWaiting (Id d) e)
               | None => ret tt
               end) ;;;
            resourceAwsSnsTopicSubscriptionRead
      end
  end.

Definition snsSubscriptionAttributeUpdate
    (subscriptionArn attributeName attributeValue : string) : M unit :=
  let req :=
    {| sa_SubscriptionArn := aws_String subscriptionArn;
       sa_AttributeName := aws_String attributeName;
       sa_AttributeValue := aws_String attributeValue |} in
  (* The AWS API requires a non-empty string value or nil for the
     RedrivePolicy attribute, else throws an InvalidParameter error *)
  let req :=
    if String.eqb attributeName "RedrivePolicy" && String.eqb attributeValue EmptyString
    then {| sa_SubscriptionArn := sa_SubscriptionArn req;
            sa_AttributeName := sa_AttributeName req;
            sa_AttributeValue := None |}
    else req in
  err <- remote (CallSetSubscriptionAttributes req)
                (fun h => conn_SetSubscriptionAttributes conn h req) ;;
  match err with
  | Some e => fail (ErrSetting subscriptionArn attributeName e)
  | None => ret tt
  end.

Definition resourceAwsSnsTopicSubscriptionUpdate : M unit :=
  d <- get_d ;;
  when (HasChange d "raw_message_delivery")
    (snsSubscriptionAttributeUpdate (Id d) "RawMessageDelivery"
       (fmt_bool (raw_message_delivery d))) ;;;
  when (HasChange d "filter_policy")
    (let filterPolicy := filter_policy d in
     let filterPolicy := if String.eqb filterPolicy EmptyString then "{}" else filterPolicy in
     snsSubscriptionAttributeUpdate (Id d) "FilterPolicy" filterPolicy) ;;;
  when (HasChange d "delivery_policy")
    (snsSubscriptionAttributeUpdate (Id d) "DeliveryPolicy" (delivery_policy d)) ;;;
  when (HasChange d "subscription_role_arn")
    (let protocol := protocol d in
     let subscription_role_arn := subscription_role_arn d in
     if strings_Contains protocol "firehose" && String.eqb subscription_role_arn EmptyString
     then fail ErrFirehoseNeedsRole
     else if negb (strings_Contains protocol "firehose") &&
             negb (String.eqb subscription_role_arn EmptyString)
     then fail ErrOnlyFirehoseRole
     else snsSubscriptionAttributeUpdate (Id d) "SubscriptionRoleArn" subscription_role_arn) ;;;
  when (HasChange d "redrive_policy")
    (snsSubscriptionAttributeUpdate (Id d) "RedrivePolicy" (redrive_policy d)) ;;;
  resourceAwsSnsTopicSubscriptionRead.

Definition resourceAwsSnsTopicSubscriptionDelete : M unit :=
  d <- get_d ;;
  let input := {| ui_SubscriptionArn := aws_String (Id d) |} in
  err <- remote (CallUnsubscribe input) (fun h => conn_Unsubscribe conn h input) ;;
  if tfawserr_ErrMessageContains err ErrCodeInvalidParameterException
       "Cannot unsubscribe a subscription that is pending confirmation"
  then modify_d (SetId EmptyString)
  else returns err.

End Operations.

(** *** Delivery policy *)

Import JSON.

(** [snsTopicSubscriptionDeliveryPolicyHealthyRetryPolicy].  The type
    [snsTopicSubscriptionDeliveryPolicySicklyRetryPolicy] has the same
    fields with the same tags, and shares this record. *)
Record snsTopicSubscriptionDeliveryPolicyHealthyRetryPolicy : Type := {
  BackoffFunction : bytes;     (* json:"backoffFunction,omitempty" *)
  MaxDelayTarget : Z;          (* json:"maxDelayTarget,omitempty" *)
  MinDelayTarget : Z;          (* json:"minDelayTarget,omitempty" *)
  NumMaxDelayRetries : Z;      (* json:"numMaxDelayRetries,omitempty" *)
  NumMinDelayRetries : Z;      (* json:"numMinDelayRetries,omitempty" *)
  NumNoDelayRetries : Z;       (* json:"numNoDelayRetries,omitempty" *)
  NumRetries : Z               (* json:"numRetries,omitempty" *)
}.

Abbreviation snsTopicSubscriptionDeliveryPolicySicklyRetryPolicy :=
  snsTopicSubscriptionDeliveryPolicyHealthyRetryPolicy.
Abbreviation RetryPolicy := snsTopicSubscriptionDeliveryPolicyHealthyRetryPolicy.

Record snsTopicSubscriptionDeliveryPolicyThrottlePolicy : Type := {
  MaxReceivesPerSecond : Z     (* json:"maxReceivesPerSecond,omitempty" *)
}.

Record snsTopicSubscriptionDeliveryPolicy : Type := {
  Guaranteed : bool;           (* json:"guaranteed,omitempty" *)
  HealthyRetryPolicy : option snsTopicSubscriptionDeliveryPolicyHealthyRetryPolicy;
                               (* json:"healthyRetryPolicy,omitempty" *)
  SicklyRetryPolicy : option snsTopicSubscriptionDeliveryPolicySicklyRetryPolicy;
                               (* json:"sicklyRetryPolicy,omitempty" *)
  ThrottlePolicy : option snsTopicSubscriptionDeliveryPolicyThrottlePolicy
                               (* json:"throttlePolicy,omitempty" *)
}.

(** The zero values. *)
Definition zeroRetryPolicy : RetryPolicy :=
  {| BackoffFunction := []; MaxDelayTarget := 0; MinDelayTarget := 0;
     NumMaxDelayRetries := 0; NumMinDelayRetries := 0; NumNoDelayRetries := 0;
     NumRetries := 0 |}.
Definition zeroThrottlePolicy : snsTopicSubscriptionDeliveryPolicyThrottlePolicy :=
  {| MaxReceivesPerSecond := 0 |}.
Definition zeroDeliveryPolicy : snsTopicSubscriptionDeliveryPolicy :=
  {| Guaranteed := false; HealthyRetryPolicy := None; SicklyRetryPolicy := None;
     ThrottlePolicy := None |}.

(** The names of the fields in JSON, in the order of the fields. *)
Definition retryPolicyNames : list bytes :=
  map list_ascii_of_string
    ["backoffFunction"; "maxDelayTarget"; "minDelayTarget"; "numMaxDelayRetries";
     "numMinDelayRetries"; "numNoDelayRetries"; "numRetries"].
Definition throttlePolicyNames : list bytes :=
  map list_ascii_of_string ["maxReceivesPerSecond"].
Definition deliveryPolicyNames : list bytes :=
  map list_ascii_of_string
    ["guaranteed"; "healthyRetryPolicy"; "sicklyRetryPolicy"; "throttlePolicy"].

(** Storing a value into the field of index [i]. *)
Definition storeRetryPolicyField (i : nat) (v : value) (p : RetryPolicy)
  : option RetryPolicy :=
  match i with
  | 0%nat =>
      option_map (fun x =>
        {| BackoffFunction := x; MaxDelayTarget := MaxDelayTarget p;
           MinDelayTarget := MinDelayTarget p;
           NumMaxDelayRetries := NumMaxDelayRetries p;
           NumMinDelayRetries := NumMinDelayRetries p;
           NumNoDelayRetries := NumNoDelayRetries p; NumRetries := NumRetries p |})
        (storeString v (BackoffFunction p))
  | 1%nat =>
      option_map (fun x =>
        {| BackoffFunction := BackoffFunction p; MaxDelayTarget := x;
           MinDelayTarget := MinDelayTarget p;
           NumMaxDelayRetries := NumMaxDelayRetries p;
           NumMinDelayRetries := NumMinDelayRetries p;
           NumNoDelayRetries := NumNoDelayRetries p; NumRetries := NumRetries p |})
        (storeInt v (MaxDelayTarget p))
  | 2%nat =>
      option_map (fun x =>
        {| BackoffFunction := BackoffFunction p; MaxDelayTarget := MaxDelayTarget p;
           MinDelayTarget := x;
           NumMaxDelayRetries := NumMaxDelayRetries p;
           NumMinDelayRetries := NumMinDelayRetries p;
           NumNoDelayRetries := NumNoDelayRetries p; NumRetries := NumRetries p |})
        (storeInt v (MinDelayTarget p))
  | 3%nat =>
      option_map (fun x =>
        {| BackoffFunction := BackoffFunction p; MaxDelayTarget := MaxDelayTarget p;
           MinDelayTarget := MinDelayTarget p;
           NumMaxDelayRetries := x;
           NumMinDelayRetries := NumMinDelayRetries p;
           NumNoDelayRetries := NumNoDelayRetries p; NumRetries := NumRetries p |})
        (storeInt v (NumMaxDelayRetries p))
  | 4%nat =>
      option_map (fun x =>
        {| BackoffFunction := BackoffFunction p; MaxDelayTarget := MaxDelayTarget p;
           MinDelayTarget := MinDelayTarget p;
           NumMaxDelayRetries := NumMaxDelayRetries p;
           NumMinDelayRetries := x;
           NumNoDelayRetries := NumNoDelayRetries p; NumRetries := NumRetries p |})
        (storeInt v (NumMinDelayRetries p))
  | 5%nat =>
      option_map (fun x =>
        {| BackoffFunction := BackoffFunction p; MaxDelayTarget := MaxDelayTarget p;
           MinDelayTarget := MinDelayTarget p;
           NumMaxDelayRetries := NumMaxDelayRetries p;
           NumMinDelayRetries := NumMinDelayRetries p;
           NumNoDelayRetries := x; NumRetries := NumRetries p |})
        (storeInt v (NumNoDelayRetries p))
  | 6%nat =>
      option_map (fun x =>
        {| BackoffFunction := BackoffFunction p; MaxDelayTarget := MaxDelayTarget p;
           MinDelayTarget := MinDelayTarget p;
           NumMaxDelayRetries := NumMaxDelayRetries p;
           NumMinDelayRetries := NumMinDelayRetries p;
           NumNoDelayRetries := NumNoDelayRetries p; NumRetries := x |})
        (storeInt v (NumRetries p))
  | _ => Some p
  end.

Definition decodeRetryPolicy : list (bytes * value) -> RetryPolicy -> option RetryPolicy :=
  decodeObject retryPolicyNames storeRetryPolicyField.

Definition storeThrottlePolicyField (i : nat) (v : value)
    (p : snsTopicSubscriptionDeliveryPolicyThrottlePolicy)
  : option snsTopicSubscriptionDeliveryPolicyThrottlePolicy :=
  match i with
  | 0%nat =>
      option_map (fun x => {| MaxReceivesPerSecond := x |})
        (storeInt v (MaxReceivesPerSecond p))
  | _ => Some p
  end.

Definition decodeThrottlePolicy :=
  decodeObject throttlePolicyNames storeThrottlePolicyField.

Definition storeDeliveryPolicyField (i : nat) (v : value)
    (p : snsTopicSubscriptionDeliveryPolicy)
  : option snsTopicSubscriptionDeliveryPolicy :=
  match i with
  | 0%nat =>
      option_map (fun x =>
        {| Guaranteed := x; HealthyRetryPolicy := HealthyRetryPolicy p;
           SicklyRetryPolicy := SicklyRetryPolicy p;
           ThrottlePolicy := ThrottlePolicy p |})
        (storeBool v (Guaranteed p))
  | 1%nat =>
      option_map (fun x =>
        {| Guaranteed := Guaranteed p; HealthyRetryPolicy := x;
           SicklyRetryPolicy := SicklyRetryPolicy p;
           ThrottlePolicy := ThrottlePolicy p |})
        (storePtr zeroRetryPolicy decodeRetryPolicy v (HealthyRetryPolicy p))
  | 2%nat =>
      option_map (fun x =>
        {| Guaranteed := Guaranteed p; HealthyRetryPolicy := HealthyRetryPolicy p;
           SicklyRetryPolicy := x;
           ThrottlePolicy := ThrottlePolicy p |})
        (storePtr zeroRetryPolicy decodeRetryPolicy v (SicklyRetryPolicy p))
  | 3%nat =>
      option_map (fun x =>
        {| Guaranteed := Guaranteed p; HealthyRetryPolicy := HealthyRetryPolicy p;
           SicklyRetryPolicy := SicklyRetryPolicy p;
           ThrottlePolicy := x |})
        (storePtr zeroThrottlePolicy decodeThrottlePolicy v (ThrottlePolicy p))
  | _ => Some p
  end.

Definition decodeDeliveryPolicy :=
  decodeObject deliveryPolicyNames storeDeliveryPolicyField.

(** [json.Unmarshal(data, &deliveryPolicy)]: the value of [deliveryPolicy]
    after the call, or [None] when an error is returned. *)
Definition json_Unmarshal (data : bytes) (deliveryPolicy : snsTopicSubscriptionDeliveryPolicy)
  : option snsTopicSubscriptionDeliveryPolicy :=
  match parse data with
  | Some v => storeStruct decodeDeliveryPolicy v deliveryPolicy
  | None => None
  end.

Definition encodeInt (name : string) (i : Z) : list bytes :=
  omitempty (i =? 0)%Z (member (list_ascii_of_string name) (FormatInt i)).

Definition encodeRetryPolicy (p : RetryPolicy) : bytes :=
  encodeStruct
    (omitempty (bool_decide (BackoffFunction p = []))
       (member (list_ascii_of_string "backoffFunction") (encodeString (BackoffFunction p)))
     ++ encodeInt "maxDelayTarget" (MaxDelayTarget p)
     ++ encodeInt "minDelayTarget" (MinDelayTarget p)
     ++ encodeInt "numMaxDelayRetries" (NumMaxDelayRetries p)
     ++ encodeInt "numMinDelayRetries" (NumMinDelayRetries p)
     ++ encodeInt "numNoDelayRetries" (NumNoDelayRetries p)
     ++ encodeInt "numRetries" (NumRetries p)).

Definition encodeThrottlePolicy (p : snsTopicSubscriptionDeliveryPolicyThrottlePolicy)
  : bytes :=
  encodeStruct (encodeInt "maxReceivesPerSecond" (MaxReceivesPerSecond p)).

(** A pointer field with [omitempty]: omitted when nil. *)
Definition encodePtr {T : Type} (name : string) (enc : T -> bytes) (p : option T)
  : list bytes :=
  match p with
  | None => []
  | Some x => [member (list_ascii_of_string name) (enc x)]
  end.

Definition encodeDeliveryPolicy (p : snsTopicSubscriptionDeliveryPolicy) : bytes :=
  encodeStruct
    (omitempty (negb (Guaranteed p))
       (member (list_ascii_of_string "guaranteed") (encodeBool (Guaranteed p)))
     ++ encodePtr "healthyRetryPolicy" encodeRetryPolicy (HealthyRetryPolicy p)
     ++ encodePtr "sicklyRetryPolicy" encodeRetryPolicy (SicklyRetryPolicy p)
     ++ encodePtr "throttlePolicy" encodeThrottlePolicy (ThrottlePolicy p)).

(** [json.Marshal(deliveryPolicy)]; it returns no error for this type. *)
Definition json_Marshal (deliveryPolicy : snsTopicSubscriptionDeliveryPolicy)
  : option bytes :=
  Some (encodeDeliveryPolicy deliveryPolicy).

(** The first half of [suppressEquivalentSnsTopicSubscriptionDeliveryPolicy]:
    the old text unmarshalled into the policy, marshalled and compacted
    ([ob.Bytes()]); [None] where the function returns false. *)
Definition normalizedDeliveryPolicy (old : string) : option bytes :=
  match json_Unmarshal (list_ascii_of_string old) zeroDeliveryPolicy with
  | None => None
  | Some deliveryPolicy =>
      match json_Marshal deliveryPolicy with
      | None => None
      | Some normalizedDeliveryPolicy => Compact normalizedDeliveryPolicy
      end
  end.

Section Suppress.

(** [jsonBytesEqual], a function of the package defined in another file. *)
Variable jsonBytesEqual : bytes -> bytes -> bool.

Definition suppressEquivalentSnsTopicSubscriptionDeliveryPolicy
    (k old new : string) (d : ResourceData) : bool :=
  match normalizedDeliveryPolicy old with
  | None => false
  | Some ob =>
      match Compact (list_ascii_of_string new) with
      | None => false
      | Some nb => jsonBytesEqual ob nb
      end
  end.

End Suppress.

(** Modelled from the spec: [jsonBytesEqual], which is not among the source
    files; the spec has the two compacted texts compared byte for byte. *)
Definition jsonBytesEqual (b1 b2 : bytes) : bool := bytes_eqb b1 b2.

(** Texts in examples are written with ['] for the double quote. *)
Definition js (s : string) : string :=
  string_of_list_ascii
    (map (fun c => if Ascii.eqb c "'" then "034"%char else c) (list_ascii_of_string s)).

End SNS.

(** ** internal/service/sesv2: custom verification email template *)

Module SESV2.

(** *** Errors *)

Inductive error : Type :=
| NotFoundException (message : string)   (* *types.NotFoundException of the SDK *)
| OtherErr (message : string)            (* any other error of the SDK *)
| NotFoundError (LastError : error)      (* &resource.NotFoundError{LastError: err} *)
| EmptyResultError                       (* tfresource.NewEmptyResultError(in) *)
| EmptyOutput                            (* errors.New("empty output") *)
| DiagError (action resource id : string) (inner : error).
                                         (* create.DiagError(names.SESV2, action, resource, id, err) *)

Definition ErrActionCreating : string := "creating".
Definition ErrActionReading : string := "reading".
Definition ErrActionUpdating : string := "updating".
Definition ErrActionDeleting : string := "deleting".
Definition ResNameCustomVerificationEmailTemplate : string :=
  "Custom Verification Email Template".
Definition DSNameCustomVerificationEmailTemplate : string :=
  "Custom Verification Email Template Data Source".

(** [var nfe *types.NotFoundException; errors.As(err, &nfe)]. *)
Definition is_NotFoundException (e : error) : bool :=
  match e with
  | NotFoundException _ => true
  | _ => false
  end.

(** *** Remote requests and responses *)

Record TemplateInput : Type := {
  in_TemplateName : option string;
  in_FromEmailAddress : option string;
  in_TemplateSubject : option string;
  in_TemplateContent : option string;
  in_SuccessRedirectionURL : option string;
  in_FailureRedirectionURL : option string
}.

Record GetCustomVerificationEmailTemplateOutput : Type := {
  out_TemplateName : option string;
  out_FromEmailAddress : option string;
  out_TemplateSubject : option string;
  out_TemplateContent : option string;
  out_SuccessRedirectionURL : option string;
  out_FailureRedirectionURL : option string
}.

Inductive Call : Type :=
| CallCreate (input : TemplateInput)
| CallGet (TemplateName : option string)
| CallUpdate (input : TemplateInput)
| CallDelete (TemplateName : option string).

(** The client; [conn_Create] answers whether the output is non-nil. *)
Record Conn : Type := {
  conn_Create : list Call -> TemplateInput -> bool * option error;
  conn_Get : list Call -> option string ->
             option GetCustomVerificationEmailTemplateOutput * option error;
  conn_Update : list Call -> TemplateInput -> option error;
  conn_Delete : list Call -> option string -> option error
}.

(** *** Resource data *)

Record ResourceData : Type := {
  Id : string;
  IsNewResource : bool;
  template_name : string;
  from_email_address : string;
  template_subject : string;
  template_content : string;
  success_redirection_url : string;
  failure_redirection_url : string
}.

Definition SetId (v : string) (d : ResourceData) : ResourceData :=
  {| Id := v; IsNewResource := IsNewResource d; template_name := template_name d;
     from_email_address := from_email_address d;
     template_subject := template_subject d;
     template_content := template_content d;
     success_redirection_url := success_redirection_url d;
     failure_redirection_url := failure_redirection_url d |}.

(** The [d.Set] calls of the resource read, as one update. *)
Definition SetTemplate (name : string) (out : GetCustomVerificationEmailTemplateOutput)
    (d : ResourceData) : ResourceData :=
  {| Id := Id d; IsNewResource := IsNewResource d; template_name := name;
     from_email_address := aws_StringValue (out_FromEmailAddress out);
     template_subject := aws_StringValue (out_TemplateSubject out);
     template_content := aws_StringValue (out_TemplateContent out);
     success_redirection_url := aws_StringValue (out_SuccessRedirectionURL out);
     failure_redirection_url := aws_StringValue (out_FailureRedirectionURL out) |}.

Record State : Type := { rd : ResourceData; trace : list Call }.

Abbreviation M := (Op State error).

Definition get_d : M ResourceData := fun s => (Ok (rd s), s).
Definition modify_d (f : ResourceData -> ResourceData) : M unit :=
  fun s => (Ok tt, {| rd := f (rd s); trace := trace s |}).
Definition remote {A} (c : Call) (answer : list Call -> A) : M A :=
  fun s => (Ok (answer (trace s)), {| rd := rd s; trace := trace s ++ [c] |}).

Section Operations.

Variable conn : Conn.

(** [tfresource.NotFound], of package [internal/tfresource]: the
    classification of an error as a not-found condition. *)
Variable tfresource_NotFound : error -> bool.

(** The finder returns an output or an error, never both. *)
Definition FindCustomVerificationEmailTemplateByID (id : string)
  : Op State error (GetCustomVerificationEmailTemplateOutput + error) :=
  let input := aws_String id in
  r <- remote (CallGet input) (fun h => conn_Get conn h input) ;;
  let '(out, err) := r in
  match err with
  | Some e =>
      if is_NotFoundException e then ret (inr (NotFoundError e))
      else ret (inr e)
  | None =>
      match out with
      | None => ret (inr EmptyResultError)
      | Some o => ret (inl o)
      end
  end.

Definition resourceCustomVerificationEmailTemplateRead : M unit :=
  d <- get_d ;;
  r <- FindCustomVerificationEmailTemplateByID (Id d) ;;
  match r with
  | inr err =>
      if negb (IsNewResource d) && tfresource_NotFound err
      then modify_d (SetId EmptyString)
      else fail (DiagError ErrActionReading ResNameCustomVerificationEmailTemplate (Id d) err)
  | inl out => modify_d (SetTemplate (Id d) out)
  end.

Definition resourceCustomVerificationEmailTemplateCreate : M unit :=
  d <- get_d ;;
  let input :=
    {| in_TemplateName := aws_String (template_name d);
       in_FromEmailAddress := aws_String (from_email_address d);
       in_TemplateSubject := aws_String (template_subject d);
       in_TemplateContent := aws_String (template_content d);
       in_SuccessRedirectionURL := aws_String (success_redirection_url d);
       in_FailureRedirectionURL := aws_String (failure_redirection_url d) |} in
  r <- remote (CallCreate input) (fun h => conn_Create conn h input) ;;
  let '(out, err) := r in
  match err with
  | Some e =>
      fail (DiagError ErrActionCreating ResNameCustomVerificationEmailTemplate
              (template_name d) e)
  | None =>
      if negb out
      then fail (DiagError ErrActionCreating ResNameCustomVerificationEmailTemplate
                   (template_name d) EmptyOutput)
      else
        modify_d (SetId (template_name d)) ;;;
        resourceCustomVerificationEmailTemplateRead
  end.

(** [v, ok := d.GetOk(key); ok]: the value when it is set to something
    else than the zero value. *)
Definition GetOk (v : string) : option string :=
  if String.eqb v EmptyString then None else aws_String v.

Definition resourceCustomVerificationEmailTemplateUpdate : M unit :=
  d <- get_d ;;
  let input :=
    {| in_TemplateName := aws_String (Id d);
       in_FromEmailAddress := GetOk (from_email_address d);
       in_TemplateSubject := GetOk (template_subject d);
       in_TemplateContent := GetOk (template_content d);
       in_SuccessRedirectionURL := GetOk (success_redirection_url d);
       in_FailureRedirectionURL := GetOk (failure_redirection_url d) |} in
  err <- remote (CallUpdate input) (fun h => conn_Update conn h input) ;;
  match err with
  | Some e =>
      fail (DiagError ErrActionUpdating ResNameCustomVerificationEmailTemplate (Id d) e)
  | None => resourceCustomVerificationEmailTemplateRead
  end.

Definition resourceCustomVerificationEmailTemplateDelete : M unit :=
  d <- get_d ;;
  let input := aws_String (Id d) in
  err <- remote (CallDelete input) (fun h => conn_Delete conn h input) ;;
  match err with
  | Some e =>
      if is_NotFoundException e then ret tt
      else fail (DiagError ErrActionDeleting ResNameCustomVerificationEmailTemplate
                   (Id d) e)
  | None => ret tt
  end.

(** The [d.Set] calls of the data source read: the attributes of the
    template, not its name. *)
Definition SetTemplateAttributes (out : GetCustomVerificationEmailTemplateOutput)
    (d : ResourceData) : ResourceData :=
  {| Id := Id d; IsNewResource := IsNewResource d; template_name := template_name d;
     from_email_address := aws_StringValue (out_FromEmailAddress out);
     template_subject := aws_StringValue (out_TemplateSubject out);
     template_content := aws_StringValue (out_TemplateContent out);
     success_redirection_url := aws_StringValue (out_SuccessRedirectionURL out);
     failure_redirection_url := aws_StringValue (out_FailureRedirectionURL out) |}.

Definition dataSourceCustomVerificationEmailTemplateRead : M unit :=
  d <- get_d ;;
  r <- FindCustomVerificationEmailTemplateByID (template_name d) ;;
  match r with
  | inr err =>
      fail (DiagError ErrActionReading DSNameCustomVerificationEmailTemplate
              (template_name d) err)
  | inl out =>
      let templateName := aws_StringValue (out_TemplateName out) in
      modify_d (SetId templateName) ;;;
      modify_d (SetTemplateAttributes out)
  end.

End Operations.

End SESV2.

(** ** Observations on an operation *)

(** An operation run on resource data [d], from an empty trace. *)
Definition run_sns {A} (m : SNS.M A) (d : SNS.ResourceData)
  : result SNS.error A * SNS.State :=
  m {| SNS.rd := d; SNS.trace := [] |}.

Definition run_ses {A} (m : SESV2.M A) (d : SESV2.ResourceData)
  : result SESV2.error A * SESV2.State :=
  m {| SESV2.rd := d; SESV2.trace := [] |}.

(** The timeouts of the confirmation polls of a trace. *)
Definition polls (t : list SNS.Call) : list Z :=
  flat_map (fun c => match c with
                     | SNS.CallSubscriptionConfirmed _ _ timeout => [timeout]
                     | _ => []
                     end) t.

(** The values sent for attribute [name] by the calls of a trace. *)
Definition sent (name : string) (t : list SNS.Call) : list (option string) :=
  flat_map (fun c => match c with
                     | SNS.CallSetSubscriptionAttributes req =>
                         match SNS.sa_AttributeName req with
                         | Some n => if String.eqb n name
                                     then [SNS.sa_AttributeValue req] else []
                         | None => []
                         end
                     | _ => []
                     end) t.

(** The reads of the subscription attributes in a trace. *)
Definition reads (t : list SNS.Call) : list SNS.GetSubscriptionAttributesInput :=
  flat_map (fun c => match c with
                     | SNS.CallGetSubscriptionAttributes input => [input]
                     | _ => []
                     end) t.

(** The optional fields of a subscription hold their zero values. *)
Definition optional_default (d : SNS.ResourceData) : Prop :=
  SNS.delivery_policy d = EmptyString /\ SNS.filter_policy d = EmptyString /\
  SNS.raw_message_delivery d = false /\ SNS.redrive_policy d = EmptyString /\
  SNS.subscription_role_arn d = EmptyString.

(** ** Example data *)

(** A connection whose every call succeeds; the subscription it reports is
    an https one. *)
Definition conn_ok : SNS.Conn :=
  {| SNS.conn_Subscribe := fun _ _ =>
       (Some {| SNS.so_SubscriptionArn := Some "arn:aws:sns:us-east-1:1:t:sub" |}, None);
     SNS.conn_SubscriptionConfirmed := fun _ _ _ _ => None;
     SNS.conn_GetSubscriptionAttributes := fun _ _ =>
       (Some {| SNS.go_Attributes := {[ "Protocol" := Some "https" ]} |}, None);
     SNS.conn_SetSubscriptionAttributes := fun _ _ => None;
     SNS.conn_Unsubscribe := fun _ _ => None |}.

(** A connection that reports the subscription as not found. *)
Definition conn_gone : SNS.Conn :=
  {| SNS.conn_Subscribe := fun _ _ => (None, Some (SNS.AwsErr "NotFound" "gone"));
     SNS.conn_SubscriptionConfirmed := fun _ _ _ _ => None;
     SNS.conn_GetSubscriptionAttributes := fun _ _ =>
       (None, Some (SNS.AwsErr "NotFound" "gone"));
     SNS.conn_SetSubscriptionAttributes := fun _ _ => None;
     SNS.conn_Unsubscribe := fun _ _ => None |}.

(** A subscription with the given protocol, auto-confirm flag, role and
    changed attributes; every other attribute has its default. *)
Definition subscription (protocol : string) (auto_confirms : bool) (role : string)
    (changed : gset string) : SNS.ResourceData :=
  {| SNS.Id := "arn:aws:sns:us-east-1:1:t:sub"; SNS.IsNewResource := false;
     SNS.arn := EmptyString; SNS.confirmation_timeout_in_minutes := 1;
     SNS.confirmation_was_authenticated := false;
     SNS.delivery_policy := EmptyString; SNS.endpoint := "https://example.com/hook";
     SNS.endpoint_auto_confirms := auto_confirms; SNS.filter_policy := EmptyString;
     SNS.owner_id := EmptyString; SNS.pending_confirmation := false;
     SNS.protocol := protocol; SNS.raw_message_delivery := false;
     SNS.redrive_policy := EmptyString; SNS.subscription_role_arn := role;
     SNS.topic_arn := "arn:aws:sns:us-east-1:1:t"; SNS.changed := changed |}.

(** The SES client of a deleted template, and a template resource. *)
Definition ses_conn_gone : SESV2.Conn :=
  {| SESV2.conn_Create := fun _ _ => (true, None);
     SESV2.conn_Get := fun _ _ => (None, Some (SESV2.NotFoundException "gone"));
     SESV2.conn_Update := fun _ _ => None;
     SESV2.conn_Delete := fun _ _ => None |}.

Definition template (new : bool) : SESV2.ResourceData :=
  {| SESV2.Id := "welcome"; SESV2.IsNewResource := new;
     SESV2.template_name := "welcome"; SESV2.from_email_address := EmptyString;
     SESV2.template_subject := EmptyString; SESV2.template_content := EmptyString;
     SESV2.success_redirection_url := EmptyString;
     SESV2.failure_redirection_url := EmptyString |}.

(** A classification of errors as not found: the [resource.NotFoundError]
    built by the finder. *)
Definition is_NotFoundError (e : SESV2.error) : bool :=
  match e with
  | SESV2.NotFoundError _ => true
  | _ => false
  end.

(** ** Definitions for the round trip of the delivery policy

    What follows is used only to state and prove that the text marshalled
    from a policy is unmarshalled to the same policy. *)

Import UTF8 JSON SNS.

(** Valid UTF-8: a sequence of ASCII bytes and of encodings of valid
    runes. *)
Inductive utf8 : bytes -> Prop :=
| utf8_nil : utf8 []
| utf8_ascii b l : (code b < RuneSelf)%N -> utf8 l -> utf8 (b :: l)
| utf8_multi r l : ValidRune r = true -> (RuneSelf <= r)%N -> utf8 l ->
                   utf8 (EncodeRune r ++ l).

(** What the string encoder writes for an ASCII byte, and for a valid rune
    of two bytes or more. *)
Definition quoteByte (b : ascii) : bytes :=
  if htmlSafe b then [b] else "\"%char :: escapeByte b.

Definition quoteRune (r : N) : bytes :=
  if (r =? 0x2028)%N || (r =? 0x2029)%N
  then ["\"; "u"; "2"; "0"; "2"; hexDigit (N.land r 0xF)]%char
  else EncodeRune r.

(** A scanned string literal with [chunk] in front. *)
Definition prepend (chunk : bytes) (r : option (bytes * bytes)) : option (bytes * bytes) :=
  match r with
  | Some (s, rest) => Some (chunk ++ s, rest)
  | None => None
  end.

(** A byte that stands for itself inside a string literal. *)
Definition plain (c : ascii) : Prop :=
  c <> "034"%char /\ c <> "\"%char /\ (32 <= code c)%N.

Definition plainb (c : ascii) : bool :=
  negb (Ascii.eqb c "034") && negb (Ascii.eqb c "\") && (32 <=? code c)%N.

(** The digit of value [k]. *)
Definition digitChar (k : Z) : ascii := chr (Z.to_N (48 + k)).

(** What can follow a value inside an object: nothing, a comma or the
    closing brace. *)
Definition delimited (rest : bytes) : Prop :=
  match rest with
  | [] => True
  | c :: _ => c = ","%char \/ c = "}"%char
  end.

(** [text] is parsed as the value [v] at depth [d], whatever follows. *)
Definition ParsesAs (d : N) (v : value) (text : bytes) : Prop :=
  forall n rest, (length text <= n)%nat -> delimited rest ->
    parseValue n d (text ++ rest) = Some (v, rest).

(** [Compact] keeps [text] as it is. *)
Definition Compacted (text : bytes) : Prop :=
  forall X, dropSpace false false (text ++ X) = text ++ dropSpace false false X.

(** The members of an object between the braces. *)
Definition membersText (members : list bytes) : bytes :=
  match members with
  | [] => []
  | m :: members' => m ++ flat_map (fun x => ","%char :: x) members'
  end.

(** An encoded field: its name, the value it is scanned as, and its text. *)
Definition Field : Type := bytes * value * bytes.
Definition fieldText (f : Field) : bytes := member (fst (fst f)) (snd f).
Definition fieldMember (f : Field) : bytes * value := (fst (fst f), snd (fst f)).
Definition fieldOk (d : N) (f : Field) : Prop :=
  Forall plain (fst (fst f)) /\ ParsesAs d (snd (fst f)) (snd f).
Definition fieldGood (d : N) (f : Field) : Prop :=
  fieldOk d f /\ Compacted (snd f).

(** The fields the encoder writes, with [omitempty]. *)
Definition intField (name : string) (z : Z) : list Field :=
  if (z =? 0)%Z then []
  else [(list_ascii_of_string name, Number (FormatInt z), FormatInt z)].

Definition strField (name : string) (s : bytes) : list Field :=
  if bool_decide (s = []) then []
  else [(list_ascii_of_string name, Str (encodeStringBody (length s) s), encodeString s)].

Definition boolField (name : string) (b : bool) : list Field :=
  if negb b then [] else [(list_ascii_of_string name, Bool b, encodeBool b)].

Definition ptrField {T : Type} (name : string) (ast : T -> value) (enc : T -> bytes)
    (p : option T) : list Field :=
  match p with
  | None => []
  | Some x => [(list_ascii_of_string name, ast x, enc x)]
  end.

Definition retryFields (p : RetryPolicy) : list Field :=
  strField "backoffFunction" (BackoffFunction p)
  ++ intField "maxDelayTarget" (MaxDelayTarget p)
  ++ intField "minDelayTarget" (MinDelayTarget p)
  ++ intField "numMaxDelayRetries" (NumMaxDelayRetries p)
  ++ intField "numMinDelayRetries" (NumMinDelayRetries p)
  ++ intField "numNoDelayRetries" (NumNoDelayRetries p)
  ++ intField "numRetries" (NumRetries p).

Definition retryValue (p : RetryPolicy) : value :=
  Object (map fieldMember (retryFields p)).

Definition throttleFields (p : snsTopicSubscriptionDeliveryPolicyThrottlePolicy)
  : list Field :=
  intField "maxReceivesPerSecond" (MaxReceivesPerSecond p).

Definition throttleValue (p : snsTopicSubscriptionDeliveryPolicyThrottlePolicy) : value :=
  Object (map fieldMember (throttleFields p)).

Definition deliveryFields (p : snsTopicSubscriptionDeliveryPolicy) : list Field :=
  boolField "guaranteed" (Guaranteed p)
  ++ ptrField "healthyRetryPolicy" retryValue encodeRetryPolicy (HealthyRetryPolicy p)
  ++ ptrField "sicklyRetryPolicy" retryValue encodeRetryPolicy (SicklyRetryPolicy p)
  ++ ptrField "throttlePolicy" throttleValue encodeThrottlePolicy (ThrottlePolicy p).

Definition deliveryValue (p : snsTopicSubscriptionDeliveryPolicy) : value :=
  Object (map fieldMember (deliveryFields p)).

(** What Unmarshal stores: strings that are valid UTF-8 and integers that
    fit an int64. *)
Definition wfRetry (p : RetryPolicy) : Prop :=
  utf8 (BackoffFunction p) /\ inInt64 (MaxDelayTarget p) = true
  /\ inInt64 (MinDelayTarget p) = true /\ inInt64 (NumMaxDelayRetries p) = true
  /\ inInt64 (NumMinDelayRetries p) = true /\ inInt64 (NumNoDelayRetries p) = true
  /\ inInt64 (NumRetries p) = true.

Definition wfThrottle (p : snsTopicSubscriptionDeliveryPolicyThrottlePolicy) : Prop :=
  inInt64 (MaxReceivesPerSecond p) = true.

Definition wfOpt {T : Type} (P : T -> Prop) (o : option T) : Prop :=
  match o with
  | Some x => P x
  | None => True
  end.

Definition wfDelivery (p : snsTopicSubscriptionDeliveryPolicy) : Prop :=
  wfOpt wfRetry (HealthyRetryPolicy p) /\ wfOpt wfRetry (SicklyRetryPolicy p)
  /\ wfOpt wfThrottle (ThrottlePolicy p).

(** ** Further observations *)

(** The request that create sends to subscribe. *)
Definition subscribeInput (d : SNS.ResourceData) : SNS.SubscribeInput :=
  {| SNS.si_Attributes := SNS.expandSNSSubscriptionAttributes d;
     SNS.si_Endpoint := Some (SNS.endpoint d);
     SNS.si_Protocol := Some (SNS.protocol d);
     SNS.si_ReturnSubscriptionArn := Some true;
     SNS.si_TopicArn := Some (SNS.topic_arn d) |}.

(** The read request for a subscription. *)
Definition getInput (id : string) : SNS.GetSubscriptionAttributesInput :=
  {| SNS.gi_SubscriptionArn := Some id |}.

(** The names of the attributes the read operation looks up. *)
Definition readKeys : list string :=
  ["SubscriptionArn"; "DeliveryPolicy"; "Endpoint"; "FilterPolicy"; "Owner";
   "Protocol"; "RedrivePolicy"; "TopicArn"; "ConfirmationWasAuthenticated";
   "PendingConfirmation"; "RawMessageDelivery"]%string.

(** The create request of a template, and the update request. *)
Definition templateCreateInput (d : SESV2.ResourceData) : SESV2.TemplateInput :=
  {| SESV2.in_TemplateName := Some (SESV2.template_name d);
     SESV2.in_FromEmailAddress := Some (SESV2.from_email_address d);
     SESV2.in_TemplateSubject := Some (SESV2.template_subject d);
     SESV2.in_TemplateContent := Some (SESV2.template_content d);
     SESV2.in_SuccessRedirectionURL := Some (SESV2.success_redirection_url d);
     SESV2.in_FailureRedirectionURL := Some (SESV2.failure_redirection_url d) |}.

Definition templateUpdateInput (d : SESV2.ResourceData) : SESV2.TemplateInput :=
  {| SESV2.in_TemplateName := Some (SESV2.Id d);
     SESV2.in_FromEmailAddress := SESV2.GetOk (SESV2.from_email_address d);
     SESV2.in_TemplateSubject := SESV2.GetOk (SESV2.template_subject d);
     SESV2.in_TemplateContent := SESV2.GetOk (SESV2.template_content d);
     SESV2.in_SuccessRedirectionURL := SESV2.GetOk (SESV2.success_redirection_url d);
     SESV2.in_FailureRedirectionURL := SESV2.GetOk (SESV2.failure_redirection_url d) |}.

(** An SES client whose every call succeeds, with the template it
    returns. *)
Definition ses_template_out : SESV2.GetCustomVerificationEmailTemplateOutput :=
  {| SESV2.out_TemplateName := Some "welcome"%string;
     SESV2.out_FromEmailAddress := Some "noreply@example.com"%string;
     SESV2.out_TemplateSubject := Some "Welcome"%string;
     SESV2.out_TemplateContent := None;
     SESV2.out_SuccessRedirectionURL := None;
     SESV2.out_FailureRedirectionURL := None |}.

Definition ses_conn_ok : SESV2.Conn :=
  {| SESV2.conn_Create := fun _ _ => (true, None);
     SESV2.conn_Get := fun _ _ => (Some ses_template_out, None);
     SESV2.conn_Update := fun _ _ => None;
     SESV2.conn_Delete := fun _ _ => None |}.

(** A connection on which unsubscribe is refused because the subscription
    is pending confirmation. *)
Definition conn_pending : SNS.Conn :=
  {| SNS.conn_Subscribe := fun _ _ => (None, Some (SNS.OtherErr "unused"%string));
     SNS.conn_SubscriptionConfirmed := fun _ _ _ _ => None;
     SNS.conn_GetSubscriptionAttributes := fun _ _ => (None, None);
     SNS.conn_SetSubscriptionAttributes := fun _ _ =>
       Some (SNS.AwsErr "InvalidParameter"%string "rejected"%string);
     SNS.conn_Unsubscribe := fun _ _ =>
       Some (SNS.AwsErr "InvalidParameter"%string
               "Invalid parameter: Cannot unsubscribe a subscription that is pending confirmation"%string) |}.

(** A connection that answers like [conn_ok] and reports two attributes
    more: an endpoint that is nil, and one the provider does not know. *)
Definition conn_verbose : SNS.Conn :=
  {| SNS.conn_Subscribe := SNS.conn_Subscribe conn_ok;
     SNS.conn_SubscriptionConfirmed := SNS.conn_SubscriptionConfirmed conn_ok;
     SNS.conn_GetSubscriptionAttributes := fun _ _ =>
       (Some {| SNS.go_Attributes :=
                  {[ "Protocol" := Some "https"; "Endpoint" := None;
                     "EffectiveDeliveryPolicy" := Some "{}" ]}%string |}, None);
     SNS.conn_SetSubscriptionAttributes := SNS.conn_SetSubscriptionAttributes conn_ok;
     SNS.conn_Unsubscribe := SNS.conn_Unsubscribe conn_ok |}.

(** The request that sets attribute [name] of subscription [id]. *)
Definition setCall (id name : string) (value : option string) : SNS.Call :=
  SNS.CallSetSubscriptionAttributes
    {| SNS.sa_SubscriptionArn := Some id; SNS.sa_AttributeName := Some name;
       SNS.sa_AttributeValue := value |}.

(** The remote calls of an update none of which fails, in their order: one
    request for each changed attribute, then the read. *)
Definition updatePlan (d : SNS.ResourceData) : list SNS.Call :=
  (if SNS.HasChange d "raw_message_delivery"
   then [setCall (SNS.Id d) "RawMessageDelivery"
           (Some (fmt_bool (SNS.raw_message_delivery d)))]
   else [])
  ++ (if SNS.HasChange d "filter_policy"
      then [setCall (SNS.Id d) "FilterPolicy"
              (Some (if String.eqb (SNS.filter_policy d) EmptyString
                     then "{}"%string else SNS.filter_policy d))]
      else [])
  ++ (if SNS.HasChange d "delivery_policy"
      then [setCall (SNS.Id d) "DeliveryPolicy" (Some (SNS.delivery_policy d))]
      else [])
  ++ (if SNS.HasChange d "subscription_role_arn"
      then [setCall (SNS.Id d) "SubscriptionRoleArn" (Some (SNS.subscription_role_arn d))]
      else [])
  ++ (if SNS.HasChange d "redrive_policy"
      then [setCall (SNS.Id d) "RedrivePolicy"
              (if String.eqb (SNS.redrive_policy d) EmptyString
               then None else Some (SNS.redrive_policy d))]
      else [])
  ++ [SNS.CallGetSubscriptionAttributes (getInput (SNS.Id d))].

(** The request that delete sends. *)
Definition unsubscribeInput (id : string) : SNS.UnsubscribeInput :=
  {| SNS.ui_SubscriptionArn := Some id |}.

(** The message of the service for a subscription that is not confirmed. *)
Definition pendingMessage : string :=
  "Cannot unsubscribe a subscription that is pending confirmation".

(** The five attribute names of a subscribe request. *)
Definition expandKeys : list string :=
  ["DeliveryPolicy"; "FilterPolicy"; "RawMessageDelivery"; "SubscriptionRoleArn";
   "RedrivePolicy"]%string.

(** A template resource with a sender address and no subject. *)
Definition template_from (address : string) : SESV2.ResourceData :=
  {| SESV2.Id := "welcome"; SESV2.IsNewResource := false;
     SESV2.template_name := "welcome"; SESV2.from_email_address := address;
     SESV2.template_subject := EmptyString; SESV2.template_content := EmptyString;
     SESV2.success_redirection_url := EmptyString;
     SESV2.failure_redirection_url := EmptyString |}.

(** An SES client that refuses every change. *)
Definition ses_conn_denied : SESV2.Conn :=
  {| SESV2.conn_Create := fun _ _ => (false, Some (SESV2.OtherErr "denied"%string));
     SESV2.conn_Get := fun _ _ => (Some ses_template_out, None);
     SESV2.conn_Update := fun _ _ => Some (SESV2.OtherErr "denied"%string);
     SESV2.conn_Delete := fun _ _ => Some (SESV2.OtherErr "denied"%string) |}.

(** The protocol names, as the schema of the subscription lists them.  The
    schema validates the protocol with
    [validation.StringInSlice(protocols, true)]: a protocol is accepted in
    any letter case, while the operations test it as it is written. *)
Definition protocols : list string :=
  ["application"; "email-json"; "email"; "firehose"; "http"; "https"; "lambda"; "sms";
   "sqs"]%string.

(** A firehose subscription with every optional attribute configured. *)
Definition configured : SNS.ResourceData :=
  {| SNS.Id := "arn:aws:sns:us-east-1:1:t:sub"%string; SNS.IsNewResource := false;
     SNS.arn := "arn:aws:sns:us-east-1:1:t:sub"%string;
     SNS.confirmation_timeout_in_minutes := 1;
     SNS.confirmation_was_authenticated := true;
     SNS.delivery_policy := SNS.js "{'guaranteed':true}";
     SNS.endpoint := "arn:aws:firehose:us-east-1:1:deliverystream/s"%string;
     SNS.endpoint_auto_confirms := false;
     SNS.filter_policy := SNS.js "{'kind':['a']}";
     SNS.owner_id := "1"%string; SNS.pending_confirmation := true;
     SNS.protocol := "firehose"%string; SNS.raw_message_delivery := true;
     SNS.redrive_policy := SNS.js "{'deadLetterTargetArn':'arn:aws:sqs:us-east-1:1:q'}";
     SNS.subscription_role_arn := "arn:aws:iam::1:role/r"%string;
     SNS.topic_arn := "arn:aws:sns:us-east-1:1:t"%string; SNS.changed := ∅ |}.

(** * Properties *)

(** ** The operation monad *)

Ltac op_unfold :=
  unfold run_sns, run_ses, bind, ret, fail, when,
    SNS.get_d, SNS.modify_d, SNS.remote, SNS.returns,
    SESV2.get_d, SESV2.modify_d, SESV2.remote in *.

(** ** Attribute updater *)

Lemma attribute_update_run conn id name value s :
  let req := {| SNS.sa_SubscriptionArn := Some id; SNS.sa_AttributeName := Some name;
                SNS.sa_AttributeValue :=
                  if String.eqb name "RedrivePolicy" && String.eqb value EmptyString
                  then None else Some value |} in
  SNS.snsSubscriptionAttributeUpdate conn id name value s =
    (match SNS.conn_SetSubscriptionAttributes conn (SNS.trace s) req with
     | Some e => Err (SNS.ErrSetting id name e)
     | None => Ok tt
     end,
     {| SNS.rd := SNS.rd s;
        SNS.trace := SNS.trace s ++ [SNS.CallSetSubscriptionAttributes req] |}).
Proof.
  unfold SNS.snsSubscriptionAttributeUpdate, aws_String. op_unfold. cbn.
  destruct (String.eqb name "RedrivePolicy" && String.eqb value EmptyString); cbn;
    match goal with |- context [SNS.conn_SetSubscriptionAttributes ?c ?h ?r] =>
      destruct (SNS.conn_SetSubscriptionAttributes c h r) end; reflexivity.
Qed.

(** C8.  Setting the redrive policy to the empty string sends a request
    whose attribute value is nil, for every subscription identifier; a
    non-empty redrive policy, and every value of any other attribute, is
    sent as it is. *)
Theorem redrive_policy_empty_sent_as_nil (conn : SNS.Conn) (id : string) (s : SNS.State) :
  SNS.trace (snd (SNS.snsSubscriptionAttributeUpdate conn id "RedrivePolicy" EmptyString s))
    = SNS.trace s ++
      [SNS.CallSetSubscriptionAttributes
         {| SNS.sa_SubscriptionArn := Some id;
            SNS.sa_AttributeName := Some "RedrivePolicy";
            SNS.sa_AttributeValue := None |}]
  /\ (forall name value,
        name <> "RedrivePolicy" \/ value <> EmptyString ->
        SNS.trace (snd (SNS.snsSubscriptionAttributeUpdate conn id name value s))
          = SNS.trace s ++
            [SNS.CallSetSubscriptionAttributes
               {| SNS.sa_SubscriptionArn := Some id;
                  SNS.sa_AttributeName := Some name;
                  SNS.sa_AttributeValue := Some value |}]).
Proof.
  split.
  - rewrite attribute_update_run. reflexivity.
  - intros name value H. rewrite attribute_update_run. cbn.
    destruct (String.eqb_spec name "RedrivePolicy"), (String.eqb_spec value EmptyString);
      cbn; try reflexivity.
    destruct H; congruence.
Qed.

(** ** Read operations *)

Lemma read_trace conn s :
  SNS.trace (snd (SNS.resourceAwsSnsTopicSubscriptionRead conn s)) =
  SNS.trace s ++
  [SNS.CallGetSubscriptionAttributes {| SNS.gi_SubscriptionArn := Some (SNS.Id (SNS.rd s)) |}].
Proof.
  unfold SNS.resourceAwsSnsTopicSubscriptionRead, SNS.readAttributes. op_unfold. cbn.
  destruct (SNS.conn_GetSubscriptionAttributes _ _ _) as [[out|] [e|]]; cbn;
    repeat match goal with |- context [if ?b then _ else _] => destruct b; cbn end;
    reflexivity.
Qed.

Lemma read_error_not_config conn s e :
  fst (SNS.resourceAwsSnsTopicSubscriptionRead conn s) = Err e ->
  SNS.is_config_error e = false.
Proof.
  unfold SNS.resourceAwsSnsTopicSubscriptionRead, SNS.readAttributes. op_unfold. cbn.
  destruct (SNS.conn_GetSubscriptionAttributes _ _ _) as [[out|] [e'|]]; cbn;
    repeat match goal with |- context [if ?b then _ else _] => destruct b; cbn end;
    intros [= <-]; reflexivity.
Qed.

Lemma sns_read_not_found conn d out e :
  SNS.conn_GetSubscriptionAttributes conn []
    {| SNS.gi_SubscriptionArn := Some (SNS.Id d) |} = (out, Some e) ->
  SNS.tfawserr_ErrCodeEquals (Some e) SNS.ErrCodeResourceNotFoundException
  || SNS.tfawserr_ErrCodeEquals (Some e) SNS.ErrCodeNotFoundException = true ->
  let r := run_sns (SNS.resourceAwsSnsTopicSubscriptionRead conn) d in
  (SNS.IsNewResource d = false ->
     fst r = Ok tt /\ SNS.rd (snd r) = SNS.SetId EmptyString d) /\
  (SNS.IsNewResource d = true ->
     fst r = Err (SNS.ErrGetting (SNS.Id d) e) /\ SNS.rd (snd r) = d).
Proof.
  intros Hget Hnf. unfold SNS.resourceAwsSnsTopicSubscriptionRead. op_unfold.
  unfold aws_String. cbn. rewrite Hget. cbn in *. rewrite Hnf.
  split; intros ->; cbn; auto.
Qed.

Lemma ses_read_not_found conn (NotFound : SESV2.error -> bool) d err :
  fst (run_ses (SESV2.FindCustomVerificationEmailTemplateByID conn (SESV2.Id d)) d)
    = Ok (inr err) ->
  NotFound err = true ->
  let r := run_ses (SESV2.resourceCustomVerificationEmailTemplateRead conn NotFound) d in
  (SESV2.IsNewResource d = false ->
     fst r = Ok tt /\ SESV2.rd (snd r) = SESV2.SetId EmptyString d) /\
  (SESV2.IsNewResource d = true ->
     fst r = Err (SESV2.DiagError SESV2.ErrActionReading
                    SESV2.ResNameCustomVerificationEmailTemplate (SESV2.Id d) err)
     /\ SESV2.rd (snd r) = d).
Proof.
  intros Hfind Hnf.
  unfold SESV2.resourceCustomVerificationEmailTemplateRead. op_unfold. cbn in *.
  revert Hfind. unfold SESV2.FindCustomVerificationEmailTemplateByID. op_unfold. cbn.
  destruct (SESV2.conn_Get conn [] (aws_String (SESV2.Id d))) as [[o|] [e|]]; cbn;
    try destruct (SESV2.is_NotFoundException e); cbn; intros [= <-] || intros [=];
    rewrite Hnf; split; intros ->; cbn; auto.
Qed.

(** The finder turns the SDK's not-found exception into a
    [resource.NotFoundError]. *)
Lemma ses_find_not_found conn d out msg :
  SESV2.conn_Get conn [] (Some (SESV2.Id d)) = (out, Some (SESV2.NotFoundException msg)) ->
  fst (run_ses (SESV2.FindCustomVerificationEmailTemplateByID conn (SESV2.Id d)) d)
    = Ok (inr (SESV2.NotFoundError (SESV2.NotFoundException msg))).
Proof.
  intros H. unfold SESV2.FindCustomVerificationEmailTemplateByID, aws_String.
  op_unfold. cbn. rewrite H. reflexivity.
Qed.

(** C10.  A not-found error on read removes the resource from the state
    (the identifier is cleared and the read succeeds) when the resource is
    not new; on a new resource the same error is returned as an error and
    the identifier is left as it was.  This holds for the read of the SNS
    subscription (error codes ResourceNotFound and NotFound) and for the
    read of the SES custom verification email template (errors the finder
    returns that [tfresource.NotFound] classifies as not found). *)
Theorem read_not_found_guarded_by_new_resource
    (conn : SNS.Conn) (d : SNS.ResourceData)
    (out : option SNS.GetSubscriptionAttributesOutput) (e : SNS.error)
    (ses : SESV2.Conn) (NotFound : SESV2.error -> bool)
    (t : SESV2.ResourceData) (err : SESV2.error)
    (Hget : SNS.conn_GetSubscriptionAttributes conn []
              {| SNS.gi_SubscriptionArn := Some (SNS.Id d) |} = (out, Some e))
    (Hcode : SNS.tfawserr_ErrCodeEquals (Some e) SNS.ErrCodeResourceNotFoundException
             || SNS.tfawserr_ErrCodeEquals (Some e) SNS.ErrCodeNotFoundException = true)
    (Hfind : fst (run_ses (SESV2.FindCustomVerificationEmailTemplateByID ses (SESV2.Id t)) t)
             = Ok (inr err))
    (Hnf : NotFound err = true) :
  let r := run_sns (SNS.resourceAwsSnsTopicSubscriptionRead conn) d in
  let r' := run_ses (SESV2.resourceCustomVerificationEmailTemplateRead ses NotFound) t in
  (SNS.IsNewResource d = false ->
     fst r = Ok tt /\ SNS.Id (SNS.rd (snd r)) = EmptyString) /\
  (SNS.IsNewResource d = true ->
     fst r = Err (SNS.ErrGetting (SNS.Id d) e) /\ SNS.Id (SNS.rd (snd r)) = SNS.Id d) /\
  (SESV2.IsNewResource t = false ->
     fst r' = Ok tt /\ SESV2.Id (SESV2.rd (snd r')) = EmptyString) /\
  (SESV2.IsNewResource t = true ->
     fst r' = Err (SESV2.DiagError SESV2.ErrActionReading
                     SESV2.ResNameCustomVerificationEmailTemplate (SESV2.Id t) err)
     /\ SESV2.Id (SESV2.rd (snd r')) = SESV2.Id t).
Proof.
  cbv zeta.
  destruct (sns_read_not_found conn d out e Hget Hcode) as [H1 H2].
  destruct (ses_read_not_found ses NotFound t err Hfind Hnf) as [H3 H4].
  repeat split.
  - apply H1; assumption.
  - destruct (H1 H) as [_ ->]. reflexivity.
  - apply H2; assumption.
  - destruct (H2 H) as [_ ->]. reflexivity.
  - apply H3; assumption.
  - destruct (H3 H) as [_ ->]. reflexivity.
  - apply H4; assumption.
  - destruct (H4 H) as [_ ->]. reflexivity.
Qed.

Lemma read_not_found_guarded_by_new_resource_witness :
  fst (run_sns (SNS.resourceAwsSnsTopicSubscriptionRead conn_gone)
         (subscription "sqs" false EmptyString ∅)) = Ok tt
  /\ fst (run_ses (SESV2.resourceCustomVerificationEmailTemplateRead ses_conn_gone
                     is_NotFoundError) (template true))
     = Err (SESV2.DiagError SESV2.ErrActionReading
              SESV2.ResNameCustomVerificationEmailTemplate "welcome"
              (SESV2.NotFoundError (SESV2.NotFoundException "gone"))).
Proof.
  pose proof (read_not_found_guarded_by_new_resource
                conn_gone (subscription "sqs" false EmptyString ∅)
                None (SNS.AwsErr "NotFound" "gone")
                ses_conn_gone is_NotFoundError (template true)
                (SESV2.NotFoundError (SESV2.NotFoundException "gone"))
                eq_refl eq_refl eq_refl eq_refl) as H.
  cbv zeta in H. destruct H as (H1 & _ & _ & H4).
  split.
  - apply H1. reflexivity.
  - apply H4. reflexivity.
Defined.

(** ** Create: the confirmation poll *)

Lemma polls_app t1 t2 : polls (t1 ++ t2) = polls t1 ++ polls t2.
Proof. unfold polls. apply flat_map_app. Qed.

Lemma create_polls conn T d out :
  SNS.conn_Subscribe conn []
    {| SNS.si_Attributes := SNS.expandSNSSubscriptionAttributes d;
       SNS.si_Endpoint := Some (SNS.endpoint d);
       SNS.si_Protocol := Some (SNS.protocol d);
       SNS.si_ReturnSubscriptionArn := Some true;
       SNS.si_TopicArn := Some (SNS.topic_arn d) |} = (Some out, None) ->
  aws_StringValue (SNS.so_SubscriptionArn out) <> EmptyString ->
  polls (SNS.trace (snd (run_sns (SNS.resourceAwsSnsTopicSubscriptionCreate conn T) d))) =
    if (strings_Contains (SNS.protocol d) "http" && negb (SNS.endpoint_auto_confirms d))
       || strings_Contains (SNS.protocol d) "email"
    then []
    else [if strings_Contains (SNS.protocol d) "http"
          then minutes_duration (SNS.confirmation_timeout_in_minutes d) else T].
Proof.
  intros Hsub Harn.
  unfold SNS.resourceAwsSnsTopicSubscriptionCreate. op_unfold.
  unfold aws_String, aws_Bool.
  cbn -[SNS.resourceAwsSnsTopicSubscriptionRead strings_Contains].
  rewrite Hsub. cbn -[SNS.resourceAwsSnsTopicSubscriptionRead strings_Contains].
  destruct (String.eqb_spec (aws_StringValue (SNS.so_SubscriptionArn out)) EmptyString)
    as [?|_]; [contradiction|].
  cbn -[SNS.resourceAwsSnsTopicSubscriptionRead strings_Contains].
  destruct (strings_Contains (SNS.protocol d) "http"),
           (strings_Contains (SNS.protocol d) "email"),
           (SNS.endpoint_auto_confirms d);
    cbn -[SNS.resourceAwsSnsTopicSubscriptionRead];
    try (rewrite read_trace; reflexivity);
    match goal with |- context [SNS.conn_SubscriptionConfirmed ?c ?h ?i ?e ?t] =>
      destruct (SNS.conn_SubscriptionConfirmed c h i e t) end;
    cbn -[SNS.resourceAwsSnsTopicSubscriptionRead];
    try rewrite read_trace; reflexivity.
Qed.

(** A number of minutes that fits a duration is not changed by the
    wrap-around of int64. *)
Lemma minutes_duration_exact (n : Z) :
  (-153722867 <= n <= 153722867)%Z -> minutes_duration n = (n * time_Minute)%Z.
Proof.
  intros H. unfold minutes_duration, wrap64, time_Minute.
  rewrite (Z.mod_small (n + 2 ^ 63)) by lia.
  replace (n + 2 ^ 63 - 2 ^ 63)%Z with n by lia.
  rewrite Z.mod_small by lia. lia.
Qed.

(** C1, as the code has it.  After a successful subscribe call, create
    skips the confirmation poll exactly when the protocol contains "http"
    and endpoint auto-confirm is disabled, or the protocol contains
    "email"; otherwise it polls once, with the minutes-based timeout when
    the protocol contains "http" and the waiter's default timeout when not.
    In particular: "https" with auto-confirm false, no poll; "email", no
    poll; "https" with auto-confirm true, one poll with the minutes-based
    timeout. *)
Theorem create_confirmation_skip_rule
    (conn : SNS.Conn) (T : Z) (d : SNS.ResourceData) (out : SNS.SubscribeOutput)
    (Hsub : SNS.conn_Subscribe conn []
              {| SNS.si_Attributes := SNS.expandSNSSubscriptionAttributes d;
                 SNS.si_Endpoint := Some (SNS.endpoint d);
                 SNS.si_Protocol := Some (SNS.protocol d);
                 SNS.si_ReturnSubscriptionArn := Some true;
                 SNS.si_TopicArn := Some (SNS.topic_arn d) |} = (Some out, None))
    (Harn : aws_StringValue (SNS.so_SubscriptionArn out) <> EmptyString) :
  let p := polls (SNS.trace (snd (run_sns
             (SNS.resourceAwsSnsTopicSubscriptionCreate conn T) d))) in
  let http := strings_Contains (SNS.protocol d) "http" in
  let email := strings_Contains (SNS.protocol d) "email" in
  let auto := SNS.endpoint_auto_confirms d in
  let minutes := SNS.confirmation_timeout_in_minutes d in
  (p = [] <-> (http = true /\ auto = false) \/ email = true)
  /\ (p <> [] -> p = [if http then minutes_duration minutes else T])
  /\ (SNS.protocol d = "https" -> auto = false -> p = [])
  /\ (SNS.protocol d = "email" -> p = [])
  /\ (SNS.protocol d = "https" -> auto = true -> p = [minutes_duration minutes])
  /\ ((-153722867 <= minutes <= 153722867)%Z ->
      minutes_duration minutes = (minutes * 60000000000)%Z).
Proof.
  cbv zeta. rewrite (create_polls conn T d out Hsub Harn).
  repeat split.
  - destruct (strings_Contains (SNS.protocol d) "http"),
             (strings_Contains (SNS.protocol d) "email"),
             (SNS.endpoint_auto_confirms d); cbn; intros; auto; discriminate.
  - destruct (strings_Contains (SNS.protocol d) "http"),
             (strings_Contains (SNS.protocol d) "email"),
             (SNS.endpoint_auto_confirms d); cbn; intros H; auto;
      destruct H as [[? ?]|?]; discriminate.
  - destruct ((strings_Contains (SNS.protocol d) "http"
               && negb (SNS.endpoint_auto_confirms d))
              || strings_Contains (SNS.protocol d) "email"); congruence.
  - intros -> ->. reflexivity.
  - intros ->. reflexivity.
  - intros -> ->. reflexivity.
  - apply minutes_duration_exact.
Qed.

Lemma create_confirmation_skip_rule_witness :
  polls (SNS.trace (snd (run_sns
    (SNS.resourceAwsSnsTopicSubscriptionCreate conn_ok 120000000000)
    (subscription "https" true EmptyString ∅)))) = [60000000000%Z].
Proof.
  pose proof (create_confirmation_skip_rule conn_ok 120000000000
                (subscription "https" true EmptyString ∅) _ eq_refl
                ltac:(discriminate)) as H.
  cbv zeta in H. destruct H as (_ & _ & _ & _ & H & _).
  rewrite H; reflexivity.
Defined.

(** C1 as the claim has it fails: with protocol "https" and auto-confirm
    enabled the poll is invoked (with the timeout of one minute), and with
    auto-confirm disabled it is not. *)
Lemma create_polls_https_counterexample :
  polls (SNS.trace (snd (run_sns
    (SNS.resourceAwsSnsTopicSubscriptionCreate conn_ok 120000000000)
    (subscription "https" true EmptyString ∅)))) = [60000000000%Z]
  /\ polls (SNS.trace (snd (run_sns
    (SNS.resourceAwsSnsTopicSubscriptionCreate conn_ok 120000000000)
    (subscription "https" false EmptyString ∅)))) = [].
Proof. split; vm_compute; reflexivity. Qed.

(** ** Attribute codec *)

Lemma expand_lookup d key :
  SNS.expandSNSSubscriptionAttributes d !! key =
    if String.eqb key "RedrivePolicy" then
      if String.eqb (SNS.redrive_policy d) EmptyString then None
      else Some (Some (SNS.redrive_policy d))
    else if String.eqb key "SubscriptionRoleArn" then
      if String.eqb (SNS.subscription_role_arn d) EmptyString then None
      else Some (Some (SNS.subscription_role_arn d))
    else if String.eqb key "RawMessageDelivery" then
      if SNS.raw_message_delivery d then Some (Some "true") else None
    else if String.eqb key "FilterPolicy" then
      if String.eqb (SNS.filter_policy d) EmptyString then None
      else Some (Some (SNS.filter_policy d))
    else if String.eqb key "DeliveryPolicy" then
      if String.eqb (SNS.delivery_policy d) EmptyString then None
      else Some (Some (SNS.delivery_policy d))
    else None.
Proof.
  unfold SNS.expandSNSSubscriptionAttributes, aws_String.
  repeat match goal with
  | |- context [String.eqb key ?k] => destruct (String.eqb_spec key k); subst
  end;
  repeat match goal with
  | |- context [String.eqb ?a EmptyString] =>
      destruct (String.eqb a EmptyString); cbn [negb]
  | |- context [if SNS.raw_message_delivery d then _ else _] =>
      destruct (SNS.raw_message_delivery d); cbn [fmt_bool]
  end;
  repeat first [ rewrite lookup_insert_eq | rewrite lookup_insert_ne by congruence
               | rewrite lookup_empty ]; reflexivity.
Qed.

Lemma expand_default_empty d :
  optional_default d -> SNS.expandSNSSubscriptionAttributes d = ∅.
Proof.
  intros (H1 & H2 & H3 & H4 & H5). apply map_eq; intros key.
  rewrite expand_lookup, lookup_empty, H1, H2, H3, H4, H5. cbn.
  repeat match goal with |- context [String.eqb key ?k] => destruct (String.eqb key k) end;
    reflexivity.
Qed.

Lemma read_attributes_empty id s :
  SNS.readAttributes id (Some {| SNS.go_Attributes := ∅ |}) s
    = (Err (SNS.ErrGettingEmpty id), s).
Proof. reflexivity. Qed.

Lemma read_attributes_expand id d d0 t :
  SNS.expandSNSSubscriptionAttributes d <> ∅ ->
  let r := SNS.readAttributes id
             (Some {| SNS.go_Attributes := SNS.expandSNSSubscriptionAttributes d |})
             {| SNS.rd := d0; SNS.trace := t |} in
  let d' := SNS.rd (snd r) in
  fst r = Ok tt
  /\ SNS.trace (snd r) = t
  /\ SNS.delivery_policy d' = SNS.delivery_policy d
  /\ SNS.filter_policy d' = SNS.filter_policy d
  /\ SNS.redrive_policy d' = SNS.redrive_policy d
  /\ SNS.raw_message_delivery d' = SNS.raw_message_delivery d
  /\ SNS.subscription_role_arn d' = SNS.subscription_role_arn d0
  /\ SNS.arn d' = EmptyString
  /\ SNS.endpoint d' = EmptyString
  /\ SNS.owner_id d' = EmptyString
  /\ SNS.protocol d' = EmptyString
  /\ SNS.topic_arn d' = EmptyString
  /\ SNS.confirmation_was_authenticated d' = false
  /\ SNS.pending_confirmation d' = false
  /\ SNS.Id d' = SNS.Id d0
  /\ SNS.IsNewResource d' = SNS.IsNewResource d0
  /\ SNS.endpoint_auto_confirms d' = SNS.endpoint_auto_confirms d0
  /\ SNS.confirmation_timeout_in_minutes d' = SNS.confirmation_timeout_in_minutes d0
  /\ SNS.changed d' = SNS.changed d0.
Proof.
  intros Hne. unfold SNS.readAttributes. cbn [SNS.go_Attributes].
  case_bool_decide as Hsize.
  - apply map_size_empty_iff in Hsize. contradiction.
  - op_unfold. cbn. unfold SNS.attr, SNS.attr_is_true. rewrite !expand_lookup. cbn.
    repeat split;
      repeat match goal with
             | |- context [String.eqb ?a EmptyString] =>
                 destruct (String.eqb_spec a EmptyString)
             | |- context [if SNS.raw_message_delivery d then _ else _] =>
                 destruct (SNS.raw_message_delivery d)
             end; cbn; congruence.
Qed.

(** C3, as the code has it.  Encoding a record whose optional fields all
    hold their zero values gives the empty attribute map, and encoding never
    emits a key for a field that holds its zero value; decoding an empty
    attribute map (so also the encoding of such a record) is rejected as an
    empty response and writes no field; decoding a non-empty encoding, into
    any resource data, succeeds and sets the delivery policy, the filter
    policy, the redrive policy and the raw-message-delivery flag to those of
    the encoded record exactly.  The subscription role is not restored: the
    field keeps the value it had before the decoding, as do the identifier
    and the attributes that are only configured.  The attributes that the
    encoding does not carry (ARN, endpoint, owner, protocol, topic ARN) are
    set to the empty string and the two confirmation flags to false. *)
Theorem attribute_codec (d : SNS.ResourceData) :
  (optional_default d -> SNS.expandSNSSubscriptionAttributes d = ∅)
  /\ (SNS.delivery_policy d = EmptyString ->
      SNS.expandSNSSubscriptionAttributes d !! "DeliveryPolicy" = None)
  /\ (SNS.filter_policy d = EmptyString ->
      SNS.expandSNSSubscriptionAttributes d !! "FilterPolicy" = None)
  /\ (SNS.raw_message_delivery d = false ->
      SNS.expandSNSSubscriptionAttributes d !! "RawMessageDelivery" = None)
  /\ (SNS.redrive_policy d = EmptyString ->
      SNS.expandSNSSubscriptionAttributes d !! "RedrivePolicy" = None)
  /\ (SNS.subscription_role_arn d = EmptyString ->
      SNS.expandSNSSubscriptionAttributes d !! "SubscriptionRoleArn" = None)
  /\ (forall id s,
        SNS.readAttributes id (Some {| SNS.go_Attributes := ∅ |}) s
          = (Err (SNS.ErrGettingEmpty id), s))
  /\ (SNS.expandSNSSubscriptionAttributes d <> ∅ ->
      forall id d0 t,
        let r := SNS.readAttributes id
                   (Some {| SNS.go_Attributes := SNS.expandSNSSubscriptionAttributes d |})
                   {| SNS.rd := d0; SNS.trace := t |} in
        let d' := SNS.rd (snd r) in
        fst r = Ok tt
        /\ SNS.trace (snd r) = t
        /\ SNS.delivery_policy d' = SNS.delivery_policy d
        /\ SNS.filter_policy d' = SNS.filter_policy d
        /\ SNS.redrive_policy d' = SNS.redrive_policy d
        /\ SNS.raw_message_delivery d' = SNS.raw_message_delivery d
        /\ SNS.subscription_role_arn d' = SNS.subscription_role_arn d0
        /\ SNS.arn d' = EmptyString
        /\ SNS.endpoint d' = EmptyString
        /\ SNS.owner_id d' = EmptyString
        /\ SNS.protocol d' = EmptyString
        /\ SNS.topic_arn d' = EmptyString
        /\ SNS.confirmation_was_authenticated d' = false
        /\ SNS.pending_confirmation d' = false
        /\ SNS.Id d' = SNS.Id d0
        /\ SNS.IsNewResource d' = SNS.IsNewResource d0
        /\ SNS.endpoint_auto_confirms d' = SNS.endpoint_auto_confirms d0
        /\ SNS.confirmation_timeout_in_minutes d'
           = SNS.confirmation_timeout_in_minutes d0
        /\ SNS.changed d' = SNS.changed d0).
Proof.
  split; [apply expand_default_empty|].
  do 5 (split; [intros H; rewrite expand_lookup, H; reflexivity|]).
  split; [intros id s; reflexivity|].
  intros Hne id d0 t. apply read_attributes_expand. assumption.
Qed.

(** The encoding of an unconfigured subscription is empty; and the encoding
    of a subscription with every optional attribute configured, decoded
    into an unconfigured one, brings the four attributes across and leaves
    the role empty. *)
Lemma attribute_codec_witness :
  SNS.expandSNSSubscriptionAttributes (subscription "sqs" false EmptyString ∅) = ∅
  /\ SNS.expandSNSSubscriptionAttributes
       (subscription "firehose" false "arn:aws:iam::1:role/r" ∅)
       !! "DeliveryPolicy" = None
  /\ (let r := SNS.readAttributes "arn:aws:sns:us-east-1:1:t:sub"
                 (Some {| SNS.go_Attributes :=
                            SNS.expandSNSSubscriptionAttributes configured |})
                 {| SNS.rd := subscription "sqs" false EmptyString ∅; SNS.trace := [] |} in
      fst r = Ok tt
      /\ SNS.delivery_policy (SNS.rd (snd r)) = SNS.js "{'guaranteed':true}"
      /\ SNS.filter_policy (SNS.rd (snd r)) = SNS.js "{'kind':['a']}"
      /\ SNS.raw_message_delivery (SNS.rd (snd r)) = true
      /\ SNS.subscription_role_arn (SNS.rd (snd r)) = EmptyString
      /\ SNS.protocol (SNS.rd (snd r)) = EmptyString).
Proof.
  split; [|split].
  - apply (proj1 (attribute_codec (subscription "sqs" false EmptyString ∅))).
    unfold optional_default. cbn. repeat split; reflexivity.
  - apply (proj1 (proj2 (attribute_codec
             (subscription "firehose" false "arn:aws:iam::1:role/r" ∅)))).
    reflexivity.
  - assert (Hne : SNS.expandSNSSubscriptionAttributes configured <> ∅).
    { intros E. apply (f_equal (fun m => m !! "FilterPolicy")) in E.
      vm_compute in E. discriminate E. }
    destruct (attribute_codec configured) as (_ & _ & _ & _ & _ & _ & _ & H).
    destruct (H Hne "arn:aws:sns:us-east-1:1:t:sub"
                (subscription "sqs" false EmptyString ∅) [])
      as (H1 & _ & H2 & H3 & _ & H4 & H5 & _ & _ & _ & H6 & _).
    cbv zeta. split; [exact H1|]. split; [exact H2|]. split; [exact H3|].
    split; [exact H4|]. split; [exact H5 | exact H6].
Defined.

(** C3 as the claim has it fails: for a record whose optional fields are
    all default, the encoding is the empty map and decoding it is not a
    success with default fields but the empty-response error. *)
Lemma decode_empty_map_counterexample :
  let d := subscription "sqs" false EmptyString ∅ in
  SNS.expandSNSSubscriptionAttributes d = ∅
  /\ fst (run_sns (SNS.readAttributes (SNS.Id d)
            (Some {| SNS.go_Attributes := SNS.expandSNSSubscriptionAttributes d |})) d)
     = Err (SNS.ErrGettingEmpty (SNS.Id d))
  /\ fst (run_sns (SNS.readAttributes (SNS.Id d)
            (Some {| SNS.go_Attributes := ∅ |})) d) <> Ok tt.
Proof.
  cbv zeta. split; [|split].
  - apply expand_default_empty. unfold optional_default. cbn. repeat split; reflexivity.
  - rewrite expand_default_empty
      by (unfold optional_default; cbn; repeat split; reflexivity).
    reflexivity.
  - unfold run_sns. rewrite read_attributes_empty. discriminate.
Qed.

(** ** Update *)

(** Case analysis of an update: which attributes changed, what the
    connection answered, and the outcome of the role validation. *)
Ltac update_step :=
  first
    [ rewrite attribute_update_run
    | match goal with
      | |- context [SNS.HasChange ?d ?k] => destruct (SNS.HasChange d k) eqn:?
      | |- context [match SNS.conn_SetSubscriptionAttributes ?c ?h ?r with _ => _ end] =>
          destruct (SNS.conn_SetSubscriptionAttributes c h r) eqn:?
      | |- context [strings_Contains ?p "firehose"] =>
          destruct (strings_Contains p "firehose") eqn:?
      | |- context [String.eqb ?a EmptyString] =>
          destruct (String.eqb_spec a EmptyString)
      end ];
  cbn -[SNS.resourceAwsSnsTopicSubscriptionRead SNS.snsSubscriptionAttributeUpdate
        strings_Contains] in *.

Ltac update_cases :=
  cbv zeta;
  match goal with
  | |- context [run_sns (SNS.resourceAwsSnsTopicSubscriptionUpdate ?c) ?d] =>
      pattern (run_sns (SNS.resourceAwsSnsTopicSubscriptionUpdate c) d);
      match goal with |- ?P _ => let Q := fresh "Q" in set (Q := P) end
  end;
  unfold SNS.resourceAwsSnsTopicSubscriptionUpdate; op_unfold;
  cbn -[SNS.resourceAwsSnsTopicSubscriptionRead SNS.snsSubscriptionAttributeUpdate
        strings_Contains] in *;
  repeat match goal with
         | H : SNS.HasChange _ _ = _ |- _ => rewrite H
         | H : strings_Contains _ _ = _ |- _ => rewrite H
         end;
  cbn -[SNS.resourceAwsSnsTopicSubscriptionRead SNS.snsSubscriptionAttributeUpdate
        strings_Contains] in *;
  repeat update_step;
  match goal with Q := _ |- _ => subst Q end;
  cbn -[SNS.resourceAwsSnsTopicSubscriptionRead strings_Contains] in *;
  rewrite ?read_trace;
  cbn -[SNS.resourceAwsSnsTopicSubscriptionRead strings_Contains] in *.

(** C9.  On update with a changed filter policy, the value sent for the
    FilterPolicy attribute is the text "{}" when the configured value is the
    empty string, and the configured text when it is not; it is never the
    empty string.  The request is sent: as the first call when the
    raw-message-delivery flag is unchanged, as the second when the flag
    changed and its update succeeded; when that update failed, the update
    stops there with its error.  The substitution applies to the filter
    policy only: the delivery policy, the subscription role and the
    raw-message-delivery flag are sent as configured, the empty string
    included, and the redrive policy is sent as configured or, when empty,
    as nil. *)
Theorem filter_policy_empty_sent_as_empty_object
    (conn : SNS.Conn) (d : SNS.ResourceData)
    (Hchanged : SNS.HasChange d "filter_policy" = true) :
  let r := run_sns (SNS.resourceAwsSnsTopicSubscriptionUpdate conn) d in
  let t := SNS.trace (snd r) in
  let filter := if String.eqb (SNS.filter_policy d) EmptyString
                then "{}" else SNS.filter_policy d in
  let raw_call := setCall (SNS.Id d) "RawMessageDelivery"
                    (Some (fmt_bool (SNS.raw_message_delivery d))) in
  let filter_call := setCall (SNS.Id d) "FilterPolicy" (Some filter) in
  (SNS.filter_policy d = EmptyString -> filter = "{}")
  /\ (sent "FilterPolicy" t = [Some filter] \/ sent "FilterPolicy" t = [])
  /\ (forall v, In v (sent "FilterPolicy" t) -> v <> Some EmptyString)
  /\ (SNS.HasChange d "raw_message_delivery" = false -> exists t', t = filter_call :: t')
  /\ (SNS.HasChange d "raw_message_delivery" = true ->
      match SNS.conn_SetSubscriptionAttributes conn []
              {| SNS.sa_SubscriptionArn := Some (SNS.Id d);
                 SNS.sa_AttributeName := Some "RawMessageDelivery";
                 SNS.sa_AttributeValue := Some (fmt_bool (SNS.raw_message_delivery d)) |}
      with
      | None => exists t', t = raw_call :: filter_call :: t'
      | Some e => t = [raw_call]
                  /\ fst r = Err (SNS.ErrSetting (SNS.Id d) "RawMessageDelivery" e)
      end)
  /\ (forall v, In v (sent "DeliveryPolicy" t) -> v = Some (SNS.delivery_policy d))
  /\ (forall v, In v (sent "SubscriptionRoleArn" t) ->
        v = Some (SNS.subscription_role_arn d))
  /\ (forall v, In v (sent "RawMessageDelivery" t) ->
        v = Some (fmt_bool (SNS.raw_message_delivery d)))
  /\ (forall v, In v (sent "RedrivePolicy" t) ->
        v = if String.eqb (SNS.redrive_policy d) EmptyString
            then None else Some (SNS.redrive_policy d)).
Proof.
  unfold setCall. update_cases.
  all: repeat match goal with
              | |- context [String.eqb ?a EmptyString] =>
                  destruct (String.eqb_spec a EmptyString)
              end.
  all: repeat match goal with |- _ /\ _ => split end.
  all: first [ reflexivity
             | solve [auto]
             | solve [intros; congruence]
             | solve [intros; eexists; reflexivity]
             | solve [intros; split; reflexivity]
             | solve [intros v Hv; cbn in Hv; intuition congruence] ].
Qed.

Lemma filter_policy_empty_sent_as_empty_object_witness :
  sent "FilterPolicy"
    (SNS.trace (snd (run_sns (SNS.resourceAwsSnsTopicSubscriptionUpdate conn_ok)
       (subscription "sqs" false EmptyString {[ "filter_policy" ]}))))
  = [Some "{}"].
Proof.
  assert (Hc : SNS.HasChange (subscription "sqs" false EmptyString {[ "filter_policy" ]})
                 "filter_policy" = true) by reflexivity.
  destruct (filter_policy_empty_sent_as_empty_object conn_ok
              (subscription "sqs" false EmptyString {[ "filter_policy" ]})
              Hc) as (_ & [H|H] & _).
  - exact H.
  - vm_compute in H. discriminate H.
Defined.


(** ** Update: the subscription role *)

(** A protocol the schema accepts is one of the listed names when put in
    lower case. *)
Lemma valid_spelling p :
  validation_StringInSlice protocols true p = true -> In (strings_ToLower p) protocols.
Proof.
  unfold validation_StringInSlice, protocols. cbn -[strings_ToLower String.eqb].
  intros H.
  repeat (apply orb_true_iff in H as [H|H];
          [apply orb_true_iff in H as [H|H];
           [apply String.eqb_eq in H; subst p; cbn; tauto
           |apply String.eqb_eq in H; rewrite H; cbn; tauto]|]).
  discriminate H.
Qed.

Lemma eqb_lower_l x c y :
  ascii_ToLower c = y -> ascii_ToLower x = x -> x <> y -> Ascii.eqb x c = false.
Proof. intros Hc Hx Hn. destruct (Ascii.eqb_spec x c); [subst; congruence | reflexivity]. Qed.

Lemma eqb_lower_r x c y :
  ascii_ToLower c = y -> ascii_ToLower x = x -> x <> y -> Ascii.eqb c x = false.
Proof. intros Hc Hx Hn. destruct (Ascii.eqb_spec c x); [subst; congruence | reflexivity]. Qed.

Ltac letters p H :=
  repeat (destruct p as [|? p]; cbn [strings_ToLower] in H; [discriminate H|];
          injection H as ? H);
  destruct p; [clear H | discriminate H].

Ltac fold_case :=
  repeat match goal with
         | H : ascii_ToLower ?c = ?y |- context [Ascii.eqb ?x ?c] =>
             rewrite (eqb_lower_l x c y H eq_refl) by discriminate
         | H : ascii_ToLower ?c = ?y |- context [Ascii.eqb ?c ?x] =>
             rewrite (eqb_lower_r x c y H eq_refl) by discriminate
         end;
  repeat match goal with
         | |- context [Ascii.eqb ?c ?x] => is_var c; rewrite (Ascii.eqb_sym c x)
         end;
  repeat match goal with
         | |- context [Ascii.eqb ?x ?c] => is_var c; destruct (Ascii.eqb x c)
         end;
  try reflexivity.

(** Of the protocols the schema accepts, in any letter case, the only one
    that contains "firehose" is "firehose" itself. *)
Lemma valid_firehose p :
  validation_StringInSlice protocols true p = true ->
  strings_Contains p "firehose" = String.eqb p "firehose".
Proof.
  intros H. apply valid_spelling in H. cbn in H.
  repeat (destruct H as [H|H]; [symmetry in H; letters p H; cbn -[Ascii.eqb]; fold_case|]).
  contradiction.
Qed.

(** The role block of the update, with the test of the protocol as the code
    writes it. *)
Lemma role_block (conn : SNS.Conn) (d : SNS.ResourceData)
    (Hchanged : SNS.HasChange d "subscription_role_arn" = true) :
  let r := run_sns (SNS.resourceAwsSnsTopicSubscriptionUpdate conn) d in
  let t := SNS.trace (snd r) in
  let firehose := strings_Contains (SNS.protocol d) "firehose" in
  let role := SNS.subscription_role_arn d in
  ((firehose = false /\ role <> EmptyString) \/ (firehose = true /\ role = EmptyString) ->
     sent "SubscriptionRoleArn" t = [] /\ sent "RedrivePolicy" t = [] /\ reads t = []
     /\ (exists e, fst r = Err e /\
           (e = (if firehose then SNS.ErrFirehoseNeedsRole else SNS.ErrOnlyFirehoseRole)
            \/ exists name inner, e = SNS.ErrSetting (SNS.Id d) name inner))
     /\ (SNS.HasChange d "raw_message_delivery" = false ->
         SNS.HasChange d "filter_policy" = false ->
         SNS.HasChange d "delivery_policy" = false ->
         t = [] /\
         fst r = Err (if firehose then SNS.ErrFirehoseNeedsRole
                      else SNS.ErrOnlyFirehoseRole)))
  /\ ((firehose = true /\ role <> EmptyString) \/ (firehose = false /\ role = EmptyString) ->
      (forall e, fst r = Err e -> SNS.is_config_error e = false)
      /\ (SNS.HasChange d "raw_message_delivery" = false ->
          SNS.HasChange d "filter_policy" = false ->
          SNS.HasChange d "delivery_policy" = false ->
          exists t',
            t = SNS.CallSetSubscriptionAttributes
                  {| SNS.sa_SubscriptionArn := Some (SNS.Id d);
                     SNS.sa_AttributeName := Some "SubscriptionRoleArn";
                     SNS.sa_AttributeValue := Some role |} :: t')).
Proof.
  cbv zeta. split.
  - intros [[Hf Hr]|[Hf Hr]]; update_cases; try congruence; rewrite ?Hf;
      repeat split; eauto 6; try discriminate.
  - intros [[Hf Hr]|[Hf Hr]]; update_cases; try congruence;
      (split;
       [ intros e' He';
         first [ injection He' as <-; reflexivity
               | eapply read_error_not_config; exact He' ]
       | try discriminate; intros; eexists; reflexivity ]).
Qed.

(** C7.  On an update whose subscription role changed, and for every
    protocol the schema accepts, the role is validated before its request
    is sent: a non-empty role with a protocol that is not exactly
    "firehose", and an empty role with the protocol "firehose", are
    rejected with a user configuration error; no SubscriptionRoleArn
    request, no later request (redrive policy) and no read is sent, and
    when none of the attributes handled before the role (raw message
    delivery, filter policy, delivery policy) changed, no remote call is
    made at all.  (When one of those changed, its request comes before the
    role is looked at, and the error of that request, if it fails, is the
    one returned.)  The two other combinations, a role with "firehose" and
    no role with another protocol, raise no configuration error, and the
    role is sent. *)
Theorem role_validation (conn : SNS.Conn) (d : SNS.ResourceData)
    (Hchanged : SNS.HasChange d "subscription_role_arn" = true)
    (Hprotocol : validation_StringInSlice protocols true (SNS.protocol d) = true) :
  let r := run_sns (SNS.resourceAwsSnsTopicSubscriptionUpdate conn) d in
  let t := SNS.trace (snd r) in
  let firehose := String.eqb (SNS.protocol d) "firehose" in
  let role := SNS.subscription_role_arn d in
  ((firehose = false /\ role <> EmptyString) \/ (firehose = true /\ role = EmptyString) ->
     sent "SubscriptionRoleArn" t = [] /\ sent "RedrivePolicy" t = [] /\ reads t = []
     /\ (exists e, fst r = Err e /\
           (e = (if firehose then SNS.ErrFirehoseNeedsRole else SNS.ErrOnlyFirehoseRole)
            \/ exists name inner, e = SNS.ErrSetting (SNS.Id d) name inner))
     /\ (SNS.HasChange d "raw_message_delivery" = false ->
         SNS.HasChange d "filter_policy" = false ->
         SNS.HasChange d "delivery_policy" = false ->
         t = [] /\
         fst r = Err (if firehose then SNS.ErrFirehoseNeedsRole
                      else SNS.ErrOnlyFirehoseRole)))
  /\ ((firehose = true /\ role <> EmptyString) \/ (firehose = false /\ role = EmptyString) ->
      (forall e, fst r = Err e -> SNS.is_config_error e = false)
      /\ (SNS.HasChange d "raw_message_delivery" = false ->
          SNS.HasChange d "filter_policy" = false ->
          SNS.HasChange d "delivery_policy" = false ->
          exists t',
            t = SNS.CallSetSubscriptionAttributes
                  {| SNS.sa_SubscriptionArn := Some (SNS.Id d);
                     SNS.sa_AttributeName := Some "SubscriptionRoleArn";
                     SNS.sa_AttributeValue := Some role |} :: t')).
Proof.
  cbv zeta. rewrite <- (valid_firehose _ Hprotocol). exact (role_block conn d Hchanged).
Qed.

(** The four combinations of the role and the protocol, when only the role
    changed. *)
Lemma role_validation_witness :
  let run role protocol :=
    run_sns (SNS.resourceAwsSnsTopicSubscriptionUpdate conn_ok)
      (subscription protocol false role {[ "subscription_role_arn" ]}) in
  (fst (run "x" "sqs") = Err SNS.ErrOnlyFirehoseRole /\ SNS.trace (snd (run "x" "sqs")) = [])
  /\ (fst (run EmptyString "firehose") = Err SNS.ErrFirehoseNeedsRole
      /\ SNS.trace (snd (run EmptyString "firehose")) = [])
  /\ (forall e, fst (run "x" "firehose") = Err e -> SNS.is_config_error e = false)
  /\ (forall e, fst (run EmptyString "sqs") = Err e -> SNS.is_config_error e = false).
Proof.
  cbv zeta.
  assert (Hc : forall role protocol,
             SNS.HasChange (subscription protocol false role {[ "subscription_role_arn" ]})
               "subscription_role_arn" = true) by reflexivity.
  assert (Hs : validation_StringInSlice protocols true "sqs" = true) by reflexivity.
  assert (Hf : validation_StringInSlice protocols true "firehose" = true) by reflexivity.
  pose proof (fun role =>
    role_validation conn_ok
      (subscription "sqs" false role {[ "subscription_role_arn" ]})
      (Hc role "sqs") Hs) as Hsqs.
  pose proof (fun role =>
    role_validation conn_ok
      (subscription "firehose" false role {[ "subscription_role_arn" ]})
      (Hc role "firehose") Hf) as Hfire.
  cbv zeta in Hsqs, Hfire.
  split; [|split; [|split]].
  - destruct (Hsqs "x") as [H1 _].
    destruct H1 as (_ & _ & _ & _ & H1);
      [left; split; [reflexivity | discriminate] | ].
    destruct H1 as [Ht Hr]; try reflexivity. split; [exact Hr | exact Ht].
  - destruct (Hfire EmptyString) as [H1 _].
    destruct H1 as (_ & _ & _ & _ & H1);
      [right; split; reflexivity | ].
    destruct H1 as [Ht Hr]; try reflexivity. split; [exact Hr | exact Ht].
  - destruct (Hfire "x") as [_ H2].
    apply H2. left; split; [reflexivity | discriminate].
  - destruct (Hsqs EmptyString) as [_ H2].
    apply H2. right; split; reflexivity.
Defined.

(** ** Delivery policy: the round trip through JSON *)

Local Open Scope char_scope.

(** *** UTF-8: a rune is decoded from its encoding *)

Local Open Scope N_scope.

Ltac euclid := zify; Z.to_euclidean_division_equations; lia.

Lemma code_chr n : (n < 256)%N -> code (chr n) = n.
Proof. apply N_ascii_embedding. Qed.

Lemma land_mul_pow2_small k h b : b < 2 ^ k -> N.land (h * 2 ^ k) b = 0.
Proof.
  intros Hb. apply N.bits_inj. intros n. rewrite N.land_spec, N.bits_0.
  destruct (N.lt_ge_cases n k) as [Hn|Hn].
  - rewrite N.mul_pow2_bits_low by assumption. reflexivity.
  - destruct (N.eq_dec b 0) as [->|Hnz].
    + rewrite N.bits_0. apply Bool.andb_false_r.
    + rewrite (N.bits_above_log2 b n), Bool.andb_false_r; [reflexivity|].
      apply N.lt_le_trans with k; [|assumption].
      apply N.log2_lt_pow2; lia.
Qed.

Lemma lor_add k h b : b < 2 ^ k -> N.lor (h * 2 ^ k) b = h * 2 ^ k + b.
Proof.
  intros Hb. pose proof (land_mul_pow2_small k h b Hb) as H.
  rewrite <- N.lxor_lor by assumption. symmetry. apply N.add_nocarry_lxor. assumption.
Qed.

(** The bit operations of the encoder and the decoder, as arithmetic. *)
Lemma lor_lead c k x : x < 2 ^ k -> N.lor (c * 2 ^ k) x = c * 2 ^ k + x.
Proof. apply lor_add. Qed.

Lemma lor_C0 x : x < 32 -> N.lor 0xC0 x = 192 + x.
Proof. intros H. apply (lor_add 5 6 x). exact H. Qed.
Lemma lor_E0 x : x < 16 -> N.lor 0xE0 x = 224 + x.
Proof. intros H. apply (lor_add 4 14 x). exact H. Qed.
Lemma lor_F0 x : x < 8 -> N.lor 0xF0 x = 240 + x.
Proof. intros H. apply (lor_add 3 30 x). exact H. Qed.
Lemma lor_80 x : x < 64 -> N.lor 0x80 x = 128 + x.
Proof. intros H. apply (lor_add 6 2 x). exact H. Qed.

Lemma land_3F x : N.land x 0x3F = x mod 64.
Proof. apply (N.land_ones x 6). Qed.
Lemma land_1F x : N.land x 0x1F = x mod 32.
Proof. apply (N.land_ones x 5). Qed.
Lemma land_0F x : N.land x 0x0F = x mod 16.
Proof. apply (N.land_ones x 4). Qed.
Lemma land_07 x : N.land x 0x07 = x mod 8.
Proof. apply (N.land_ones x 3). Qed.

Lemma shiftr_6 x : N.shiftr x 6 = x / 64.
Proof. apply (N.shiftr_div_pow2 x 6). Qed.
Lemma shiftr_12 x : N.shiftr x 12 = x / 4096.
Proof. apply (N.shiftr_div_pow2 x 12). Qed.
Lemma shiftr_18 x : N.shiftr x 18 = x / 262144.
Proof. apply (N.shiftr_div_pow2 x 18). Qed.

Lemma join_6 h l : l < 64 -> N.lor (N.shiftl h 6) l = h * 64 + l.
Proof. intros H. rewrite N.shiftl_mul_pow2. apply (lor_add 6 h l). exact H. Qed.
Lemma join_12 h l : l < 4096 -> N.lor (N.shiftl h 12) l = h * 4096 + l.
Proof. intros H. rewrite N.shiftl_mul_pow2. apply (lor_add 12 h l). exact H. Qed.
Lemma join_18 h l : l < 262144 -> N.lor (N.shiftl h 18) l = h * 262144 + l.
Proof. intros H. rewrite N.shiftl_mul_pow2. apply (lor_add 18 h l). exact H. Qed.

Ltac conds :=
  repeat match goal with
  | |- context [(?a <? ?b)%N] => destruct (N.ltb_spec a b); try lia
  | |- context [(?a <=? ?b)%N] => destruct (N.leb_spec a b); try lia
  | |- context [(?a =? ?b)%N] => destruct (N.eqb_spec a b); try lia
  end.

Lemma DecodeRune_2 h l :
  2 <= h < 32 -> l < 64 ->
  DecodeRune [chr (192 + h); chr (128 + l)] = (h * 64 + l, 2%nat).
Proof.
  intros Hh Hl. unfold DecodeRune, first, RuneSelf.
  rewrite !code_chr by lia. conds. cbn [orb Nat.leb].
  rewrite land_1F, land_3F, join_6 by euclid.
  f_equal. euclid.
Qed.

Lemma lor_low x l : x mod 64 = 0 -> l < 64 -> N.lor x l = x + l.
Proof.
  intros Hx Hl. replace x with ((x / 64) * 2 ^ 6) by (change (2 ^ 6) with 64; euclid).
  apply lor_add. exact Hl.
Qed.

Lemma shiftl_6 x : N.shiftl x 6 = x * 64.
Proof. apply (N.shiftl_mul_pow2 x 6). Qed.
Lemma shiftl_12 x : N.shiftl x 12 = x * 4096.
Proof. apply (N.shiftl_mul_pow2 x 12). Qed.
Lemma shiftl_18 x : N.shiftl x 18 = x * 262144.
Proof. apply (N.shiftl_mul_pow2 x 18). Qed.

Lemma DecodeRune_3 h m l :
  h < 16 -> m < 64 -> l < 64 -> (h = 0 -> 32 <= m) -> (h = 13 -> m < 32) ->
  DecodeRune [chr (224 + h); chr (128 + m); chr (128 + l)]
    = (h * 4096 + m * 64 + l, 3%nat).
Proof.
  intros Hh Hm Hl H0 H13. unfold DecodeRune, first, continuation, RuneSelf.
  rewrite !code_chr by lia.
  assert (E1 : (224 + h) mod 16 = h) by euclid.
  assert (E2 : (128 + m) mod 64 = m) by euclid.
  assert (E3 : (128 + l) mod 64 = l) by euclid.
  assert (E4 : N.lor (N.lor (N.shiftl h 12) (N.shiftl m 6)) l = h * 4096 + m * 64 + l).
  { rewrite shiftl_6, join_12 by lia. apply lor_low; [euclid | lia]. }
  conds; cbn [orb andb negb Nat.leb]; rewrite land_0F, !land_3F, E1, E2, E3, E4;
    reflexivity.
Qed.

Lemma DecodeRune_4 h m1 m2 l :
  h < 5 -> m1 < 64 -> m2 < 64 -> l < 64 -> (h = 0 -> 16 <= m1) -> (h = 4 -> m1 < 16) ->
  DecodeRune [chr (240 + h); chr (128 + m1); chr (128 + m2); chr (128 + l)]
    = (h * 262144 + m1 * 4096 + m2 * 64 + l, 4%nat).
Proof.
  intros Hh Hm1 Hm2 Hl H0 H4. unfold DecodeRune, first, continuation, RuneSelf.
  rewrite !code_chr by lia.
  assert (E1 : (240 + h) mod 8 = h) by euclid.
  assert (E2 : (128 + m1) mod 64 = m1) by euclid.
  assert (E3 : (128 + m2) mod 64 = m2) by euclid.
  assert (E4 : (128 + l) mod 64 = l) by euclid.
  assert (E5 : N.lor (N.lor (N.lor (N.shiftl h 18) (N.shiftl m1 12)) (N.shiftl m2 6)) l
               = h * 262144 + m1 * 4096 + m2 * 64 + l).
  { rewrite shiftl_12, join_18 by lia. rewrite shiftl_6.
    replace (h * 262144 + m1 * 4096) with ((h * 64 + m1) * 2 ^ 12)
      by (change (2 ^ 12) with 4096; lia).
    rewrite lor_add by (change (2 ^ 12) with 4096; lia).
    change (2 ^ 12) with 4096. apply lor_low; [euclid | lia]. }
  conds; cbn [orb andb negb Nat.leb]; rewrite land_07, !land_3F, E1, E2, E3, E4, E5;
    reflexivity.
Qed.

Lemma EncodeRune_2 r :
  0x80 <= r <= 0x7FF -> EncodeRune r = [chr (192 + r / 64); chr (128 + r mod 64)].
Proof.
  intros H. unfold EncodeRune. conds.
  rewrite shiftr_6, land_3F, lor_C0, lor_80 by euclid. reflexivity.
Qed.

Lemma EncodeRune_3 r :
  0x800 <= r <= 0xFFFF -> ValidRune r = true ->
  EncodeRune r =
    [chr (224 + r / 4096); chr (128 + (r / 64) mod 64); chr (128 + r mod 64)].
Proof.
  intros H Hv. unfold EncodeRune. rewrite Hv. cbn [negb]. conds.
  rewrite shiftr_6, shiftr_12, !land_3F, lor_E0, !lor_80 by euclid. reflexivity.
Qed.

Lemma EncodeRune_4 r :
  0x10000 <= r <= 0x10FFFF ->
  EncodeRune r =
    [chr (240 + r / 262144); chr (128 + (r / 4096) mod 64);
     chr (128 + (r / 64) mod 64); chr (128 + r mod 64)].
Proof.
  intros H. unfold EncodeRune, ValidRune, MaxRune. conds. cbn [andb negb].
  rewrite shiftr_6, shiftr_12, shiftr_18, !land_3F, lor_F0, !lor_80 by euclid.
  reflexivity.
Qed.

Lemma ValidRune_cases r :
  ValidRune r = true -> r <= 0x10FFFF /\ (r < 0xD800 \/ 0xDFFF < r).
Proof.
  unfold ValidRune, MaxRune. intros H. apply andb_true_iff in H as [H1 H2].
  apply N.leb_le in H1. apply negb_true_iff, andb_false_iff in H2.
  split; [assumption|]. destruct H2 as [H2|H2]; apply N.leb_gt in H2; lia.
Qed.

Local Close Scope N_scope.

Lemma chr_code b : chr (code b) = b.
Proof. apply ascii_N_embedding. Qed.

Lemma code_lt_256 b : (code b < 256)%N.
Proof. apply N_ascii_bounded. Qed.

Lemma DecodeRune_app l rest r n :
  DecodeRune l = (r, n) -> n = length l -> (2 <= n)%nat ->
  DecodeRune (l ++ rest) = (r, n).
Proof.
  intros H Hn H2. subst n.
  destruct l as [|c0 [|c1 [|c2 [|c3 [|c4 l]]]]]; cbn [length] in H2; try lia;
    cbn [app]; cbn [DecodeRune] in *;
    repeat match goal with
    | H : context [if ?b then _ else _] |- _ => destruct b eqn:?
    | H : context [match first ?x with _ => _ end] |- _ =>
        destruct (first x) as [[? [? ?]]|] eqn:?
    | H : (_, _) = (_, _) |- _ => inversion H; clear H; subst
    end; try reflexivity; cbn [length] in *; try lia.
Qed.

Local Open Scope N_scope.

Lemma encode_decode r :
  ValidRune r = true -> (RuneSelf <= r)%N ->
  DecodeRune (EncodeRune r) = (r, length (EncodeRune r))
  /\ (2 <= length (EncodeRune r))%nat
  /\ Forall (fun c => (RuneSelf <= code c)%N) (EncodeRune r).
Proof.
  intros Hv Hr. unfold RuneSelf in *.
  destruct (ValidRune_cases r Hv) as [Hmax Hsur].
  destruct (N.le_gt_cases r 0x7FF) as [H2|H2];
    [|destruct (N.le_gt_cases r 0xFFFF) as [H3|H3]].
  - rewrite EncodeRune_2 by lia. rewrite DecodeRune_2 by euclid.
    split; [f_equal; euclid|]. split; [cbn; lia|].
    repeat constructor; rewrite code_chr; euclid.
  - rewrite EncodeRune_3 by (auto; lia). rewrite DecodeRune_3 by euclid.
    split; [f_equal; euclid|]. split; [cbn; lia|].
    repeat constructor; rewrite code_chr; euclid.
  - rewrite EncodeRune_4 by lia. rewrite DecodeRune_4 by euclid.
    split; [f_equal; euclid|]. split; [cbn; lia|].
    repeat constructor; rewrite code_chr; euclid.
Qed.

Local Close Scope N_scope.

Lemma DecodeRune_EncodeRune r rest :
  ValidRune r = true -> (RuneSelf <= r)%N ->
  DecodeRune (EncodeRune r ++ rest) = (r, length (EncodeRune r)).
Proof.
  intros Hv Hr. destruct (encode_decode r Hv Hr) as (H1 & H2 & _).
  apply DecodeRune_app; auto.
Qed.

Ltac each_byte b :=
  destruct b as [[] [] [] [] [] [] [] []].

Lemma quoteByte_scan b X :
  (code b < RuneSelf)%N ->
  scanString (quoteByte b ++ X) = prepend (quoteByte b) (scanString X).
Proof.
  intros H. each_byte b; try (vm_compute in H; discriminate H);
    lazy -[scanString]; fold scanString; cbn;
    destruct (scanString X) as [[? ?]|]; reflexivity.
Qed.

Lemma quoteByte_unquote b X m :
  (code b < RuneSelf)%N ->
  unquoteBytes (S m) (quoteByte b ++ X) = option_map (cons b) (unquoteBytes m X).
Proof.
  intros H. each_byte b; try (vm_compute in H; discriminate H); reflexivity.
Qed.

Lemma quoteByte_nonempty b : (1 <= length (quoteByte b))%nat.
Proof. unfold quoteByte. destruct (htmlSafe b); cbn; lia. Qed.

Lemma encodeStringBody_ascii n b t :
  (code b < RuneSelf)%N ->
  encodeStringBody (S n) (b :: t) = quoteByte b ++ encodeStringBody n t.
Proof.
  intros H. cbn [encodeStringBody]. apply N.ltb_lt in H. rewrite H. reflexivity.
Qed.

Lemma plain_scan chunk X :
  Forall plain chunk -> scanString (chunk ++ X) = prepend chunk (scanString X).
Proof.
  induction 1 as [|c chunk [Hq [Hb Hc]] _ IH]; cbn [app].
  - destruct (scanString X) as [[? ?]|]; reflexivity.
  - cbn [scanString].
    destruct (Ascii.eqb_spec c "034"); [contradiction|].
    destruct (Ascii.eqb_spec c "\"); [contradiction|].
    destruct (code c <? 32)%N eqn:Hlt; [apply N.ltb_lt in Hlt; lia|].
    rewrite IH. destruct (scanString X) as [[? ?]|]; reflexivity.
Qed.

Lemma high_plain c : (RuneSelf <= code c)%N -> plain c.
Proof.
  unfold plain, RuneSelf. intros H. repeat split; try lia;
    intros ->; vm_compute in H; apply H; reflexivity.
Qed.

Section Rune.
Variable r : N.
Hypothesis Hv : ValidRune r = true.
Hypothesis Hr : (RuneSelf <= r)%N.

Lemma EncodeRune_head :
  exists b t, EncodeRune r = b :: t /\ (RuneSelf <= code b)%N /\ t <> [].
Proof.
  destruct (encode_decode r Hv Hr) as (_ & Hlen & Hall).
  destruct (EncodeRune r) as [|b [|b' t]]; cbn in Hlen; try lia.
  exists b, (b' :: t). repeat split; [|discriminate].
  inversion Hall; assumption.
Qed.

Lemma rune_source l :
  exists b t,
    EncodeRune r ++ l = b :: t /\ (RuneSelf <= code b)%N
    /\ DecodeRune (b :: t) = (r, length (EncodeRune r))
    /\ skipn (length (EncodeRune r)) (b :: t) = l
    /\ firstn (length (EncodeRune r)) (b :: t) = EncodeRune r.
Proof.
  destruct EncodeRune_head as (b & t & Hbt & Hb & _).
  exists b, (t ++ l). rewrite Hbt at 1. split; [reflexivity|]. split; [assumption|].
  replace (b :: t ++ l) with (EncodeRune r ++ l) by (rewrite Hbt; reflexivity).
  split; [apply DecodeRune_EncodeRune; assumption|]. split.
  - rewrite skipn_app, Nat.sub_diag, skipn_all. reflexivity.
  - rewrite firstn_app, Nat.sub_diag, firstn_all. cbn. apply app_nil_r.
Qed.

Lemma encodeStringBody_rune n l :
  encodeStringBody (S n) (EncodeRune r ++ l) = quoteRune r ++ encodeStringBody n l.
Proof.
  destruct (encode_decode r Hv Hr) as (_ & Hlen & _).
  destruct (rune_source l) as (b & t & -> & Hb & Hd & Hskip & Hfirst).
  cbn [encodeStringBody].
  destruct (code b <? RuneSelf)%N eqn:Hlt; [apply N.ltb_lt in Hlt; lia|].
  rewrite Hd, Hskip, Hfirst.
  destruct (length (EncodeRune r) =? 1)%nat eqn:H1; [apply Nat.eqb_eq in H1; lia|].
  rewrite andb_false_r. unfold quoteRune.
  destruct ((r =? 8232)%N || (r =? 8233)%N); reflexivity.
Qed.

Lemma quoteRune_nonempty : (1 <= length (quoteRune r))%nat.
Proof.
  unfold quoteRune. destruct ((r =? 8232)%N || (r =? 8233)%N); cbn; [lia|].
  destruct (encode_decode r Hv Hr) as (_ & Hlen & _). lia.
Qed.

Lemma quoteRune_scan X :
  scanString (quoteRune r ++ X) = prepend (quoteRune r) (scanString X).
Proof.
  unfold quoteRune.
  destruct (r =? 8232)%N eqn:H1; [apply N.eqb_eq in H1; subst;
    cbn; destruct (scanString X) as [[? ?]|]; reflexivity|].
  destruct (r =? 8233)%N eqn:H2; [apply N.eqb_eq in H2; subst;
    cbn; destruct (scanString X) as [[? ?]|]; reflexivity|].
  cbn [orb]. apply plain_scan.
  destruct (encode_decode r Hv Hr) as (_ & _ & Hall).
  eapply List.Forall_impl; [|exact Hall]. intros c. apply high_plain.
Qed.

Lemma quoteRune_unquote X m :
  unquoteBytes (S m) (quoteRune r ++ X) = option_map (app (EncodeRune r)) (unquoteBytes m X).
Proof.
  unfold quoteRune.
  destruct (r =? 8232)%N eqn:H1; [apply N.eqb_eq in H1; subst; reflexivity|].
  destruct (r =? 8233)%N eqn:H2; [apply N.eqb_eq in H2; subst; reflexivity|].
  cbn [orb].
  destruct (rune_source X) as (b & t & -> & Hb & Hd & Hskip & _).
  cbn [unquoteBytes].
  destruct (high_plain b Hb) as (Hq & Hbs & Hc).
  destruct (Ascii.eqb_spec b "\"); [contradiction|].
  destruct (Ascii.eqb_spec b "034"); [contradiction|].
  destruct (code b <? 32)%N eqn:Hlt; [apply N.ltb_lt in Hlt; lia|].
  destruct (code b <? RuneSelf)%N eqn:Hlt'; [apply N.ltb_lt in Hlt'; lia|].
  cbn [orb]. rewrite Hd, Hskip. reflexivity.
Qed.

End Rune.

Lemma encodeStringBody_nil n : encodeStringBody n [] = [].
Proof. destruct n; reflexivity. Qed.

Lemma scan_quoted s : utf8 s -> forall n X,
  (length s <= n)%nat ->
  scanString (encodeStringBody n s ++ "034" :: X) = Some (encodeStringBody n s, X).
Proof.
  induction 1 as [|b l Hb _ IH|r l Hv Hr _ IH]; intros n X Hn.
  - rewrite encodeStringBody_nil. reflexivity.
  - destruct n as [|n]; [cbn in Hn; lia|]. cbn [length] in Hn.
    rewrite encodeStringBody_ascii by assumption.
    rewrite <- app_assoc, quoteByte_scan by assumption.
    rewrite IH by lia. reflexivity.
  - rewrite length_app in Hn.
    destruct (encode_decode r Hv Hr) as (_ & Hlen & _).
    destruct n as [|n]; [lia|].
    rewrite encodeStringBody_rune by assumption.
    rewrite <- app_assoc, quoteRune_scan by assumption.
    rewrite IH by lia. reflexivity.
Qed.

Lemma unquote_quoted s : utf8 s -> forall n m,
  (length s <= n)%nat -> (length (encodeStringBody n s) <= m)%nat ->
  unquoteBytes m (encodeStringBody n s) = Some s.
Proof.
  induction 1 as [|b l Hb _ IH|r l Hv Hr _ IH]; intros n m Hn Hm.
  - rewrite encodeStringBody_nil. destruct m; reflexivity.
  - destruct n as [|n]; [cbn in Hn; lia|]. cbn [length] in Hn.
    rewrite encodeStringBody_ascii in * by assumption.
    rewrite length_app in Hm. pose proof (quoteByte_nonempty b).
    destruct m as [|m]; [lia|].
    rewrite quoteByte_unquote by assumption.
    rewrite IH by lia. reflexivity.
  - rewrite length_app in Hn.
    destruct (encode_decode r Hv Hr) as (_ & Hlen & _).
    destruct n as [|n]; [lia|].
    rewrite encodeStringBody_rune in * by assumption.
    rewrite length_app in Hm. pose proof (quoteRune_nonempty r Hv Hr).
    destruct m as [|m]; [lia|].
    rewrite quoteRune_unquote by assumption.
    rewrite IH by lia. reflexivity.
Qed.

Lemma utf8_EncodeRune x l : utf8 l -> utf8 (EncodeRune x ++ l).
Proof.
  intros Hl. destruct (x <=? 127)%N eqn:H1.
  - apply N.leb_le in H1. unfold EncodeRune. rewrite (proj2 (N.leb_le _ _) H1).
    cbn [app]. apply utf8_ascii; [|assumption].
    rewrite code_chr by lia. unfold RuneSelf. lia.
  - apply N.leb_gt in H1. destruct (ValidRune x) eqn:Hv.
    + apply utf8_multi; auto. unfold RuneSelf. lia.
    + replace (EncodeRune x) with (EncodeRune RuneError).
      * apply utf8_multi; auto. unfold RuneSelf, RuneError. lia.
      * unfold EncodeRune at 2. rewrite (proj2 (N.leb_gt _ _) H1), Hv. cbn [negb].
        destruct (x <=? 2047)%N eqn:H2; [|reflexivity].
        apply N.leb_le in H2. unfold ValidRune, MaxRune in Hv.
        apply andb_false_iff in Hv. destruct Hv as [Hv|Hv].
        -- apply N.leb_gt in Hv. lia.
        -- apply negb_false_iff, andb_true_iff in Hv. destruct Hv as [Hv _].
           apply N.leb_le in Hv. lia.
Qed.

Lemma unescape_ascii e b : unescape e = Some b -> (code b < RuneSelf)%N.
Proof.
  unfold unescape.
  repeat match goal with |- context [if ?c then _ else _] => destruct c eqn:? end;
    intros [= <-]; try (vm_compute; reflexivity).
  repeat match goal with
  | H : _ || _ = true |- _ => apply orb_true_iff in H; destruct H as [H|H]
  | H : Ascii.eqb _ _ = true |- _ => apply Ascii.eqb_eq in H; subst
  end; vm_compute; reflexivity.
Qed.

Lemma unquote_utf8 n : forall raw s, unquoteBytes n raw = Some s -> utf8 s.
Proof.
  induction n as [|n IH]; intros raw s H.
  - destruct raw; cbn in H; [injection H as <-; constructor | discriminate].
  - destruct raw as [|c t]; [injection H as <-; constructor|].
    cbn [unquoteBytes] in H.
    repeat match type of H with
    | context [if ?b then _ else _] => destruct b eqn:?
    | context [match ?t with [] => _ | _ :: _ => _ end] => destruct t
    | context [match getu4 ?x with _ => _ end] => destruct (getu4 x) eqn:?
    | context [match unescape ?x with _ => _ end] => destruct (unescape x) eqn:?
    | context [let '(_, _) := DecodeRune ?x in _] => destruct (DecodeRune x) eqn:?
    | None = Some _ => discriminate H
    end;
    match type of H with
    | option_map _ (unquoteBytes n ?x) = Some _ =>
        destruct (unquoteBytes n x) as [s'|] eqn:Hs; cbn [option_map] in H;
        [injection H as <-; apply IH in Hs | discriminate H]
    end;
    first [ apply utf8_EncodeRune; assumption
          | apply (utf8_EncodeRune RuneError); assumption
          | apply utf8_ascii;
            [ first [ eapply unescape_ascii; eassumption
                    | apply N.ltb_lt; assumption ]
            | assumption ] ].
Qed.

Lemma dropSpace_string n : forall l lit rest,
  (length l <= n)%nat ->
  scanString l = Some (lit, rest) ->
  dropSpace true false l = lit ++ "034" :: dropSpace false false rest.
Proof.
  induction n as [|n IH]; intros l lit rest Hn H.
  - destruct l; [discriminate H | cbn in Hn; lia].
  - destruct l as [|c t]; [discriminate H|]. cbn [length] in Hn.
    cbn [scanString] in H. cbn [dropSpace].
    destruct (Ascii.eqb_spec c "034") as [->|Hq].
    { injection H as <- <-. reflexivity. }
    destruct (Ascii.eqb_spec c "\") as [->|Hb].
    + destruct t as [|e t1]; [discriminate H|]. cbn [dropSpace].
      destruct (Ascii.eqb_spec e "u") as [->|He].
      * destruct t1 as [|h1 [|h2 [|h3 [|h4 t2]]]]; try discriminate H.
        destruct (isHex h1 && isHex h2 && isHex h3 && isHex h4) eqn:Hh; [|discriminate H].
        destruct (scanString t2) as [[s r]|] eqn:Hs; [|discriminate H].
        injection H as <- <-.
        assert (Hplain : forall h, isHex h = true ->
                  Ascii.eqb h "\" = false /\ Ascii.eqb h "034" = false).
        { intros h. destruct h as [[] [] [] [] [] [] [] []]; vm_compute; auto;
            discriminate. }
        repeat (apply andb_true_iff in Hh; destruct Hh as [Hh ?]).
        cbn [dropSpace].
        repeat match goal with
        | Hx : isHex ?h = true |- _ =>
            destruct (Hplain h Hx) as [-> ->]; clear Hx
        end.
        cbn [length] in Hn. rewrite (IH t2 s r) by (auto; lia). reflexivity.
      * destruct (_ || _) in H; [|discriminate H].
        destruct (scanString t1) as [[s r]|] eqn:Hs; [|discriminate H].
        injection H as <- <-.
        cbn [length] in Hn. rewrite (IH t1 s r) by (auto; lia). reflexivity.
    + destruct (code c <? 32)%N; [discriminate H|].
      destruct (scanString t) as [[s r]|] eqn:Hs; [|discriminate H].
      injection H as <- <-.
      rewrite (IH t s r) by (auto; lia). reflexivity.
Qed.

Lemma digitChar_cases k : (0 <= k < 10)%Z ->
  isDigit (digitChar k) = true /\ digitValue (digitChar k) = k
  /\ (k <> 0%Z -> digitChar k <> "0").
Proof.
  intros H.
  assert (Hk : (k = 0 \/ k = 1 \/ k = 2 \/ k = 3 \/ k = 4 \/ k = 5 \/ k = 6 \/ k = 7
               \/ k = 8 \/ k = 9)%Z) by lia.
  repeat (destruct Hk as [->|Hk]); try subst k;
    (split; [reflexivity | split; [reflexivity | intros Hz; try lia; discriminate]]).
Qed.

Lemma formatDigits_acc n : forall u acc,
  formatDigits n u acc = formatDigits n u [] ++ acc.
Proof.
  induction n as [|n IH]; intros u acc; [reflexivity|].
  cbn [formatDigits]. destruct (u <? 10)%Z; [reflexivity|].
  rewrite IH, (IH _ [_]), <- app_assoc. reflexivity.
Qed.

Lemma formatDigits_digits n : forall u,
  (0 <= u)%Z -> forallb isDigit (formatDigits n u []) = true.
Proof.
  induction n as [|n IH]; intros u Hu; [reflexivity|].
  cbn [formatDigits].
  assert (Hd : isDigit (chr (Z.to_N (48 + u mod 10))) = true).
  { apply (digitChar_cases (u mod 10)). apply Z.mod_pos_bound. lia. }
  destruct (u <? 10)%Z.
  - cbn. rewrite Hd. reflexivity.
  - rewrite formatDigits_acc, forallb_app, IH by (apply Z.div_pos; lia).
    cbn. rewrite Hd. reflexivity.
Qed.

Lemma parseDigits_app ds1 ds2 :
  parseDigits (ds1 ++ ds2) =
  fold_left (fun acc c => (acc * 10 + digitValue c)%Z) ds2 (parseDigits ds1).
Proof. unfold parseDigits. apply fold_left_app. Qed.

Lemma formatDigits_parse n : forall u,
  (0 <= u < 10 ^ Z.of_nat n)%Z -> parseDigits (formatDigits n u []) = u.
Proof.
  induction n as [|n IH]; intros u Hu.
  - cbn in Hu. cbn. lia.
  - cbn [formatDigits].
    assert (Hd : digitValue (chr (Z.to_N (48 + u mod 10))) = (u mod 10)%Z).
    { apply (digitChar_cases (u mod 10)). apply Z.mod_pos_bound. lia. }
    destruct (u <? 10)%Z eqn:Hlt.
    + apply Z.ltb_lt in Hlt. cbn. rewrite Hd. rewrite Z.mod_small by lia. reflexivity.
    + apply Z.ltb_ge in Hlt.
      rewrite formatDigits_acc, parseDigits_app. cbn [fold_left].
      rewrite IH, Hd.
      * pose proof (Z.div_mod u 10). lia.
      * rewrite Nat2Z.inj_succ, Z.pow_succ_r in Hu by lia.
        split; [apply Z.div_pos; lia | apply Z.div_lt_upper_bound; lia].
Qed.

Lemma formatDigits_head n : forall u acc,
  (0 < u < 10 ^ Z.of_nat (S n))%Z ->
  exists c t, formatDigits (S n) u acc = c :: t /\ isDigit c = true /\ c <> "0".
Proof.
  induction n as [|n IH]; intros u acc Hu.
  - cbn [formatDigits]. cbn in Hu.
    destruct (u <? 10)%Z eqn:Hlt; [|apply Z.ltb_ge in Hlt; lia].
    destruct (digitChar_cases (u mod 10)) as (H1 & _ & H3);
      [apply Z.mod_pos_bound; lia|].
    eexists _, _. split; [reflexivity|]. split; [exact H1|].
    apply H3. rewrite Z.mod_small; lia.
  - remember (S n) as m. cbn [formatDigits].
    destruct (u <? 10)%Z eqn:Hlt.
    + apply Z.ltb_lt in Hlt.
      destruct (digitChar_cases (u mod 10)) as (H1 & _ & H3);
        [apply Z.mod_pos_bound; lia|].
      eexists _, _. split; [reflexivity|]. split; [exact H1|].
      apply H3. rewrite Z.mod_small; lia.
    + apply Z.ltb_ge in Hlt. subst m. apply IH.
      rewrite (Nat2Z.inj_succ (S n)), Z.pow_succ_r in Hu by lia.
      split; [apply Z.div_str_pos; lia | apply Z.div_lt_upper_bound; lia].
Qed.

Lemma formatDigits_zero n acc : formatDigits (S n) 0 acc = "0" :: acc.
Proof. reflexivity. Qed.

Lemma int64_digits z : inInt64 z = true -> (Z.abs z < 10 ^ Z.of_nat 20)%Z.
Proof.
  unfold inInt64. intros H. apply andb_true_iff in H. destruct H as [H1 H2].
  apply Z.leb_le in H1, H2. change (10 ^ Z.of_nat 20)%Z with 100000000000000000000%Z.
  change (2 ^ 63)%Z with 9223372036854775808%Z in *. lia.
Qed.

Lemma digit_no_sign c :
  isDigit c = true -> Ascii.eqb c "+" = false /\ Ascii.eqb c "-" = false.
Proof.
  intros Hc. destruct c as [[] [] [] [] [] [] [] []]; vm_compute in Hc;
    try discriminate Hc; split; reflexivity.
Qed.

Lemma ParseInt_neg ds :
  ds <> [] -> forallb isDigit ds = true ->
  ParseInt ("-" :: ds) =
    if inInt64 (- parseDigits ds) then Some (- parseDigits ds)%Z else None.
Proof.
  intros Hne Hd. unfold ParseInt.
  change (Ascii.eqb "-" "+") with false. change (Ascii.eqb "-" "-") with true.
  cbv iota. destruct ds as [|c t]; [congruence|]. rewrite Hd. reflexivity.
Qed.

Lemma ParseInt_pos ds :
  ds <> [] -> forallb isDigit ds = true ->
  ParseInt ds = if inInt64 (parseDigits ds) then Some (parseDigits ds) else None.
Proof.
  intros Hne Hd. unfold ParseInt. destruct ds as [|c t]; [congruence|].
  assert (Hc : isDigit c = true) by (cbn in Hd; apply andb_true_iff in Hd; tauto).
  destruct (digit_no_sign c Hc) as [-> ->]. rewrite Hd. reflexivity.
Qed.

Lemma formatDigits_nonempty n u : formatDigits (S n) u [] <> [].
Proof.
  cbn [formatDigits]. destruct (u <? 10)%Z; [discriminate|].
  rewrite formatDigits_acc. intros H. apply app_eq_nil in H. destruct H; discriminate.
Qed.

Lemma ParseInt_FormatInt z : inInt64 z = true -> ParseInt (FormatInt z) = Some z.
Proof.
  intros Hz. pose proof (int64_digits z Hz) as Hb. unfold FormatInt.
  destruct (z <? 0)%Z eqn:Hneg.
  - apply Z.ltb_lt in Hneg.
    rewrite ParseInt_neg by (first [apply formatDigits_nonempty
                                   | apply formatDigits_digits; lia]).
    rewrite formatDigits_parse by lia. rewrite Z.opp_involutive, Hz. reflexivity.
  - apply Z.ltb_ge in Hneg.
    rewrite ParseInt_pos by (first [apply formatDigits_nonempty
                                   | apply formatDigits_digits; lia]).
    rewrite formatDigits_parse by lia. rewrite Hz. reflexivity.
Qed.

Lemma spanDigits_app ds rest :
  forallb isDigit ds = true -> delimited rest ->
  spanDigits (ds ++ rest) = (ds, rest).
Proof.
  induction ds as [|c ds IH]; cbn [app forallb]; intros Hd Hr.
  - destruct rest as [|c t]; [reflexivity|]. cbn [spanDigits].
    destruct Hr as [->| ->]; reflexivity.
  - apply andb_true_iff in Hd. destruct Hd as [Hc Hd].
    cbn [spanDigits]. rewrite Hc, IH by assumption. reflexivity.
Qed.

Lemma scanExp_delimited acc rest : delimited rest -> scanExp acc rest = Some (acc, rest).
Proof. destruct rest as [|c t]; [reflexivity|]. intros [->| ->]; reflexivity. Qed.

Lemma scanFrac_delimited acc rest : delimited rest -> scanFrac acc rest = Some (acc, rest).
Proof.
  intros H. destruct rest as [|c t]; [reflexivity|].
  destruct H as [->| ->]; reflexivity.
Qed.

Lemma scanDigits_number c t rest :
  isDigit c = true -> forallb isDigit t = true -> (c = "0" -> t = []) ->
  delimited rest ->
  scanNumber (c :: t ++ rest) = Some (c :: t, rest)
  /\ scanNumber ("-" :: c :: t ++ rest) = Some ("-" :: c :: t, rest).
Proof.
  intros Hc Ht H0 Hr. destruct (digit_no_sign c Hc) as [_ Hm].
  assert (Hcm : c <> "-") by (intros ->; discriminate Hm).
  unfold scanNumber.
  assert (Hmatch : forall A (x y : A),
            match c with "-" => x | _ => y end = y).
  { intros A x y. clear -Hcm. destruct c as [[] [] [] [] [] [] [] []];
      try reflexivity. congruence. }
  destruct (Ascii.eqb_spec c "0") as [->|Hnz].
  - rewrite (H0 eq_refl). cbn [app]. rewrite !scanFrac_delimited by assumption.
    split; reflexivity.
  - cbn [app]. 
    assert (E1 : (let '(sign, l1) :=
                   match c :: t ++ rest with
                   | "-" :: t0 => (["-"], t0)
                   | _ => ([], c :: t ++ rest)
                   end in
                 match l1 with
                 | c0 :: t0 => if Ascii.eqb c0 "0" then scanFrac (sign ++ [c0]) t0
                      else if isDigit c0 then
                        let '(ds, r) := spanDigits t0 in scanFrac (sign ++ c0 :: ds) r
                      else None
                 | [] => None end) = Some (c :: t, rest)).
    { replace (match c :: t ++ rest with
               | "-" :: t0 => (["-"], t0)
               | _ => ([], c :: t ++ rest)
               end) with (@nil ascii, c :: t ++ rest).
      - destruct (Ascii.eqb_spec c "0"); [contradiction|].
        rewrite Hc, spanDigits_app by assumption.
        apply scanFrac_delimited; assumption.
      - clear -Hcm. destruct c as [[] [] [] [] [] [] [] []]; try reflexivity. congruence. }
    split; [exact E1|].
    destruct (Ascii.eqb_spec c "0"); [contradiction|].
    rewrite Hc, spanDigits_app by assumption.
    apply scanFrac_delimited; assumption.
Qed.

Lemma FormatInt_shape z : inInt64 z = true ->
  exists c t, isDigit c = true /\ forallb isDigit t = true /\ (c = "0" -> t = [])
    /\ (FormatInt z = c :: t \/ FormatInt z = "-" :: c :: t).
Proof.
  intros Hz. pose proof (int64_digits z Hz) as Hb. unfold FormatInt.
  destruct (z <? 0)%Z eqn:Hneg.
  - apply Z.ltb_lt in Hneg.
    destruct (formatDigits_head 19 (- z) []) as (c & t & Hct & Hc & Hnz); [lia|].
    exists c, t. pose proof (formatDigits_digits 20 (- z) ltac:(lia)) as Hd.
    rewrite Hct in *. cbn in Hd. apply andb_true_iff in Hd.
    split; [assumption|]. split; [tauto|]. split; [intros; contradiction|].
    right. reflexivity.
  - apply Z.ltb_ge in Hneg. destruct (Z.eq_dec z 0%Z) as [->|Hnz0].
    + exists "0", []. split; [reflexivity|]. split; [reflexivity|].
      split; [reflexivity|]. left. reflexivity.
    + destruct (formatDigits_head 19 z []) as (c & t & Hct & Hc & Hnz); [lia|].
      exists c, t. pose proof (formatDigits_digits 20 z ltac:(lia)) as Hd.
      rewrite Hct in *. cbn in Hd. apply andb_true_iff in Hd.
      split; [assumption|]. split; [tauto|]. split; [intros; contradiction|].
      left. reflexivity.
Qed.

Lemma digit_dispatch c : isDigit c = true \/ c = "-" ->
  isSpace c = false /\ Ascii.eqb c "{" = false /\ Ascii.eqb c "[" = false
  /\ Ascii.eqb c "034" = false /\ Ascii.eqb c "t" = false
  /\ Ascii.eqb c "f" = false /\ Ascii.eqb c "n" = false.
Proof.
  intros [Hc| ->]; [|repeat split; reflexivity].
  destruct c as [[] [] [] [] [] [] [] []]; vm_compute in Hc; try discriminate Hc;
    repeat split; reflexivity.
Qed.

Lemma parse_number z d : inInt64 z = true -> ParsesAs d (Number (FormatInt z)) (FormatInt z).
Proof.
  intros Hz n rest Hn Hr.
  destruct (FormatInt_shape z Hz) as (c & t & Hc & Ht & H0 & [E|E]);
    rewrite E in *; (destruct n as [|n]; [cbn in Hn; lia|]);
    destruct (scanDigits_number c t rest Hc Ht H0 Hr) as [S1 S2].
  - destruct (digit_dispatch c (or_introl Hc)) as (Hs & H1 & H2 & H3 & H4 & H5 & H6).
    cbn [parseValue app skipSpace]. rewrite Hs, H1, H2, H3, H4, H5, H6.
    change (c :: t ++ rest) with ((c :: t) ++ rest) in S1 |- *.
    cbn [app] in *. rewrite S1. reflexivity.
  - cbn [parseValue app skipSpace]. 
    change (isSpace "-") with false. cbv iota.
    change (Ascii.eqb "-" "{") with false. change (Ascii.eqb "-" "[") with false.
    change (Ascii.eqb "-" "034") with false. change (Ascii.eqb "-" "t") with false.
    change (Ascii.eqb "-" "f") with false. change (Ascii.eqb "-" "n") with false.
    cbv iota. cbn [app] in *. rewrite S2. reflexivity.
Qed.

Lemma parse_bool b d : ParsesAs d (Bool b) (encodeBool b).
Proof.
  intros n rest Hn Hr. destruct b; (destruct n as [|n]; [cbn in Hn; lia|]); reflexivity.
Qed.

Lemma parse_string s d :
  utf8 s -> ParsesAs d (Str (encodeStringBody (length s) s)) (encodeString s).
Proof.
  intros Hs n rest Hn Hr. unfold encodeString in *.
  destruct n as [|n]; [cbn in Hn; lia|].
  cbn [parseValue app skipSpace]. change (isSpace "034") with false. cbv iota.
  change (Ascii.eqb "034" "{") with false. change (Ascii.eqb "034" "[") with false.
  change (Ascii.eqb "034" "034") with true. cbv iota.
  rewrite <- app_assoc. cbn [app]. rewrite scan_quoted by auto. reflexivity.
Qed.

Lemma skipSpace_noop c t : isSpace c = false -> skipSpace (c :: t) = c :: t.
Proof. intros H. cbn. rewrite H. reflexivity. Qed.

Lemma delimited_skipSpace rest : delimited rest -> skipSpace rest = rest.
Proof. destruct rest as [|c t]; [reflexivity|]. intros [->| ->]; reflexivity. Qed.

Lemma plain_name_scan name X :
  Forall plain name -> scanString (name ++ "034" :: X) = Some (name, X).
Proof.
  intros H. rewrite plain_scan by assumption. cbn. rewrite app_nil_r. reflexivity.
Qed.

Lemma membersText_cons m ms :
  membersText (m :: ms) = m ++ match ms with [] => [] | _ => "," :: membersText ms end.
Proof. destruct ms; reflexivity. Qed.

Lemma parseMembers_fields d : forall (fs : list Field) n rest,
  fs <> [] -> Forall (fieldOk d) fs ->
  (length (membersText (map fieldText fs)) <= n)%nat ->
  parseMembers n d (membersText (map fieldText fs) ++ "}" :: rest)
    = Some (map fieldMember fs, rest).
Proof.
  induction fs as [|[[name v] text] fs IH]; intros n rest Hne Hok Hn; [congruence|].
  inversion Hok as [|? ? [Hname Hv] Hok']; subst. cbn [fst snd] in *.
  cbn [map] in *. rewrite membersText_cons in *.
  unfold fieldText at 1 in Hn. unfold fieldText at 1. cbn [fst snd] in *.
  unfold member in *. rewrite length_app in Hn. cbn [length] in Hn.
  rewrite length_app in Hn. cbn [length] in Hn.
  destruct n as [|n]; [lia|].
  cbn [parseMembers app skipSpace]. change (isSpace "034") with false. cbv iota.
  change (Ascii.eqb "034" "034") with true. cbv iota.
  set (more := match map fieldText fs with
               | [] => []
               | _ :: _ => "," :: membersText (map fieldText fs)
               end) in *.
  replace (((name ++ "034" :: ":" :: text) ++ more) ++ "}" :: rest)
    with (name ++ "034" :: ":" :: text ++ (more ++ "}" :: rest))
    by (rewrite <- !app_assoc; reflexivity).
  rewrite plain_name_scan by assumption.
  cbn [skipSpace]. change (isSpace ":") with false. cbv iota.
  change (Ascii.eqb ":" ":") with true. cbv iota.
  destruct fs as [|f fs'].
  - subst more. cbn [app map] in *. rewrite (Hv n ("}" :: rest)) by (cbn; auto; lia).
    reflexivity.
  - subst more. cbn [map app] in *. cbn [length] in Hn.
    rewrite (Hv n) by (cbn; auto; lia).
    cbn [skipSpace]. change (isSpace ",") with false. cbv iota.
    change (Ascii.eqb "," ",") with true. cbv iota.
    rewrite IH; [reflexivity | discriminate | assumption | lia].
Qed.

Lemma encodeStruct_fields (fs : list Field) :
  encodeStruct (map fieldText fs) =
  match fs with
  | [] => ["{"; "}"]
  | _ => "{" :: membersText (map fieldText fs) ++ ["}"]
  end.
Proof.
  destruct fs as [|f fs]; [reflexivity|].
  cbn [map membersText encodeStruct]. rewrite <- app_assoc. reflexivity.
Qed.

Lemma parse_struct d (fs : list Field) :
  (d + 1 <= maxNestingDepth)%N -> Forall (fieldOk (d + 1)) fs ->
  ParsesAs d (Object (map fieldMember fs)) (encodeStruct (map fieldText fs)).
Proof.
  intros Hd Hok n rest Hn Hr. rewrite encodeStruct_fields in *.
  assert (Hdepth : (maxNestingDepth <? d + 1)%N = false) by (apply N.ltb_ge; assumption).
  destruct fs as [|f fs].
  - destruct n as [|n]; [cbn in Hn; lia|].
    cbn [parseValue app skipSpace]. change (isSpace "{") with false. cbv iota.
    change (Ascii.eqb "{" "{") with true. cbv iota. rewrite Hdepth.
    reflexivity.
  - destruct n as [|n]; [cbn in Hn; lia|].
    cbn [length] in Hn. rewrite length_app in Hn.
    remember (f :: fs) as fs0.
    cbn [parseValue app skipSpace]. change (isSpace "{") with false. cbv iota.
    change (Ascii.eqb "{" "{") with true. cbv iota. rewrite Hdepth.
    rewrite <- app_assoc. cbn [app].
    assert (Hhead : exists t, membersText (map fieldText fs0) = "034" :: t).
    { subst fs0. cbn [map]. rewrite membersText_cons. unfold fieldText, member.
      eexists. reflexivity. }
    destruct Hhead as [t Ht].
    rewrite Ht at 1. cbn [app skipSpace]. change (isSpace "034") with false. cbv iota.
    change (Ascii.eqb "034" "}") with false. cbv iota.
    rewrite parseMembers_fields; [reflexivity | subst; discriminate | assumption | lia].
Qed.

Lemma plainb_plain name : forallb plainb name = true -> Forall plain name.
Proof.
  intros H. apply List.Forall_forall. intros c Hc. rewrite forallb_forall in H.
  specialize (H c Hc). unfold plainb in H.
  apply andb_true_iff in H as [H H3]. apply andb_true_iff in H as [H1 H2].
  apply negb_true_iff in H1, H2. apply N.leb_le in H3.
  repeat split; try assumption; intros ->; discriminate.
Qed.

(** *** Compact keeps the encoded text *)

Lemma compacted_nil : Compacted [].
Proof. intros X. reflexivity. Qed.

Lemma compacted_app a b : Compacted a -> Compacted b -> Compacted (a ++ b).
Proof. intros Ha Hb X. rewrite <- !app_assoc, Ha, Hb. reflexivity. Qed.

Lemma compacted_char c t :
  isSpace c = false -> c <> "034" -> Compacted t -> Compacted (c :: t).
Proof.
  intros Hs Hq Ht X. cbn [app dropSpace]. rewrite Hs.
  destruct (Ascii.eqb_spec c "034"); [contradiction|]. rewrite Ht. reflexivity.
Qed.

Lemma compacted_quoted lit t :
  (forall X, scanString (lit ++ "034" :: X) = Some (lit, X)) ->
  Compacted t -> Compacted ("034" :: lit ++ "034" :: t).
Proof.
  intros Hl Ht X. cbn [app dropSpace]. change (isSpace "034") with false. cbv iota.
  change (Ascii.eqb "034" "034") with true.
  rewrite <- app_assoc. cbn [app].
  rewrite (dropSpace_string (length (lit ++ "034" :: t ++ X)) _ lit (t ++ X))
    by (auto using Hl).
  rewrite Ht, <- app_assoc. reflexivity.
Qed.

Lemma compacted_digits ds :
  forallb isDigit ds = true -> Compacted ds.
Proof.
  induction ds as [|c ds IH]; cbn [forallb]; intros H; [apply compacted_nil|].
  apply andb_true_iff in H as [Hc Hd].
  destruct (digit_dispatch c (or_introl Hc)) as (Hs & _ & _ & Hq & _).
  apply compacted_char; auto. intros ->. discriminate.
Qed.

Lemma compacted_int z : inInt64 z = true -> Compacted (FormatInt z).
Proof.
  intros Hz. destruct (FormatInt_shape z Hz) as (c & t & Hc & Ht & _ & [E|E]);
    rewrite E.
  - apply (compacted_digits (c :: t)). cbn. rewrite Hc, Ht. reflexivity.
  - apply compacted_char; [reflexivity | discriminate |].
    apply (compacted_digits (c :: t)). cbn. rewrite Hc, Ht. reflexivity.
Qed.

Lemma compacted_bool b : Compacted (encodeBool b).
Proof. intros X. destruct b; reflexivity. Qed.

Lemma compacted_string s : utf8 s -> Compacted (encodeString s).
Proof.
  intros Hs. unfold encodeString.
  replace (encodeStringBody (length s) s ++ ["034"])
    with (encodeStringBody (length s) s ++ "034" :: []) by reflexivity.
  apply compacted_quoted; [|apply compacted_nil].
  intros X. apply scan_quoted; auto.
Qed.

Lemma compacted_member name text :
  Forall plain name -> Compacted text -> Compacted (member name text).
Proof.
  intros Hn Ht. unfold member. apply compacted_quoted.
  - intros X. apply plain_name_scan. assumption.
  - apply compacted_char; [reflexivity | discriminate | assumption].
Qed.

Lemma compacted_struct (fs : list Field) d :
  Forall (fieldGood d) fs -> Compacted (encodeStruct (map fieldText fs)).
Proof.
  intros H. rewrite encodeStruct_fields. destruct fs as [|f fs].
  - intros X. reflexivity.
  - apply compacted_char; [reflexivity | discriminate |].
    apply compacted_app; [|apply compacted_char;
                           [reflexivity | discriminate | apply compacted_nil]].
    revert f H. induction fs as [|g fs IH]; intros f H.
    + inversion H as [|? ? [[Hn _] Hc] _]; subst. cbn. rewrite app_nil_r.
      apply compacted_member; assumption.
    + inversion H as [|? ? [[Hn _] Hc] H']; subst.
      cbn [map]. rewrite membersText_cons.
      apply compacted_app; [apply compacted_member; assumption|].
      apply compacted_char; [reflexivity | discriminate |].
      apply IH. assumption.
Qed.

(** *** The fields of the policy are good *)

Lemma intField_good d name z :
  forallb plainb (list_ascii_of_string name) = true -> inInt64 z = true ->
  Forall (fieldGood d) (intField name z).
Proof.
  intros Hn Hz. unfold intField. destruct (z =? 0)%Z; constructor; [|constructor].
  split; [split|]; cbn [fst snd].
  - apply plainb_plain; assumption.
  - apply parse_number; assumption.
  - apply compacted_int; assumption.
Qed.

Lemma strField_good d name s :
  forallb plainb (list_ascii_of_string name) = true -> utf8 s ->
  Forall (fieldGood d) (strField name s).
Proof.
  intros Hn Hs. unfold strField. case_bool_decide; constructor; [|constructor].
  split; [split|]; cbn [fst snd].
  - apply plainb_plain; assumption.
  - apply parse_string; assumption.
  - apply compacted_string; assumption.
Qed.

Lemma boolField_good d name b :
  forallb plainb (list_ascii_of_string name) = true ->
  Forall (fieldGood d) (boolField name b).
Proof.
  intros Hn. unfold boolField. destruct (negb b); constructor; [|constructor].
  split; [split|]; cbn [fst snd].
  - apply plainb_plain; assumption.
  - apply parse_bool.
  - apply compacted_bool.
Qed.

Lemma ptrField_good {T} d name (ast : T -> value) enc (P : T -> Prop) p :
  forallb plainb (list_ascii_of_string name) = true ->
  (forall x, P x -> ParsesAs d (ast x) (enc x) /\ Compacted (enc x)) ->
  wfOpt P p ->
  Forall (fieldGood d) (ptrField name ast enc p).
Proof.
  intros Hn Hx Hp. destruct p as [x|]; constructor; [|constructor].
  destruct (Hx x Hp). split; [split|]; cbn [fst snd]; auto.
  apply plainb_plain; assumption.
Qed.

Lemma fieldGood_ok d fs : Forall (fieldGood d) fs -> Forall (fieldOk d) fs.
Proof. apply List.Forall_impl. intros f [H _]. exact H. Qed.

Lemma encodeInt_fields name z : encodeInt name z = map fieldText (intField name z).
Proof. unfold encodeInt, intField, omitempty. destruct (z =? 0)%Z; reflexivity. Qed.

Lemma encodeRetryPolicy_fields p :
  encodeRetryPolicy p = encodeStruct (map fieldText (retryFields p)).
Proof.
  unfold encodeRetryPolicy, retryFields. rewrite !map_app, <- !encodeInt_fields.
  unfold strField, omitempty. case_bool_decide; reflexivity.
Qed.

Lemma encodeThrottlePolicy_fields p :
  encodeThrottlePolicy p = encodeStruct (map fieldText (throttleFields p)).
Proof. unfold encodeThrottlePolicy, throttleFields. rewrite encodeInt_fields. reflexivity. Qed.

Lemma encodeDeliveryPolicy_fields p :
  encodeDeliveryPolicy p = encodeStruct (map fieldText (deliveryFields p)).
Proof.
  unfold encodeDeliveryPolicy, deliveryFields, encodePtr, ptrField, boolField, omitempty.
  rewrite !map_app.
  destruct (negb (Guaranteed p)), (HealthyRetryPolicy p), (SicklyRetryPolicy p),
    (ThrottlePolicy p); reflexivity.
Qed.

Lemma retryFields_good d p : wfRetry p -> Forall (fieldGood d) (retryFields p).
Proof.
  intros (H0 & H1 & H2 & H3 & H4 & H5 & H6). unfold retryFields.
  repeat apply Forall_app_2;
    first [ apply strField_good; [reflexivity | assumption]
          | apply intField_good; [reflexivity | assumption] ].
Qed.

Lemma throttleFields_good d p : wfThrottle p -> Forall (fieldGood d) (throttleFields p).
Proof. intros H. apply intField_good; [reflexivity | assumption]. Qed.

Lemma retry_parses d p :
  (d + 1 <= maxNestingDepth)%N -> wfRetry p ->
  ParsesAs d (retryValue p) (encodeRetryPolicy p) /\ Compacted (encodeRetryPolicy p).
Proof.
  intros Hd Hp. rewrite encodeRetryPolicy_fields. split.
  - apply parse_struct; [assumption|]. apply fieldGood_ok, retryFields_good, Hp.
  - apply (compacted_struct _ (d + 1)%N), retryFields_good, Hp.
Qed.

Lemma throttle_parses d p :
  (d + 1 <= maxNestingDepth)%N -> wfThrottle p ->
  ParsesAs d (throttleValue p) (encodeThrottlePolicy p)
  /\ Compacted (encodeThrottlePolicy p).
Proof.
  intros Hd Hp. rewrite encodeThrottlePolicy_fields. split.
  - apply parse_struct; [assumption|]. apply fieldGood_ok, throttleFields_good, Hp.
  - apply (compacted_struct _ (d + 1)%N), throttleFields_good, Hp.
Qed.

Lemma deliveryFields_good p : wfDelivery p -> Forall (fieldGood 1) (deliveryFields p).
Proof.
  intros (H1 & H2 & H3). unfold deliveryFields.
  repeat apply Forall_app_2.
  - apply boolField_good. reflexivity.
  - apply (ptrField_good _ _ _ _ wfRetry); [reflexivity | | assumption].
    intros x Hx. apply retry_parses; [vm_compute; discriminate | assumption].
  - apply (ptrField_good _ _ _ _ wfRetry); [reflexivity | | assumption].
    intros x Hx. apply retry_parses; [vm_compute; discriminate | assumption].
  - apply (ptrField_good _ _ _ _ wfThrottle); [reflexivity | | assumption].
    intros x Hx. apply throttle_parses; [vm_compute; discriminate | assumption].
Qed.

Lemma delivery_parses p :
  wfDelivery p ->
  parse (encodeDeliveryPolicy p) = Some (deliveryValue p)
  /\ dropSpace false false (encodeDeliveryPolicy p) = encodeDeliveryPolicy p.
Proof.
  intros Hp. pose proof (deliveryFields_good p Hp) as Hg.
  rewrite encodeDeliveryPolicy_fields. split.
  - unfold parse.
    pose proof (parse_struct 0 (deliveryFields p) ltac:(vm_compute; discriminate)
                  (fieldGood_ok _ _ Hg)) as H.
    specialize (H (S (length (encodeStruct (map fieldText (deliveryFields p))))) []).
    rewrite app_nil_r in H. rewrite H by (cbn; auto). reflexivity.
  - pose proof (compacted_struct _ _ Hg []) as H. rewrite app_nil_r in H.
    rewrite H. cbn. apply app_nil_r.
Qed.

(** *** Decoding the encoded policy *)

Section Decode.
Context {T : Type}.
Variable names : list bytes.
Variable store : nat -> value -> T -> option T.

Lemma decodeObject_app ms1 : forall ms2 s,
  decodeObject names store (ms1 ++ ms2) s =
  match decodeObject names store ms1 s with
  | Some s' => decodeObject names store ms2 s'
  | None => None
  end.
Proof.
  induction ms1 as [|[raw v] ms1 IH]; intros ms2 s; [reflexivity|].
  cbn [app decodeObject]. destruct (unquote raw); [|reflexivity].
  destruct (findField names b); [|apply IH].
  destruct (store n v s); [apply IH | reflexivity].
Qed.

Lemma decodeObject_one raw v s i :
  unquote raw = Some raw -> findField names raw = Some i ->
  decodeObject names store [(raw, v)] s = store i v s.
Proof.
  intros Hu Hf. cbn [decodeObject]. rewrite Hu, Hf. destruct (store i v s); reflexivity.
Qed.

Lemma decode_int name i z s (upd : Z -> T) :
  unquote (list_ascii_of_string name) = Some (list_ascii_of_string name) ->
  findField names (list_ascii_of_string name) = Some i ->
  (forall lit, store i (Number lit) s = option_map upd (ParseInt lit)) ->
  inInt64 z = true -> upd 0%Z = s ->
  decodeObject names store (map fieldMember (intField name z)) s = Some (upd z).
Proof.
  intros Hu Hf Hs Hz H0. unfold intField. destruct (Z.eqb_spec z 0) as [->|Hnz].
  - cbn. congruence.
  - cbn [map]. unfold fieldMember. cbn [fst snd].
    rewrite (decodeObject_one _ _ _ i), Hs, ParseInt_FormatInt by assumption.
    reflexivity.
Qed.

Lemma decode_str name i b s (upd : bytes -> T) :
  unquote (list_ascii_of_string name) = Some (list_ascii_of_string name) ->
  findField names (list_ascii_of_string name) = Some i ->
  (forall raw, store i (Str raw) s = option_map upd (unquote raw)) ->
  utf8 b -> upd [] = s ->
  decodeObject names store (map fieldMember (strField name b)) s = Some (upd b).
Proof.
  intros Hu Hf Hs Hb H0. unfold strField. case_bool_decide as Hnil.
  - subst b. cbn. congruence.
  - cbn [map]. unfold fieldMember. cbn [fst snd].
    rewrite (decodeObject_one _ _ _ i), Hs by assumption.
    unfold unquote. rewrite unquote_quoted by auto. reflexivity.
Qed.

Lemma decode_bool name i b s (upd : bool -> T) :
  unquote (list_ascii_of_string name) = Some (list_ascii_of_string name) ->
  findField names (list_ascii_of_string name) = Some i ->
  (forall b', store i (Bool b') s = Some (upd b')) ->
  upd false = s ->
  decodeObject names store (map fieldMember (boolField name b)) s = Some (upd b).
Proof.
  intros Hu Hf Hs H0. unfold boolField. destruct b; cbn [negb].
  - cbn [map]. unfold fieldMember. cbn [fst snd].
    rewrite (decodeObject_one _ _ _ i), Hs by assumption. reflexivity.
  - cbn. congruence.
Qed.

Lemma decode_ptr {U : Type} name i (ast : U -> value) enc (p : option U) s
    (upd : option U -> T) :
  unquote (list_ascii_of_string name) = Some (list_ascii_of_string name) ->
  findField names (list_ascii_of_string name) = Some i ->
  (forall x, p = Some x -> store i (ast x) s = Some (upd (Some x))) ->
  upd None = s ->
  decodeObject names store (map fieldMember (ptrField name ast enc p)) s = Some (upd p).
Proof.
  intros Hu Hf Hs H0. destruct p as [x|].
  - cbn [ptrField map]. unfold fieldMember. cbn [fst snd].
    rewrite (decodeObject_one _ _ _ i), Hs by auto. reflexivity.
  - cbn. congruence.
Qed.

(** A property of the struct that every store keeps is kept by the
    decoding of an object. *)
Lemma decodeObject_keeps (P : T -> Prop) :
  (forall i v s s', P s -> store i v s = Some s' -> P s') ->
  forall ms s s', P s -> decodeObject names store ms s = Some s' -> P s'.
Proof.
  intros Hstore. induction ms as [|[raw v] ms IH]; intros s s' Hs H.
  - injection H as <-. assumption.
  - cbn [decodeObject] in H. destruct (unquote raw); [|discriminate].
    destruct (findField names b); [|eauto].
    destruct (store n v s) eqn:E; [|discriminate]. eauto.
Qed.

End Decode.

Ltac field_premises :=
  first [ reflexivity | assumption | vm_compute; reflexivity ].

Lemma decode_retry p :
  wfRetry p -> decodeRetryPolicy (map fieldMember (retryFields p)) zeroRetryPolicy = Some p.
Proof.
  intros (H0 & H1 & H2 & H3 & H4 & H5 & H6).
  destruct p as [b z1 z2 z3 z4 z5 z6]. cbn [BackoffFunction MaxDelayTarget MinDelayTarget
    NumMaxDelayRetries NumMinDelayRetries NumNoDelayRetries NumRetries] in *.
  unfold decodeRetryPolicy, retryFields, zeroRetryPolicy.
  cbn [BackoffFunction MaxDelayTarget MinDelayTarget
    NumMaxDelayRetries NumMinDelayRetries NumNoDelayRetries NumRetries].
  rewrite !map_app.
  rewrite decodeObject_app.
  rewrite (decode_str _ _ _ 0%nat _ _
             (fun x => Build_snsTopicSubscriptionDeliveryPolicyHealthyRetryPolicy
                         x 0 0 0 0 0 0)) by field_premises.
  rewrite decodeObject_app.
  rewrite (decode_int _ _ _ 1%nat _ _
             (fun x => Build_snsTopicSubscriptionDeliveryPolicyHealthyRetryPolicy
                         b x 0 0 0 0 0)) by field_premises.
  rewrite decodeObject_app.
  rewrite (decode_int _ _ _ 2%nat _ _
             (fun x => Build_snsTopicSubscriptionDeliveryPolicyHealthyRetryPolicy
                         b z1 x 0 0 0 0)) by field_premises.
  rewrite decodeObject_app.
  rewrite (decode_int _ _ _ 3%nat _ _
             (fun x => Build_snsTopicSubscriptionDeliveryPolicyHealthyRetryPolicy
                         b z1 z2 x 0 0 0)) by field_premises.
  rewrite decodeObject_app.
  rewrite (decode_int _ _ _ 4%nat _ _
             (fun x => Build_snsTopicSubscriptionDeliveryPolicyHealthyRetryPolicy
                         b z1 z2 z3 x 0 0)) by field_premises.
  rewrite decodeObject_app.
  rewrite (decode_int _ _ _ 5%nat _ _
             (fun x => Build_snsTopicSubscriptionDeliveryPolicyHealthyRetryPolicy
                         b z1 z2 z3 z4 x 0)) by field_premises.
  rewrite (decode_int _ _ _ 6%nat _ _
             (fun x => Build_snsTopicSubscriptionDeliveryPolicyHealthyRetryPolicy
                         b z1 z2 z3 z4 z5 x)) by field_premises.
  reflexivity.
Qed.

Lemma decode_throttle p :
  wfThrottle p ->
  decodeThrottlePolicy (map fieldMember (throttleFields p)) zeroThrottlePolicy = Some p.
Proof.
  intros H. destruct p as [z]. unfold decodeThrottlePolicy, throttleFields.
  cbn [MaxReceivesPerSecond] in *.
  rewrite (decode_int _ _ _ 0%nat _ _ Build_snsTopicSubscriptionDeliveryPolicyThrottlePolicy)
    by field_premises.
  reflexivity.
Qed.

Lemma decode_delivery p :
  wfDelivery p ->
  storeStruct decodeDeliveryPolicy (deliveryValue p) zeroDeliveryPolicy = Some p.
Proof.
  intros (H1 & H2 & H3). destruct p as [g h s t].
  cbn [HealthyRetryPolicy SicklyRetryPolicy ThrottlePolicy] in *.
  unfold deliveryValue, storeStruct, decodeDeliveryPolicy, deliveryFields, zeroDeliveryPolicy.
  cbn [Guaranteed HealthyRetryPolicy SicklyRetryPolicy ThrottlePolicy].
  rewrite !map_app.
  rewrite decodeObject_app.
  rewrite (decode_bool _ _ _ 0%nat _ _
             (fun x => Build_snsTopicSubscriptionDeliveryPolicy x None None None))
    by field_premises.
  rewrite decodeObject_app.
  rewrite (decode_ptr _ _ _ 1%nat _ _ _ _
             (fun x => Build_snsTopicSubscriptionDeliveryPolicy g x None None));
    [ | field_premises | field_premises | | reflexivity ].
  2: { intros x ->. cbn [storeDeliveryPolicyField storePtr retryValue
                         HealthyRetryPolicy default].
       rewrite decode_retry by assumption. reflexivity. }
  rewrite decodeObject_app.
  rewrite (decode_ptr _ _ _ 2%nat _ _ _ _
             (fun x => Build_snsTopicSubscriptionDeliveryPolicy g h x None));
    [ | field_premises | field_premises | | reflexivity ].
  2: { intros x ->. cbn [storeDeliveryPolicyField storePtr retryValue
                         SicklyRetryPolicy default].
       rewrite decode_retry by assumption. reflexivity. }
  rewrite (decode_ptr _ _ _ 3%nat _ _ _ _
             (fun x => Build_snsTopicSubscriptionDeliveryPolicy g h s x));
    [ | field_premises | field_premises | | reflexivity ].
  2: { intros x ->. cbn [storeDeliveryPolicyField storePtr throttleValue
                         ThrottlePolicy default].
       rewrite decode_throttle by assumption. reflexivity. }
  reflexivity.
Qed.

(** *** What Unmarshal stores is well formed *)

Lemma ParseInt_range lit z : ParseInt lit = Some z -> inInt64 z = true.
Proof.
  unfold ParseInt.
  destruct (match lit with
            | [] => (false, lit)
            | c :: t => if Ascii.eqb c "+" then (false, t)
                        else if Ascii.eqb c "-" then (true, t) else (false, lit)
            end) as [neg ds].
  destruct ds; [discriminate|]. destruct (forallb isDigit _); [|discriminate].
  destruct (inInt64 _) eqn:E; [|discriminate]. intros [= <-]. exact E.
Qed.

Lemma storeInt_keeps v old z :
  inInt64 old = true -> storeInt v old = Some z -> inInt64 z = true.
Proof.
  intros Hold. destruct v; cbn; try discriminate.
  - intros [= <-]. assumption.
  - apply ParseInt_range.
Qed.

Lemma storeString_keeps v old s :
  utf8 old -> storeString v old = Some s -> utf8 s.
Proof.
  intros Hold. destruct v; cbn; try discriminate.
  - intros [= <-]. assumption.
  - apply unquote_utf8.
Qed.

Lemma option_map_Some {A B} (f : A -> B) o y :
  option_map f o = Some y -> exists x, o = Some x /\ y = f x.
Proof. destruct o; cbn; [intros [= <-]; eauto | discriminate]. Qed.

Lemma storeRetry_keeps i v s s' :
  wfRetry s -> storeRetryPolicyField i v s = Some s' -> wfRetry s'.
Proof.
  intros (H0 & H1 & H2 & H3 & H4 & H5 & H6) H.
  do 7 (destruct i as [|i]; [apply option_map_Some in H as (x & Hx & ->);
    first [apply storeInt_keeps in Hx; [|assumption]
          | apply storeString_keeps in Hx; [|assumption]];
    repeat split; assumption|]).
  injection H as <-. repeat split; assumption.
Qed.

Lemma storeThrottle_keeps i v s s' :
  wfThrottle s -> storeThrottlePolicyField i v s = Some s' -> wfThrottle s'.
Proof.
  intros H0 H. destruct i as [|i].
  - apply option_map_Some in H as (x & Hx & ->).
    apply storeInt_keeps in Hx; assumption.
  - injection H as <-. assumption.
Qed.

Lemma zeroRetry_wf : wfRetry zeroRetryPolicy.
Proof. repeat split. constructor. Qed.

Lemma zeroThrottle_wf : wfThrottle zeroThrottlePolicy.
Proof. reflexivity. Qed.

Lemma storePtr_keeps {T} (P : T -> Prop) zero decode v old r :
  P zero -> (forall ms s s', P s -> decode ms s = Some s' -> P s') ->
  wfOpt P old -> storePtr zero decode v old = Some r -> wfOpt P r.
Proof.
  intros Hz Hd Hold. destruct v; cbn; try discriminate.
  - intros [= <-]. exact I.
  - intros H. apply option_map_Some in H as (x & Hx & ->). cbn.
    eapply Hd; [|exact Hx]. destruct old; cbn; assumption.
Qed.

Lemma storeDelivery_keeps i v s s' :
  wfDelivery s -> storeDeliveryPolicyField i v s = Some s' -> wfDelivery s'.
Proof.
  intros (H1 & H2 & H3) H.
  destruct i as [|[|[|[|i]]]]; cbn [storeDeliveryPolicyField] in H;
    try (apply option_map_Some in H as (x & Hx & ->)).
  - repeat split; assumption.
  - apply (storePtr_keeps wfRetry) in Hx;
      [repeat split; assumption | apply zeroRetry_wf | | assumption].
    apply decodeObject_keeps. apply storeRetry_keeps.
  - apply (storePtr_keeps wfRetry) in Hx;
      [repeat split; assumption | apply zeroRetry_wf | | assumption].
    apply decodeObject_keeps. apply storeRetry_keeps.
  - apply (storePtr_keeps wfThrottle) in Hx;
      [repeat split; assumption | apply zeroThrottle_wf | | assumption].
    apply decodeObject_keeps. apply storeThrottle_keeps.
  - injection H as <-. repeat split; assumption.
Qed.

Lemma unmarshal_wf data p :
  json_Unmarshal data zeroDeliveryPolicy = Some p -> wfDelivery p.
Proof.
  unfold json_Unmarshal. destruct (parse data) as [v|]; [|discriminate].
  assert (H0 : wfDelivery zeroDeliveryPolicy) by (repeat split).
  destruct v; cbn; try discriminate.
  - intros [= <-]. assumption.
  - apply decodeObject_keeps; [apply storeDelivery_keeps | assumption].
Qed.

Lemma unmarshal_marshal p :
  wfDelivery p ->
  json_Unmarshal (encodeDeliveryPolicy p) zeroDeliveryPolicy = Some p
  /\ Compact (encodeDeliveryPolicy p) = Some (encodeDeliveryPolicy p).
Proof.
  intros Hp. destruct (delivery_parses p Hp) as [Hparse Hdrop].
  unfold json_Unmarshal, Compact. rewrite Hparse, Hdrop.
  split; [apply decode_delivery; assumption | reflexivity].
Qed.

Local Close Scope char_scope.

(** ** Delivery policy: normalisation and equivalence *)

(** C4.  Normalisation is idempotent: for every text that unmarshals into
    the delivery policy, normalisation returns a text, and normalising that
    text returns it again. *)
Theorem normalize_idempotent (T : string) (p : snsTopicSubscriptionDeliveryPolicy)
    (Hvalid : json_Unmarshal (list_ascii_of_string T) zeroDeliveryPolicy = Some p) :
  exists N,
    normalizedDeliveryPolicy T = Some N
    /\ normalizedDeliveryPolicy (string_of_list_ascii N) = Some N.
Proof.
  exists (encodeDeliveryPolicy p).
  pose proof (unmarshal_wf _ _ Hvalid) as Hwf.
  destruct (unmarshal_marshal p Hwf) as [H1 H2].
  unfold normalizedDeliveryPolicy, json_Marshal.
  rewrite Hvalid, list_ascii_of_string_of_list_ascii, H1, H2. split; reflexivity.
Qed.

Lemma normalize_idempotent_witness :
  exists N,
    normalizedDeliveryPolicy
      (js "{ 'Guaranteed': true, 'healthyRetryPolicy': {'numRetries': 3, 'x': [1.5]} }")
      = Some N
    /\ normalizedDeliveryPolicy (string_of_list_ascii N) = Some N.
Proof.
  apply (normalize_idempotent _
           {| Guaranteed := true;
              HealthyRetryPolicy :=
                Some {| BackoffFunction := []; MaxDelayTarget := 0; MinDelayTarget := 0;
                        NumMaxDelayRetries := 0; NumMinDelayRetries := 0;
                        NumNoDelayRetries := 0; NumRetries := 3 |};
              SicklyRetryPolicy := None; ThrottlePolicy := None |}).
  vm_compute. reflexivity.
Defined.

(** C5.  The text {"guaranteed":false,"unknownField":"x"} is normalised
    to {}: a key that selects no field of the policy is skipped by the
    decoder, and the encoder omits a field that holds its zero value. *)
Theorem normalize_drops_defaults_and_unknown_fields :
  normalizedDeliveryPolicy (js "{'guaranteed':false,'unknownField':'x'}")
    = Some (list_ascii_of_string "{}")
  /\ (forall raw key v members p,
        unquote raw = Some key -> findField deliveryPolicyNames key = None ->
        decodeDeliveryPolicy ((raw, v) :: members) p = decodeDeliveryPolicy members p)
  /\ encodeDeliveryPolicy zeroDeliveryPolicy = list_ascii_of_string "{}"
  /\ encodeRetryPolicy zeroRetryPolicy = list_ascii_of_string "{}"
  /\ encodeThrottlePolicy zeroThrottlePolicy = list_ascii_of_string "{}"
  /\ (forall name, encodeInt name 0 = []).
Proof.
  split; [vm_compute; reflexivity|].
  split.
  - intros raw key v members p Hu Hf. unfold decodeDeliveryPolicy.
    cbn [decodeObject]. rewrite Hu, Hf. reflexivity.
  - repeat split; reflexivity.
Qed.

Lemma normalize_drops_defaults_and_unknown_fields_witness :
  decodeDeliveryPolicy
    [(list_ascii_of_string "unknownField", Str (list_ascii_of_string "x"))]
    zeroDeliveryPolicy = Some zeroDeliveryPolicy.
Proof.
  destruct normalize_drops_defaults_and_unknown_fields as (_ & H & _).
  rewrite (H _ (list_ascii_of_string "unknownField"));
    [reflexivity | vm_compute; reflexivity | vm_compute; reflexivity].
Defined.

Lemma bytes_eqb_eq a : forall b, bytes_eqb a b = true <-> a = b.
Proof.
  induction a as [|x a IH]; intros [|y b]; cbn; split; try congruence; try discriminate.
  - intros H. apply andb_true_iff in H as [H1 H2].
    apply Ascii.eqb_eq in H1. apply IH in H2. congruence.
  - intros [= -> ->]. rewrite Ascii.eqb_refl. cbn. apply IH. reflexivity.
Qed.

Lemma normalized_unmarshal old :
  normalizedDeliveryPolicy old
  = option_map encodeDeliveryPolicy
      (json_Unmarshal (list_ascii_of_string old) zeroDeliveryPolicy).
Proof.
  unfold normalizedDeliveryPolicy, json_Marshal.
  destruct (json_Unmarshal (list_ascii_of_string old) zeroDeliveryPolicy) as [p|] eqn:Hp;
    [|reflexivity].
  destruct (unmarshal_marshal p (unmarshal_wf _ _ Hp)) as [_ H]. exact H.
Qed.

(** C2.  The equivalence check unmarshals the old text into the delivery
    policy and marshals the policy again (an old text that does not
    unmarshal is equivalent to nothing), only compacts the new text (the
    bytes of the new text without the white space outside strings), and
    compares the two byte for byte.  So a new text that differs by white
    space is equivalent, a new text with an unknown field is not, and the
    check is not symmetric: the same two texts are equivalent when the one
    with the unknown field is the old one.  For every comparison function
    the check is that function applied to the marshalled policy of the old
    text and the compacted new text. *)
Theorem delivery_policy_equivalence_asymmetric (k : string) (d : ResourceData) :
  suppressEquivalentSnsTopicSubscriptionDeliveryPolicy jsonBytesEqual k
    (js "{'guaranteed':true}") (js "{ 'guaranteed': true }") d = true
  /\ suppressEquivalentSnsTopicSubscriptionDeliveryPolicy jsonBytesEqual k
       (js "{'guaranteed':true}") (js "{'unknownField':'x','guaranteed':true}") d = false
  /\ suppressEquivalentSnsTopicSubscriptionDeliveryPolicy jsonBytesEqual k
       (js "{'unknownField':'x','guaranteed':true}") (js "{'guaranteed':true}") d = true
  /\ (forall old new,
        suppressEquivalentSnsTopicSubscriptionDeliveryPolicy jsonBytesEqual k old new d
          = true
        <-> exists b, normalizedDeliveryPolicy old = Some b
                      /\ Compact (list_ascii_of_string new) = Some b)
  /\ (forall new nb,
        Compact (list_ascii_of_string new) = Some nb ->
        nb = dropSpace false false (list_ascii_of_string new))
  /\ (forall old,
        normalizedDeliveryPolicy old
        = option_map encodeDeliveryPolicy
            (json_Unmarshal (list_ascii_of_string old) zeroDeliveryPolicy))
  /\ (forall (equal : bytes -> bytes -> bool) old new,
        suppressEquivalentSnsTopicSubscriptionDeliveryPolicy equal k old new d
        = match json_Unmarshal (list_ascii_of_string old) zeroDeliveryPolicy,
                Compact (list_ascii_of_string new) with
          | Some p, Some nb => equal (encodeDeliveryPolicy p) nb
          | _, _ => false
          end)
  /\ (forall old new,
        suppressEquivalentSnsTopicSubscriptionDeliveryPolicy jsonBytesEqual k old new d
          = true
        <-> exists p, json_Unmarshal (list_ascii_of_string old) zeroDeliveryPolicy = Some p
                      /\ Compact (list_ascii_of_string new) = Some (encodeDeliveryPolicy p))
  /\ suppressEquivalentSnsTopicSubscriptionDeliveryPolicy jsonBytesEqual k
       (js "{'guaranteed':true}") (js "{}") d = false
  /\ suppressEquivalentSnsTopicSubscriptionDeliveryPolicy jsonBytesEqual k
       (js "{'guaranteed':false}") (js "{}") d = true
  /\ suppressEquivalentSnsTopicSubscriptionDeliveryPolicy jsonBytesEqual k
       "guaranteed" (js "{}") d = false
  /\ suppressEquivalentSnsTopicSubscriptionDeliveryPolicy jsonBytesEqual k
       (js "{'throttlePolicy':{'maxReceivesPerSecond':7}}")
       (js "{'throttlePolicy' : {'maxReceivesPerSecond' : 7}}") d = true
  /\ suppressEquivalentSnsTopicSubscriptionDeliveryPolicy jsonBytesEqual k
       (js "{'throttlePolicy':{'maxReceivesPerSecond':7}}")
       (js "{'throttlePolicy':{'maxReceivesPerSecond':8}}") d = false.
Proof.
  assert (Hgen : forall (equal : bytes -> bytes -> bool) old new,
            suppressEquivalentSnsTopicSubscriptionDeliveryPolicy equal k old new d
            = match json_Unmarshal (list_ascii_of_string old) zeroDeliveryPolicy,
                    Compact (list_ascii_of_string new) with
              | Some p, Some nb => equal (encodeDeliveryPolicy p) nb
              | _, _ => false
              end).
  { intros equal old new. unfold suppressEquivalentSnsTopicSubscriptionDeliveryPolicy.
    rewrite normalized_unmarshal.
    destruct (json_Unmarshal (list_ascii_of_string old) zeroDeliveryPolicy); reflexivity. }
  split; [vm_compute; reflexivity|].
  split; [vm_compute; reflexivity|].
  split; [vm_compute; reflexivity|].
  split.
  { intros old new. unfold suppressEquivalentSnsTopicSubscriptionDeliveryPolicy.
    destruct (normalizedDeliveryPolicy old) as [ob|].
    + destruct (Compact (list_ascii_of_string new)) as [nb|].
      * unfold jsonBytesEqual. rewrite bytes_eqb_eq. split.
        -- intros ->. eauto.
        -- intros (b & [= ->] & [= ->]). reflexivity.
      * split; [discriminate | intros (b & _ & [=])].
    + split; [discriminate | intros (b & [=] & _)]. }
  split.
  { intros new nb. unfold Compact.
    destruct (parse (list_ascii_of_string new)); [|discriminate].
    intros [= <-]. reflexivity. }
  split; [exact normalized_unmarshal|].
  split; [exact Hgen|].
  split.
  { intros old new. rewrite Hgen.
    destruct (json_Unmarshal (list_ascii_of_string old) zeroDeliveryPolicy) as [p|].
    + destruct (Compact (list_ascii_of_string new)) as [nb|].
      * unfold jsonBytesEqual. rewrite bytes_eqb_eq. split.
        -- intros <-. eauto.
        -- intros (q & [= ->] & [= ->]). reflexivity.
      * split; [discriminate | intros (q & _ & [=])].
    + split; [discriminate | intros (q & [=] & _)]. }
  repeat split; vm_compute; reflexivity.
Qed.

Lemma delivery_policy_equivalence_asymmetric_witness :
  suppressEquivalentSnsTopicSubscriptionDeliveryPolicy jsonBytesEqual "delivery_policy"
    (js "{'guaranteed':true}") (js "{ 'guaranteed': true }")
    (subscription "https" false EmptyString ∅) = true.
Proof.
  apply (proj1 (delivery_policy_equivalence_asymmetric "delivery_policy"
                  (subscription "https" false EmptyString ∅))).
Defined.

Lemma compact_error_unmarshal_error data p :
  Compact data = None -> json_Unmarshal data p = None.
Proof.
  unfold Compact, json_Unmarshal. destruct (parse data); [discriminate | reflexivity].
Qed.

(** C6.  The equivalence check fails open: when the old text does not
    unmarshal into the policy, or compacting the old text, the normalised
    old text or the new text fails, the check returns false, whatever
    [jsonBytesEqual] is.  The check is a total function to bool: it
    returns no error. *)
Theorem delivery_policy_equivalence_fails_open
    (jsonBytesEqual : bytes -> bytes -> bool) (k old new : string) (d : ResourceData)
    (Herr : json_Unmarshal (list_ascii_of_string old) zeroDeliveryPolicy = None
            \/ Compact (list_ascii_of_string old) = None
            \/ (exists p, json_Unmarshal (list_ascii_of_string old) zeroDeliveryPolicy
                            = Some p
                          /\ Compact (encodeDeliveryPolicy p) = None)
            \/ Compact (list_ascii_of_string new) = None) :
  suppressEquivalentSnsTopicSubscriptionDeliveryPolicy jsonBytesEqual k old new d = false.
Proof.
  unfold suppressEquivalentSnsTopicSubscriptionDeliveryPolicy, normalizedDeliveryPolicy,
    json_Marshal.
  destruct Herr as [H|[H|[(p & H1 & H2)|H]]].
  - rewrite H. reflexivity.
  - rewrite (compact_error_unmarshal_error _ _ H). reflexivity.
  - rewrite H1, H2. reflexivity.
  - destruct (json_Unmarshal _ _); [|reflexivity].
    destruct (Compact (encodeDeliveryPolicy _)); [|reflexivity].
    rewrite H. reflexivity.
Qed.

Lemma delivery_policy_equivalence_fails_open_witness :
  suppressEquivalentSnsTopicSubscriptionDeliveryPolicy (fun _ _ => true)
    "delivery_policy" (js "{'guaranteed':1}") (js "{'guaranteed':1}")
    (subscription "https" false EmptyString ∅) = false
  /\ suppressEquivalentSnsTopicSubscriptionDeliveryPolicy (fun _ _ => true)
       "delivery_policy" (js "{'guaranteed':true}") (js "{'guaranteed':true")
       (subscription "https" false EmptyString ∅) = false.
Proof.
  split; apply delivery_policy_equivalence_fails_open.
  - left. vm_compute. reflexivity.
  - right. right. right. vm_compute. reflexivity.
Defined.

(** * Further properties *)

(** ** Create *)

Ltac create_start :=
  cbv zeta; unfold SNS.resourceAwsSnsTopicSubscriptionCreate; op_unfold;
  cbn -[SNS.resourceAwsSnsTopicSubscriptionRead strings_Contains aws_StringValue
        subscribeInput];
  match goal with
  | |- context [SNS.expandSNSSubscriptionAttributes ?d] =>
      change (SNS.Build_SubscribeInput _ _ _ _ _) with (subscribeInput d)
  end.

(** X1.  A failed subscribe call, or one that returns no identifier, fails the
    create with the matching error; the resource data is left as it was (no
    identifier is set) and no other remote call is made. *)
Theorem create_subscribe_failure (conn : SNS.Conn) (T : Z) (d : SNS.ResourceData)
    (output : option SNS.SubscribeOutput) (err : option SNS.error)
    (Hsub : SNS.conn_Subscribe conn [] (subscribeInput d) = (output, err))
    (Hfail : err <> None \/
             aws_StringValue (output ≫= SNS.so_SubscriptionArn) = EmptyString) :
  let r := run_sns (SNS.resourceAwsSnsTopicSubscriptionCreate conn T) d in
  fst r = Err (match err with
               | Some e => SNS.ErrCreating e
               | None => SNS.ErrCreatingEmpty
               end)
  /\ SNS.rd (snd r) = d
  /\ SNS.trace (snd r) = [SNS.CallSubscribe (subscribeInput d)].
Proof.
  create_start. rewrite Hsub.
  destruct err as [e|]; [split; [reflexivity|split; reflexivity]|].
  destruct Hfail as [Hf|Hf]; [congruence|].
  destruct output as [out|]; [|split; [reflexivity|split; reflexivity]].
  change (aws_StringValue (SNS.so_SubscriptionArn out) = EmptyString) in Hf.
  rewrite Hf. split; [reflexivity|split; reflexivity].
Qed.

Lemma create_subscribe_failure_witness :
  fst (run_sns (SNS.resourceAwsSnsTopicSubscriptionCreate conn_gone 120000000000)
         (subscription "sqs" false EmptyString ∅))
  = Err (SNS.ErrCreating (SNS.AwsErr "NotFound" "gone")).
Proof.
  assert (Hsub : SNS.conn_Subscribe conn_gone []
                   (subscribeInput (subscription "sqs" false EmptyString ∅))
                 = (None, Some (SNS.AwsErr "NotFound" "gone"))) by reflexivity.
  assert (Hfail : Some (SNS.AwsErr "NotFound" "gone") <> None \/
                  aws_StringValue (None ≫= SNS.so_SubscriptionArn) = EmptyString)
    by (left; discriminate).
  exact (proj1 (create_subscribe_failure conn_gone 120000000000 _ _ _ Hsub Hfail)).
Defined.

(** What the read operation does on a state whose identifier is [id]: one
    request for [id]; it returns no waiting error, and on a new resource it
    leaves the identifier as it is. *)
Lemma read_keyed_by_id conn s :
  let r := SNS.resourceAwsSnsTopicSubscriptionRead conn s in
  (forall id' e, fst r <> Err (SNS.ErrWaiting id' e))
  /\ (SNS.IsNewResource (SNS.rd s) = true ->
      SNS.Id (SNS.rd (snd r)) = SNS.Id (SNS.rd s)).
Proof.
  cbv zeta. unfold SNS.resourceAwsSnsTopicSubscriptionRead, SNS.readAttributes.
  op_unfold. cbn.
  destruct (SNS.conn_GetSubscriptionAttributes _ _ _) as [[o|] [e|]]; cbn;
    repeat match goal with |- context [if ?b then _ else _] => destruct b eqn:?; cbn end;
    (split; [intros; discriminate|]); try reflexivity;
    intros Hnew; rewrite Hnew in *; cbn in *; discriminate.
Qed.

(** X2.  After a successful subscribe call the identifier returned is the one
    every later call of the create is keyed by: the confirmation poll waits
    for that identifier to reach "false", and the read asks for it.  Create
    makes no other call.  When the poll is made and fails, create returns
    its error, wrapped with the identifier, without reading, and the
    identifier stays set; when the poll succeeds or is skipped, the result
    of the create is the result of reading the subscription, once, with the
    identifier set.  On a new resource the identifier is the returned one
    whatever the outcome. *)
Theorem create_uses_returned_identifier (conn : SNS.Conn) (T : Z) (d : SNS.ResourceData)
    (out : SNS.SubscribeOutput) (id : string)
    (Hsub : SNS.conn_Subscribe conn [] (subscribeInput d) = (Some out, None))
    (Hid : SNS.so_SubscriptionArn out = Some id)
    (Hne : id <> EmptyString) :
  let r := run_sns (SNS.resourceAwsSnsTopicSubscriptionCreate conn T) d in
  let t := SNS.trace (snd r) in
  let wait := negb ((strings_Contains (SNS.protocol d) "http"
                     && negb (SNS.endpoint_auto_confirms d))
                    || strings_Contains (SNS.protocol d) "email") in
  let timeout := if strings_Contains (SNS.protocol d) "http"
                 then minutes_duration (SNS.confirmation_timeout_in_minutes d) else T in
  let subscribe := SNS.CallSubscribe (subscribeInput d) in
  let poll := SNS.CallSubscriptionConfirmed id "false" timeout in
  let answer := SNS.conn_SubscriptionConfirmed conn [subscribe] id "false" timeout in
  (exists t', t = subscribe :: t'
     /\ forall c, In c t' ->
          match c with
          | SNS.CallSubscriptionConfirmed id' expected _ => id' = id /\ expected = "false"
          | SNS.CallGetSubscriptionAttributes input => input = getInput id
          | _ => False
          end)
  /\ (forall id' e, fst r = Err (SNS.ErrWaiting id' e) ->
        id' = id /\ reads t = [] /\ SNS.rd (snd r) = SNS.SetId id d)
  /\ ((forall id' e, fst r <> Err (SNS.ErrWaiting id' e)) -> reads t = [getInput id])
  /\ (SNS.IsNewResource d = true -> SNS.Id (SNS.rd (snd r)) = id)
  /\ (wait = true -> forall e, answer = Some e ->
        r = (Err (SNS.ErrWaiting id e),
             {| SNS.rd := SNS.SetId id d; SNS.trace := [subscribe; poll] |}))
  /\ (wait = true -> answer = None ->
        r = SNS.resourceAwsSnsTopicSubscriptionRead conn
              {| SNS.rd := SNS.SetId id d; SNS.trace := [subscribe; poll] |})
  /\ (wait = false ->
        r = SNS.resourceAwsSnsTopicSubscriptionRead conn
              {| SNS.rd := SNS.SetId id d; SNS.trace := [subscribe] |}).
Proof.
  create_start. rewrite Hsub.
  cbn -[SNS.resourceAwsSnsTopicSubscriptionRead strings_Contains aws_StringValue
        subscribeInput].
  rewrite Hid. change (aws_StringValue (Some id)) with id.
  destruct (String.eqb_spec id EmptyString) as [?|_]; [contradiction|].
  cbn -[SNS.resourceAwsSnsTopicSubscriptionRead strings_Contains subscribeInput].
  set (timeout := if strings_Contains (SNS.protocol d) "http"
                  then minutes_duration (SNS.confirmation_timeout_in_minutes d) else T).
  assert (Hw : (if strings_Contains (SNS.protocol d) "email" then false
                else if negb (SNS.endpoint_auto_confirms d)
                        && strings_Contains (SNS.protocol d) "http"
                     then false else true)
               = negb ((strings_Contains (SNS.protocol d) "http"
                        && negb (SNS.endpoint_auto_confirms d))
                       || strings_Contains (SNS.protocol d) "email")).
  { destruct (strings_Contains (SNS.protocol d) "email"),
      (strings_Contains (SNS.protocol d) "http"), (SNS.endpoint_auto_confirms d);
      reflexivity. }
  rewrite Hw. clear Hw.
  destruct (negb _);
    cbn -[SNS.resourceAwsSnsTopicSubscriptionRead subscribeInput].
  - match goal with |- context [SNS.conn_SubscriptionConfirmed conn ?h id "false" ?tm] =>
      destruct (SNS.conn_SubscriptionConfirmed conn h id "false" tm) as [e|] end;
      cbn -[SNS.resourceAwsSnsTopicSubscriptionRead subscribeInput].
    + split; [eexists; split; [reflexivity|]|].
      { intros c [<-|[]]; auto. }
      split; [intros id' e' [= <- <-]; auto|].
      split; [intros H; exfalso; eapply H; reflexivity|].
      split; [reflexivity|].
      split; [intros _ e' [= <-]; reflexivity|].
      split; [intros _ [=] | intros [=]].
    + match goal with |- context [SNS.resourceAwsSnsTopicSubscriptionRead conn ?s] =>
        pose proof (read_keyed_by_id conn s) as [Hw Hi];
        pose proof (read_trace conn s) as Ht end.
      cbn -[SNS.resourceAwsSnsTopicSubscriptionRead subscribeInput] in Ht, Hi.
      rewrite Ht. split; [eexists; split; [reflexivity|]|].
      { intros c [<-|[<-|[]]]; auto. }
      split; [intros id' e' He'; exfalso; eapply Hw; exact He'|].
      split; [reflexivity|]. split; [exact Hi|].
      split; [intros _ e' [=]|].
      split; [reflexivity | intros [=]].
  - match goal with |- context [SNS.resourceAwsSnsTopicSubscriptionRead conn ?s] =>
      pose proof (read_keyed_by_id conn s) as [Hw Hi];
      pose proof (read_trace conn s) as Ht end.
    cbn -[SNS.resourceAwsSnsTopicSubscriptionRead subscribeInput] in Ht, Hi.
    rewrite Ht. split; [eexists; split; [reflexivity|]|].
    { intros c [<-|[]]; auto. }
    split; [intros id' e' He'; exfalso; eapply Hw; exact He'|].
    split; [reflexivity|]. split; [exact Hi|].
    split; [intros [=]|]. split; [intros [=] | reflexivity].
Qed.

Lemma create_uses_returned_identifier_witness :
  reads (SNS.trace (snd (run_sns
    (SNS.resourceAwsSnsTopicSubscriptionCreate conn_ok 120000000000)
    (subscription "sqs" false EmptyString ∅))))
  = [getInput "arn:aws:sns:us-east-1:1:t:sub"].
Proof.
  assert (Hsub : SNS.conn_Subscribe conn_ok []
                   (subscribeInput (subscription "sqs" false EmptyString ∅))
                 = (Some {| SNS.so_SubscriptionArn := Some "arn:aws:sns:us-east-1:1:t:sub" |},
                    None)) by reflexivity.
  assert (Hne : "arn:aws:sns:us-east-1:1:t:sub" <> EmptyString) by discriminate.
  destruct (create_uses_returned_identifier conn_ok 120000000000 _ _ _ Hsub eq_refl Hne)
    as (_ & _ & H & _).
  apply H. intros id' e. vm_compute. discriminate.
Defined.

(** ** Read *)

Lemma attr_is_true_text m k :
  SNS.attr_is_true m k = String.eqb (aws_StringValue (SNS.attr m k)) "true".
Proof. unfold SNS.attr_is_true, SNS.attr. destruct (m !! k) as [v|]; reflexivity. Qed.

Ltac in_list := cbn; repeat (first [left; reflexivity | right]).

(** X3.  The read operation looks at eleven attributes of the response and at
    nothing else in it: two non-empty responses whose values for those
    eleven names are the same text give the same result.  A name that is
    absent, a nil value and the empty string are read alike, and any other
    attribute of the response is ignored. *)
Theorem read_ignores_other_attributes (conn1 conn2 : SNS.Conn) (d : SNS.ResourceData)
    (m1 m2 : SNS.AttributeMap)
    (H1 : SNS.conn_GetSubscriptionAttributes conn1 [] (getInput (SNS.Id d))
          = (Some {| SNS.go_Attributes := m1 |}, None))
    (H2 : SNS.conn_GetSubscriptionAttributes conn2 [] (getInput (SNS.Id d))
          = (Some {| SNS.go_Attributes := m2 |}, None))
    (Hne1 : m1 <> ∅) (Hne2 : m2 <> ∅)
    (Hagree : forall k, In k readKeys ->
                aws_StringValue (SNS.attr m1 k) = aws_StringValue (SNS.attr m2 k)) :
  fst (run_sns (SNS.resourceAwsSnsTopicSubscriptionRead conn1) d) = Ok tt
  /\ run_sns (SNS.resourceAwsSnsTopicSubscriptionRead conn1) d
     = run_sns (SNS.resourceAwsSnsTopicSubscriptionRead conn2) d.
Proof.
  unfold SNS.resourceAwsSnsTopicSubscriptionRead. op_unfold.
  unfold aws_String, getInput in *. cbn -[SNS.readAttributes].
  rewrite H1, H2. cbn -[SNS.readAttributes]. unfold SNS.readAttributes.
  cbn [SNS.go_Attributes]. op_unfold.
  case_bool_decide as Hs1; [apply map_size_empty_iff in Hs1; contradiction|].
  case_bool_decide as Hs2; [apply map_size_empty_iff in Hs2; contradiction|].
  rewrite andb_false_r. cbn -[SNS.attr SNS.attr_is_true].
  split; [reflexivity|].
  rewrite !attr_is_true_text.
  repeat match goal with
         | |- context [SNS.attr m1 ?k] => rewrite (Hagree k) by in_list
         end.
  reflexivity.
Qed.

Lemma read_ignores_other_attributes_witness :
  run_sns (SNS.resourceAwsSnsTopicSubscriptionRead conn_ok)
    (subscription "sqs" false EmptyString ∅)
  = run_sns (SNS.resourceAwsSnsTopicSubscriptionRead conn_verbose)
      (subscription "sqs" false EmptyString ∅).
Proof.
  refine (proj2 (read_ignores_other_attributes conn_ok conn_verbose
                   (subscription "sqs" false EmptyString ∅) _ _ eq_refl eq_refl _ _ _)).
  - intros H. apply (f_equal (fun m => m !! "Protocol")) in H. vm_compute in H.
    discriminate H.
  - intros H. apply (f_equal (fun m => m !! "Protocol")) in H. vm_compute in H.
    discriminate H.
  - intros k Hk. cbn in Hk.
    repeat (destruct Hk as [<-|Hk]; [vm_compute; reflexivity|]). contradiction.
Defined.

(** X4.  Whatever the service answers, the read operation never writes the
    subscription role, the auto-confirm flag, the confirmation timeout, the
    new-resource flag or the set of changed attributes; the identifier is
    kept or cleared, never replaced; and exactly one request is made, for
    the identifier of the resource. *)
Theorem read_never_writes_configuration (conn : SNS.Conn) (s : SNS.State) :
  let s' := snd (SNS.resourceAwsSnsTopicSubscriptionRead conn s) in
  let d := SNS.rd s in
  let d' := SNS.rd s' in
  SNS.subscription_role_arn d' = SNS.subscription_role_arn d
  /\ SNS.endpoint_auto_confirms d' = SNS.endpoint_auto_confirms d
  /\ SNS.confirmation_timeout_in_minutes d' = SNS.confirmation_timeout_in_minutes d
  /\ SNS.IsNewResource d' = SNS.IsNewResource d
  /\ SNS.changed d' = SNS.changed d
  /\ (SNS.Id d' = SNS.Id d \/ SNS.Id d' = EmptyString)
  /\ SNS.trace s' = SNS.trace s ++ [SNS.CallGetSubscriptionAttributes (getInput (SNS.Id d))].
Proof.
  cbv zeta. rewrite read_trace.
  unfold SNS.resourceAwsSnsTopicSubscriptionRead, SNS.readAttributes. op_unfold. cbn.
  destruct (SNS.conn_GetSubscriptionAttributes _ _ _) as [[out|] [e|]]; cbn;
    repeat match goal with |- context [if ?b then _ else _] => destruct b; cbn end;
    auto 10.
Qed.

(** X5.  A read that returns an error has written nothing: the resource data is
    as before.  The error is the one of the service, wrapped with the
    identifier, or the empty-response error. *)
Theorem read_error_keeps_resource_data (conn : SNS.Conn) (s : SNS.State) (e : SNS.error)
    (Herr : fst (SNS.resourceAwsSnsTopicSubscriptionRead conn s) = Err e) :
  SNS.rd (snd (SNS.resourceAwsSnsTopicSubscriptionRead conn s)) = SNS.rd s
  /\ (e = SNS.ErrGettingEmpty (SNS.Id (SNS.rd s))
      \/ exists inner,
           e = SNS.ErrGetting (SNS.Id (SNS.rd s)) inner
           /\ snd (SNS.conn_GetSubscriptionAttributes conn (SNS.trace s)
                     (getInput (SNS.Id (SNS.rd s)))) = Some inner).
Proof.
  revert Herr.
  unfold SNS.resourceAwsSnsTopicSubscriptionRead, SNS.readAttributes, getInput, aws_String.
  op_unfold. cbn.
  destruct (SNS.conn_GetSubscriptionAttributes _ _ _) as [[out|] [e'|]]; cbn;
    repeat match goal with |- context [if ?b then _ else _] => destruct b; cbn end;
    intros [= <-]; eauto.
Qed.

Lemma read_error_keeps_resource_data_witness :
  SNS.rd (snd (SNS.resourceAwsSnsTopicSubscriptionRead conn_pending
                 {| SNS.rd := subscription "sqs" false EmptyString ∅; SNS.trace := [] |}))
  = subscription "sqs" false EmptyString ∅.
Proof.
  exact (proj1 (read_error_keeps_resource_data conn_pending
                  {| SNS.rd := subscription "sqs" false EmptyString ∅; SNS.trace := [] |}
                  (SNS.ErrGettingEmpty "arn:aws:sns:us-east-1:1:t:sub") eq_refl)).
Defined.

(** ** Update *)

Ltac plan_cases :=
  unfold updatePlan, setCall, getInput;
  repeat match goal with
         | H : SNS.HasChange _ _ = _ |- _ => rewrite H
         end;
  repeat match goal with
         | |- context [String.eqb ?a EmptyString] =>
             destruct (String.eqb_spec a EmptyString); try congruence
         end;
  cbn [app].

Ltac split_trace :=
  let pre := fresh "pre" in
  let req := fresh "req" in
  let post := fresh "post" in
  let e := fresh "e" in
  let Hs := fresh "Hs" in
  let Ha := fresh "Ha" in
  intros pre req post e Hs Ha;
  repeat (destruct pre as [|? pre]; cbn [app] in Hs;
          [ first [ discriminate Hs
                  | injection Hs as <- <-;
                    first [ exfalso; congruence
                          | split; [reflexivity | cbn; congruence] ] ]
          | first [ discriminate Hs | injection Hs as <- Hs ] ]).

(** X6.  An update sends its requests in a fixed order (raw message delivery,
    filter policy, delivery policy, subscription role, redrive policy, each
    only when it changed, then the read) and stops at the first that fails:
    the calls made are a prefix of that plan, and a request that the
    service refuses is the last call, its error being the result.  A
    successful update made all the calls of the plan, and passed the
    validation of the role when the role changed; an update that stopped
    early returns an error raised by the role validation or by a failed
    request, and has not read and not written the resource data. *)
Theorem update_follows_plan (conn : SNS.Conn) (d : SNS.ResourceData) :
  let r := run_sns (SNS.resourceAwsSnsTopicSubscriptionUpdate conn) d in
  let t := SNS.trace (snd r) in
  (exists rest,
    updatePlan d = t ++ rest
    /\ (fst r = Ok tt -> rest = [])
    /\ (rest <> [] ->
        SNS.rd (snd r) = d
        /\ exists e, fst r = Err e
             /\ (SNS.is_config_error e = true
                 \/ exists name inner, e = SNS.ErrSetting (SNS.Id d) name inner)))
  /\ (forall pre req post e,
        t = pre ++ SNS.CallSetSubscriptionAttributes req :: post ->
        SNS.conn_SetSubscriptionAttributes conn pre req = Some e ->
        post = []
        /\ fst r = Err (SNS.ErrSetting (SNS.Id d)
                          (aws_StringValue (SNS.sa_AttributeName req)) e))
  /\ (fst r = Ok tt -> SNS.HasChange d "subscription_role_arn" = true ->
      strings_Contains (SNS.protocol d) "firehose"
      = negb (String.eqb (SNS.subscription_role_arn d) EmptyString)).
Proof.
  update_cases.
  all: split; [|split; [split_trace|first [intros; discriminate | intros; reflexivity]]].
  all: plan_cases.
  all: eexists; split; [reflexivity|]; split; [try discriminate; try reflexivity|].
  all: try (intros; exfalso; congruence).
  all: try (intros _; split; [reflexivity|]; eexists; split; [reflexivity|]; eauto).
Qed.

Lemma update_follows_plan_witness :
  SNS.trace (snd (run_sns (SNS.resourceAwsSnsTopicSubscriptionUpdate conn_ok)
                    (subscription "sqs" false EmptyString
                       {[ "redrive_policy"; "raw_message_delivery" ]})))
  = [setCall "arn:aws:sns:us-east-1:1:t:sub" "RawMessageDelivery" (Some "false");
     setCall "arn:aws:sns:us-east-1:1:t:sub" "RedrivePolicy" None;
     SNS.CallGetSubscriptionAttributes (getInput "arn:aws:sns:us-east-1:1:t:sub")].
Proof.
  destruct (update_follows_plan conn_ok
              (subscription "sqs" false EmptyString
                 {[ "redrive_policy"; "raw_message_delivery" ]}))
    as ((rest & Hplan & Hok & _) & _).
  rewrite (Hok eq_refl), app_nil_r in Hplan. rewrite <- Hplan. reflexivity.
Defined.

(** X7.  An update of a resource none of whose five attributes changed is a
    read: the same request, the same result, the same resource data. *)
Theorem update_without_changes_is_read (conn : SNS.Conn) (d : SNS.ResourceData)
    (Hraw : SNS.HasChange d "raw_message_delivery" = false)
    (Hfilter : SNS.HasChange d "filter_policy" = false)
    (Hdelivery : SNS.HasChange d "delivery_policy" = false)
    (Hrole : SNS.HasChange d "subscription_role_arn" = false)
    (Hredrive : SNS.HasChange d "redrive_policy" = false) :
  run_sns (SNS.resourceAwsSnsTopicSubscriptionUpdate conn) d
  = run_sns (SNS.resourceAwsSnsTopicSubscriptionRead conn) d.
Proof.
  unfold SNS.resourceAwsSnsTopicSubscriptionUpdate. op_unfold.
  cbn -[SNS.resourceAwsSnsTopicSubscriptionRead SNS.snsSubscriptionAttributeUpdate
        strings_Contains].
  rewrite Hraw, Hfilter, Hdelivery, Hrole, Hredrive. reflexivity.
Qed.

Lemma update_without_changes_is_read_witness :
  run_sns (SNS.resourceAwsSnsTopicSubscriptionUpdate conn_ok)
    (subscription "sqs" false EmptyString ∅)
  = run_sns (SNS.resourceAwsSnsTopicSubscriptionRead conn_ok)
      (subscription "sqs" false EmptyString ∅).
Proof.
  assert (Hc : forall k, SNS.HasChange (subscription "sqs" false EmptyString ∅) k = false)
    by reflexivity.
  exact (update_without_changes_is_read conn_ok (subscription "sqs" false EmptyString ∅)
           (Hc _) (Hc _) (Hc _) (Hc _) (Hc _)).
Defined.

(** X8.  An update never sends the empty string for the redrive policy: a
    redrive policy that changed to the empty string is sent as nil, any
    other as it is configured; it is sent at most once, and only when it
    changed. *)
Theorem update_redrive_policy_never_empty_string (conn : SNS.Conn) (d : SNS.ResourceData) :
  let t := SNS.trace (snd (run_sns (SNS.resourceAwsSnsTopicSubscriptionUpdate conn) d)) in
  (forall v, In v (sent "RedrivePolicy" t) ->
     v <> Some EmptyString
     /\ v = (if String.eqb (SNS.redrive_policy d) EmptyString
             then None else Some (SNS.redrive_policy d))
     /\ SNS.HasChange d "redrive_policy" = true)
  /\ (length (sent "RedrivePolicy" t) <= 1)%nat.
Proof.
  update_cases.
  all: split; [|cbn; lia].
  all: intros v Hv; cbn in Hv.
  all: repeat match goal with H : _ \/ _ |- _ => destruct H end; try contradiction.
  all: subst v.
  all: repeat match goal with
              | |- context [String.eqb ?a EmptyString] =>
                  destruct (String.eqb_spec a EmptyString); try congruence
              end.
  all: split; [congruence | split; reflexivity].
Qed.

Lemma update_redrive_policy_never_empty_string_witness :
  sent "RedrivePolicy"
    (SNS.trace (snd (run_sns (SNS.resourceAwsSnsTopicSubscriptionUpdate conn_ok)
       (subscription "sqs" false EmptyString {[ "redrive_policy" ]}))))
  = [None]
  /\ (None : option string) <> Some EmptyString.
Proof.
  split; [vm_compute; reflexivity|].
  destruct (update_redrive_policy_never_empty_string conn_ok
              (subscription "sqs" false EmptyString {[ "redrive_policy" ]})) as [H _].
  apply (H None). vm_compute. left. reflexivity.
Defined.

(** ** Delete *)

(** X9.  Delete sends one unsubscribe request, for the identifier of the
    resource.  An error of the service with code InvalidParameter whose
    message says that the subscription is pending confirmation is not
    returned: delete succeeds and clears the identifier.  Any other error
    is returned as it is, not wrapped, and like a success it leaves the
    resource data as it was. *)
Theorem delete_outcomes (conn : SNS.Conn) (d : SNS.ResourceData) :
  let err := SNS.conn_Unsubscribe conn [] (unsubscribeInput (SNS.Id d)) in
  let r := run_sns (SNS.resourceAwsSnsTopicSubscriptionDelete conn) d in
  SNS.trace (snd r) = [SNS.CallUnsubscribe (unsubscribeInput (SNS.Id d))]
  /\ (forall code message,
        err = Some (SNS.AwsErr code message) ->
        if String.eqb code "InvalidParameter" && strings_Contains message pendingMessage
        then fst r = Ok tt /\ SNS.rd (snd r) = SNS.SetId EmptyString d
        else fst r = Err (SNS.AwsErr code message) /\ SNS.rd (snd r) = d)
  /\ (forall message,
        err = Some (SNS.OtherErr message) ->
        fst r = Err (SNS.OtherErr message) /\ SNS.rd (snd r) = d)
  /\ (err = None -> fst r = Ok tt /\ SNS.rd (snd r) = d).
Proof.
  cbv zeta. unfold SNS.resourceAwsSnsTopicSubscriptionDelete, unsubscribeInput, aws_String.
  op_unfold. op_unfold. unfold SNS.ErrCodeInvalidParameterException, pendingMessage.
  cbn -[strings_Contains String.eqb].
  destruct (SNS.conn_Unsubscribe conn [] _) as [e|]; cbn -[strings_Contains String.eqb].
  - destruct (SNS.err_message_contains e _ _) eqn:Hm; cbn -[strings_Contains String.eqb];
      (split; [reflexivity|]); (split; [|split; [|discriminate]]).
    + intros code message [= ->]. cbn -[strings_Contains String.eqb] in Hm.
      rewrite Hm. split; reflexivity.
    + intros message [= ->]. discriminate Hm.
    + intros code message [= ->]. cbn -[strings_Contains String.eqb] in Hm.
      rewrite Hm. split; reflexivity.
    + intros message [= ->]. split; reflexivity.
  - split; [reflexivity|]. split; [discriminate|]. split; [discriminate|].
    intros _. split; reflexivity.
Qed.

Lemma delete_outcomes_witness :
  let r := run_sns (SNS.resourceAwsSnsTopicSubscriptionDelete conn_pending)
             (subscription "https" false EmptyString ∅) in
  fst r = Ok tt /\ SNS.Id (SNS.rd (snd r)) = EmptyString.
Proof.
  cbv zeta.
  destruct (delete_outcomes conn_pending (subscription "https" false EmptyString ∅))
    as (_ & H & _).
  specialize (H "InvalidParameter"
    "Invalid parameter: Cannot unsubscribe a subscription that is pending confirmation"
    eq_refl).
  destruct H as [H1 H2]. split; [exact H1 | rewrite H2; reflexivity].
Defined.

(** ** The attributes of a subscribe request *)

(** X10.  Every attribute of a subscribe request has one of the five names, and a
    value that is neither nil nor the empty string; the raw-message-delivery
    attribute is only ever sent as "true". *)
Theorem expand_values_non_empty (d : SNS.ResourceData) (k : string) (v : option string)
    (Hk : SNS.expandSNSSubscriptionAttributes d !! k = Some v) :
  In k expandKeys
  /\ exists s, v = Some s /\ s <> EmptyString
               /\ (k = "RawMessageDelivery" -> s = "true").
Proof.
  rewrite expand_lookup in Hk. unfold expandKeys.
  repeat match type of Hk with
         | context [String.eqb k ?n] => destruct (String.eqb_spec k n) as [->|?]
         end;
  repeat match type of Hk with
         | context [String.eqb ?a EmptyString] => destruct (String.eqb_spec a EmptyString)
         | context [if SNS.raw_message_delivery d then _ else _] =>
             destruct (SNS.raw_message_delivery d)
         end;
  try discriminate Hk; injection Hk as <-;
  (split; [in_list | eexists; split; [reflexivity | split; [assumption || discriminate|]]]);
  first [reflexivity | intros; discriminate].
Qed.

Lemma expand_values_non_empty_witness :
  exists s, Some "arn:aws:iam::1:role/r" = Some s /\ s <> EmptyString
            /\ ("SubscriptionRoleArn" = "RawMessageDelivery" -> s = "true").
Proof.
  exact (proj2 (expand_values_non_empty
                  (subscription "firehose" false "arn:aws:iam::1:role/r" ∅)
                  "SubscriptionRoleArn" (Some "arn:aws:iam::1:role/r") eq_refl)).
Defined.

(** X11.  A configured attribute is sent: each of the five fields that does not
    hold its zero value is in the subscribe request under its name, with
    the configured text. *)
Theorem expand_emits_configured (d : SNS.ResourceData) :
  let m := SNS.expandSNSSubscriptionAttributes d in
  (SNS.delivery_policy d <> EmptyString ->
     m !! "DeliveryPolicy" = Some (Some (SNS.delivery_policy d)))
  /\ (SNS.filter_policy d <> EmptyString ->
      m !! "FilterPolicy" = Some (Some (SNS.filter_policy d)))
  /\ (SNS.raw_message_delivery d = true ->
      m !! "RawMessageDelivery" = Some (Some "true"))
  /\ (SNS.subscription_role_arn d <> EmptyString ->
      m !! "SubscriptionRoleArn" = Some (Some (SNS.subscription_role_arn d)))
  /\ (SNS.redrive_policy d <> EmptyString ->
      m !! "RedrivePolicy" = Some (Some (SNS.redrive_policy d))).
Proof.
  cbv zeta.
  repeat split; intros H; rewrite expand_lookup; cbn;
    first [rewrite H; reflexivity
          | match goal with
            | |- context [String.eqb ?a EmptyString] =>
                destruct (String.eqb_spec a EmptyString); [contradiction | reflexivity]
            end].
Qed.

Lemma expand_emits_configured_witness :
  SNS.expandSNSSubscriptionAttributes
    (subscription "firehose" false "arn:aws:iam::1:role/r" ∅) !! "SubscriptionRoleArn"
  = Some (Some "arn:aws:iam::1:role/r").
Proof.
  destruct (expand_emits_configured
              (subscription "firehose" false "arn:aws:iam::1:role/r" ∅))
    as (_ & _ & _ & H & _).
  apply H. discriminate.
Defined.

(** ** The confirmation timeout *)

(** X12.  The timeout computed from the configured minutes is that number of
    minutes exactly when the number is between -153722867 and 153722867;
    outside that range the multiplication wraps around. *)
Theorem confirmation_timeout_exact_range (n : Z) :
  minutes_duration n = (n * 60000000000)%Z <-> (-153722867 <= n <= 153722867)%Z.
Proof.
  split.
  - unfold minutes_duration, wrap64, time_Minute. intros H.
    assert (Hr : (- 2 ^ 63 <= n * 60000000000 < 2 ^ 63)%Z).
    { rewrite <- H.
      pose proof (Z.mod_pos_bound
                    (((n + 2 ^ 63) mod 2 ^ 64 - 2 ^ 63) * 60000000000 + 2 ^ 63)
                    (2 ^ 64) ltac:(lia)).
      lia. }
    lia.
  - apply minutes_duration_exact.
Qed.

Lemma confirmation_timeout_exact_range_witness :
  minutes_duration 1 = 60000000000%Z.
Proof.
  apply (proj2 (confirmation_timeout_exact_range 1)). lia.
Defined.

(** ** Delivery policy: what normalisation keeps *)

(** X13.  Normalisation keeps the policy: the normalised text of a text that
    unmarshals into a policy is the marshalled policy, and it unmarshals
    into the same policy. *)
Theorem normalize_preserves_policy (old : string) (p : snsTopicSubscriptionDeliveryPolicy)
    (Hvalid : json_Unmarshal (list_ascii_of_string old) zeroDeliveryPolicy = Some p) :
  normalizedDeliveryPolicy old = Some (encodeDeliveryPolicy p)
  /\ json_Unmarshal (encodeDeliveryPolicy p) zeroDeliveryPolicy = Some p.
Proof.
  destruct (unmarshal_marshal p (unmarshal_wf _ _ Hvalid)) as [H1 H2].
  unfold normalizedDeliveryPolicy, json_Marshal. rewrite Hvalid, H2.
  split; [reflexivity | exact H1].
Qed.

Lemma normalize_preserves_policy_witness :
  json_Unmarshal (list_ascii_of_string (js "{'throttlePolicy':{'maxReceivesPerSecond':7}}"))
    zeroDeliveryPolicy
  = Some {| Guaranteed := false; HealthyRetryPolicy := None; SicklyRetryPolicy := None;
            ThrottlePolicy := Some {| MaxReceivesPerSecond := 7 |} |}.
Proof.
  assert (Hvalid : json_Unmarshal
                     (list_ascii_of_string
                        (js "{ 'throttlePolicy' : { 'maxReceivesPerSecond' : 7, 'y': null } }"))
                     zeroDeliveryPolicy
                   = Some {| Guaranteed := false; HealthyRetryPolicy := None;
                             SicklyRetryPolicy := None;
                             ThrottlePolicy := Some {| MaxReceivesPerSecond := 7 |} |})
    by (vm_compute; reflexivity).
  exact (proj2 (normalize_preserves_policy _ _ Hvalid)).
Defined.

(** X14.  A policy text and its normalised form are equivalent: the check
    suppresses the difference between them, whenever [jsonBytesEqual] holds
    of equal texts.  And the check cannot tell a text from its normalised
    form on the old side. *)
Theorem suppress_normalised_old (jsonBytesEqual : bytes -> bytes -> bool)
    (k old : string) (N : bytes) (d : ResourceData)
    (Hrefl : forall b, jsonBytesEqual b b = true)
    (Hn : normalizedDeliveryPolicy old = Some N) :
  suppressEquivalentSnsTopicSubscriptionDeliveryPolicy jsonBytesEqual k
    old (string_of_list_ascii N) d = true
  /\ forall new,
       suppressEquivalentSnsTopicSubscriptionDeliveryPolicy jsonBytesEqual k
         (string_of_list_ascii N) new d
       = suppressEquivalentSnsTopicSubscriptionDeliveryPolicy jsonBytesEqual k old new d.
Proof.
  assert (Hfix : normalizedDeliveryPolicy (string_of_list_ascii N) = Some N
                 /\ Compact N = Some N).
  { revert Hn. unfold normalizedDeliveryPolicy, json_Marshal.
    destruct (json_Unmarshal (list_ascii_of_string old) zeroDeliveryPolicy) as [p|] eqn:Hp;
      [|discriminate].
    destruct (unmarshal_marshal p (unmarshal_wf _ _ Hp)) as [H1 H2].
    rewrite H2. intros [= <-].
    rewrite list_ascii_of_string_of_list_ascii, H1, H2. split; reflexivity. }
  destruct Hfix as [Hfix Hc].
  unfold suppressEquivalentSnsTopicSubscriptionDeliveryPolicy.
  rewrite Hn, Hfix, list_ascii_of_string_of_list_ascii, Hc.
  split; [apply Hrefl | reflexivity].
Qed.

Lemma suppress_normalised_old_witness :
  suppressEquivalentSnsTopicSubscriptionDeliveryPolicy jsonBytesEqual "delivery_policy"
    (js "{ 'guaranteed': true, 'comment': 'x' }") (js "{'guaranteed':true}")
    (subscription "https" false EmptyString ∅) = true.
Proof.
  assert (Hrefl : forall b, jsonBytesEqual b b = true)
    by (intros b; apply bytes_eqb_eq; reflexivity).
  assert (Hn : normalizedDeliveryPolicy (js "{ 'guaranteed': true, 'comment': 'x' }")
               = Some (list_ascii_of_string (js "{'guaranteed':true}")))
    by (vm_compute; reflexivity).
  exact (proj1 (suppress_normalised_old jsonBytesEqual "delivery_policy" _ _
                  (subscription "https" false EmptyString ∅) Hrefl Hn)).
Defined.

(** ** Create: the confirmation poll, protocol by protocol *)

(** X22.  For every protocol the schema accepts, in any letter case, after a
    successful subscribe call: when the protocol spells "email" or
    "email-json", create does not poll if it begins with "email" in lower
    case, and polls once with the waiter's default timeout if not; when it
    spells "http" or "https", create polls only when the endpoint confirms
    by itself, with the configured minutes as the timeout, if it begins
    with "http" in lower case, and polls once with the default timeout if
    not; for the five other names it always polls once, with the default
    timeout.  For the names as the schema lists them this is: no poll for
    "email" and "email-json", a poll with the configured minutes for "http"
    and "https" when the endpoint confirms by itself, and a poll with the
    default timeout for the others. *)
Theorem create_poll_by_protocol (conn : SNS.Conn) (T : Z) (d : SNS.ResourceData)
    (out : SNS.SubscribeOutput)
    (Hvalid : validation_StringInSlice protocols true (SNS.protocol d) = true)
    (Hsub : SNS.conn_Subscribe conn [] (subscribeInput d) = (Some out, None))
    (Harn : aws_StringValue (SNS.so_SubscriptionArn out) <> EmptyString) :
  let p := polls (SNS.trace (snd (run_sns
             (SNS.resourceAwsSnsTopicSubscriptionCreate conn T) d))) in
  let name := strings_ToLower (SNS.protocol d) in
  let minutes := minutes_duration (SNS.confirmation_timeout_in_minutes d) in
  p = (if String.eqb name "email" || String.eqb name "email-json"
       then if strings_HasPrefix (SNS.protocol d) "email" then [] else [T]
       else if String.eqb name "http" || String.eqb name "https"
       then if strings_HasPrefix (SNS.protocol d) "http"
            then if SNS.endpoint_auto_confirms d then [minutes] else []
            else [T]
       else [T])
  /\ (In (SNS.protocol d) protocols ->
      p = if String.eqb (SNS.protocol d) "email" || String.eqb (SNS.protocol d) "email-json"
          then []
          else if String.eqb (SNS.protocol d) "http" || String.eqb (SNS.protocol d) "https"
          then if SNS.endpoint_auto_confirms d then [minutes] else []
          else [T]).
Proof.
  cbv zeta. rewrite (create_polls conn T d out Hsub Harn). split.
  - apply valid_spelling in Hvalid.
    generalize dependent (SNS.protocol d); intros p H; cbn in H.
    repeat (destruct H as [H|H];
            [symmetry in H; rewrite H; cbn -[strings_HasPrefix strings_Contains];
             letters p H; cbn -[Ascii.eqb]; fold_case;
             destruct (SNS.endpoint_auto_confirms d); reflexivity|]).
    contradiction.
  - intros Hin. cbn in Hin.
    repeat (destruct Hin as [<-|Hin];
            [destruct (SNS.endpoint_auto_confirms d); reflexivity|]).
    contradiction.
Qed.

Lemma create_poll_by_protocol_witness :
  polls (SNS.trace (snd (run_sns
    (SNS.resourceAwsSnsTopicSubscriptionCreate conn_ok 120000000000)
    (subscription "HTTPS" false EmptyString ∅)))) = [120000000000%Z].
Proof.
  assert (Hv : validation_StringInSlice protocols true "HTTPS" = true) by reflexivity.
  assert (Hne : "arn:aws:sns:us-east-1:1:t:sub" <> EmptyString) by discriminate.
  exact (proj1 (create_poll_by_protocol conn_ok 120000000000
                  (subscription "HTTPS" false EmptyString ∅) _ Hv eq_refl Hne)).
Defined.

(** ** SESv2 custom verification email template *)

Ltac ses_unfold :=
  unfold SESV2.resourceCustomVerificationEmailTemplateCreate,
    SESV2.resourceCustomVerificationEmailTemplateUpdate,
    SESV2.resourceCustomVerificationEmailTemplateDelete,
    SESV2.resourceCustomVerificationEmailTemplateRead,
    SESV2.dataSourceCustomVerificationEmailTemplateRead,
    SESV2.FindCustomVerificationEmailTemplateByID,
    templateCreateInput, templateUpdateInput, aws_String in *;
  op_unfold.

(** X15.  The finder makes one request, for the identifier it is given, and
    returns an output or an error, never both: the output of the service
    when there is one and no error; the not-found exception of the service
    wrapped as a not-found error; any other error as it is; and the
    empty-result error when the service returns neither. *)
Theorem find_template_outcomes (conn : SESV2.Conn) (id : string) (s : SESV2.State) :
  let answer := SESV2.conn_Get conn (SESV2.trace s) (Some id) in
  let r := SESV2.FindCustomVerificationEmailTemplateByID conn id s in
  snd r = {| SESV2.rd := SESV2.rd s;
             SESV2.trace := SESV2.trace s ++ [SESV2.CallGet (Some id)] |}
  /\ (forall out, fst r = Ok (inl out) <-> answer = (Some out, None))
  /\ (forall e, snd answer = Some e ->
        fst r = Ok (inr (if SESV2.is_NotFoundException e
                         then SESV2.NotFoundError e else e)))
  /\ (answer = (None, None) -> fst r = Ok (inr SESV2.EmptyResultError)).
Proof.
  cbv zeta. ses_unfold. cbn.
  destruct (SESV2.conn_Get conn (SESV2.trace s) (Some id)) as [[o|] [e|]]; cbn;
    try destruct (SESV2.is_NotFoundException e) eqn:He; cbn;
    (split; [reflexivity|]); (split; [|split]);
    try (intros out; split; intros [=]; subst; reflexivity);
    try (intros e' [= <-]; rewrite ?He; reflexivity);
    try (intros e' [=]); try (intros [=]); try reflexivity.
Qed.

Lemma find_template_outcomes_witness :
  fst (SESV2.FindCustomVerificationEmailTemplateByID ses_conn_gone "welcome"
         {| SESV2.rd := template false; SESV2.trace := [] |})
  = Ok (inr (SESV2.NotFoundError (SESV2.NotFoundException "gone"))).
Proof.
  destruct (find_template_outcomes ses_conn_gone "welcome"
              {| SESV2.rd := template false; SESV2.trace := [] |}) as (_ & _ & H & _).
  exact (H (SESV2.NotFoundException "gone") eq_refl).
Defined.

(** X16.  Create sends the six configured texts, each as a non-nil string.  A
    failed request and an empty output fail the create, with the template
    name in the error, before the identifier is set and without a read;
    after a successful request the identifier is the template name, and
    the result of the create is the result of reading that template. *)
Theorem template_create_outcomes (conn : SESV2.Conn) (NotFound : SESV2.error -> bool)
    (d : SESV2.ResourceData) :
  let answer := SESV2.conn_Create conn [] (templateCreateInput d) in
  let r := run_ses (SESV2.resourceCustomVerificationEmailTemplateCreate conn NotFound) d in
  let stopped := {| SESV2.rd := d;
                    SESV2.trace := [SESV2.CallCreate (templateCreateInput d)] |} in
  (forall e, snd answer = Some e ->
     r = (Err (SESV2.DiagError "creating" "Custom Verification Email Template"
                 (SESV2.template_name d) e), stopped))
  /\ (answer = (false, None) ->
      r = (Err (SESV2.DiagError "creating" "Custom Verification Email Template"
                  (SESV2.template_name d) SESV2.EmptyOutput), stopped))
  /\ (answer = (true, None) ->
      r = SESV2.resourceCustomVerificationEmailTemplateRead conn NotFound
            {| SESV2.rd := SESV2.SetId (SESV2.template_name d) d;
               SESV2.trace := [SESV2.CallCreate (templateCreateInput d)] |}
      /\ SESV2.trace (snd r)
         = [SESV2.CallCreate (templateCreateInput d);
            SESV2.CallGet (Some (SESV2.template_name d))]).
Proof.
  cbv zeta.
  unfold SESV2.resourceCustomVerificationEmailTemplateCreate, templateCreateInput,
    aws_String. op_unfold.
  cbn -[SESV2.resourceCustomVerificationEmailTemplateRead].
  assert (Hread : forall s,
            SESV2.trace (snd (SESV2.resourceCustomVerificationEmailTemplateRead
                                conn NotFound s))
            = SESV2.trace s ++ [SESV2.CallGet (Some (SESV2.Id (SESV2.rd s)))]).
  { intros s. ses_unfold. cbn.
    destruct (SESV2.conn_Get conn _ _) as [[o|] [e'|]]; cbn;
      try destruct (SESV2.is_NotFoundException e'); cbn;
      repeat match goal with |- context [if ?b then _ else _] => destruct b; cbn end;
      reflexivity. }
  destruct (SESV2.conn_Create conn [] _) as [[|] [e|]];
    cbn -[SESV2.resourceCustomVerificationEmailTemplateRead].
  - split; [intros e' [= <-]; reflexivity|]. split; discriminate.
  - split; [discriminate|]. split; [discriminate|]. intros _.
    split; [reflexivity | rewrite Hread; reflexivity].
  - split; [intros e' [= <-]; reflexivity|]. split; discriminate.
  - split; [discriminate|]. split; [reflexivity | discriminate].
Qed.

Lemma template_create_outcomes_witness :
  SESV2.trace (snd (run_ses (SESV2.resourceCustomVerificationEmailTemplateCreate
                               ses_conn_ok is_NotFoundError) (template true)))
  = [SESV2.CallCreate (templateCreateInput (template true));
     SESV2.CallGet (Some "welcome")].
Proof.
  destruct (template_create_outcomes ses_conn_ok is_NotFoundError (template true))
    as (_ & _ & H).
  exact (proj2 (H eq_refl)).
Defined.

(** X17.  A read that finds the template succeeds: the template name becomes the
    identifier of the resource (not the name in the response), the five
    other attributes become the texts of the response, a nil text being
    read as the empty string, and the identifier is kept.  The outcome does
    not depend on the new-resource flag nor on the not-found test. *)
Theorem template_read_found (conn : SESV2.Conn) (NotFound : SESV2.error -> bool)
    (d : SESV2.ResourceData) (out : SESV2.GetCustomVerificationEmailTemplateOutput)
    (Hget : SESV2.conn_Get conn [] (Some (SESV2.Id d)) = (Some out, None)) :
  let r := run_ses (SESV2.resourceCustomVerificationEmailTemplateRead conn NotFound) d in
  let d' := SESV2.rd (snd r) in
  fst r = Ok tt
  /\ SESV2.Id d' = SESV2.Id d
  /\ SESV2.IsNewResource d' = SESV2.IsNewResource d
  /\ SESV2.template_name d' = SESV2.Id d
  /\ SESV2.from_email_address d' = default EmptyString (SESV2.out_FromEmailAddress out)
  /\ SESV2.template_subject d' = default EmptyString (SESV2.out_TemplateSubject out)
  /\ SESV2.template_content d' = default EmptyString (SESV2.out_TemplateContent out)
  /\ SESV2.success_redirection_url d'
     = default EmptyString (SESV2.out_SuccessRedirectionURL out)
  /\ SESV2.failure_redirection_url d'
     = default EmptyString (SESV2.out_FailureRedirectionURL out).
Proof.
  cbv zeta. ses_unfold. cbn. rewrite Hget. cbn. repeat split.
Qed.

Lemma template_read_found_witness :
  SESV2.from_email_address
    (SESV2.rd (snd (run_ses (SESV2.resourceCustomVerificationEmailTemplateRead
                               ses_conn_ok is_NotFoundError) (template false))))
  = "noreply@example.com"
  /\ SESV2.template_content
       (SESV2.rd (snd (run_ses (SESV2.resourceCustomVerificationEmailTemplateRead
                                  ses_conn_ok is_NotFoundError) (template false))))
     = EmptyString.
Proof.
  destruct (template_read_found ses_conn_ok is_NotFoundError (template false)
              ses_template_out eq_refl) as (_ & _ & _ & _ & H1 & _ & H2 & _).
  split; [exact H1 | exact H2].
Defined.

(** X18.  A read that returns an error has written nothing, and the error names
    the identifier of the resource and wraps what the finder returned. *)
Theorem template_read_error_keeps_resource_data (conn : SESV2.Conn)
    (NotFound : SESV2.error -> bool) (d : SESV2.ResourceData) (e : SESV2.error)
    (Herr : fst (run_ses (SESV2.resourceCustomVerificationEmailTemplateRead conn NotFound) d)
            = Err e) :
  SESV2.rd (snd (run_ses (SESV2.resourceCustomVerificationEmailTemplateRead conn NotFound) d))
  = d
  /\ exists inner,
       e = SESV2.DiagError "reading" "Custom Verification Email Template" (SESV2.Id d) inner
       /\ fst (run_ses (SESV2.FindCustomVerificationEmailTemplateByID conn (SESV2.Id d)) d)
          = Ok (inr inner).
Proof.
  revert Herr. ses_unfold. cbn.
  destruct (SESV2.conn_Get conn [] (Some (SESV2.Id d))) as [[o|] [e'|]]; cbn;
    try destruct (SESV2.is_NotFoundException e'); cbn;
    repeat match goal with |- context [if ?b then _ else _] => destruct b; cbn end;
    intros [= <-]; eauto.
Qed.

Lemma template_read_error_keeps_resource_data_witness :
  SESV2.rd (snd (run_ses (SESV2.resourceCustomVerificationEmailTemplateRead
                            ses_conn_gone is_NotFoundError) (template true)))
  = template true.
Proof.
  exact (proj1 (template_read_error_keeps_resource_data ses_conn_gone is_NotFoundError
                  (template true) _ eq_refl)).
Defined.

Ltac getok_fields :=
  let Hin := fresh "Hin" in
  intros ? ? Hin; cbn in Hin; unfold SESV2.GetOk, aws_String in Hin;
  repeat (destruct Hin as [[= <- <-]|Hin];
          [match goal with
           | |- context [String.eqb ?a EmptyString] =>
               destruct (String.eqb_spec a EmptyString)
           end; repeat split; congruence|]);
  contradiction.

(** X19.  Update sends the identifier as the template name, and of the five
    other attributes those that are configured with a non-empty text: an
    attribute set to the empty string is left out of the request, never
    sent as the empty string.  When the request fails, update returns the
    error, with the identifier, without a read and with the resource data
    as it was; when it succeeds, the template is read once. *)
Theorem template_update_request (conn : SESV2.Conn) (NotFound : SESV2.error -> bool)
    (d : SESV2.ResourceData) :
  let r := run_ses (SESV2.resourceCustomVerificationEmailTemplateUpdate conn NotFound) d in
  exists input rest,
    SESV2.trace (snd r) = SESV2.CallUpdate input :: rest
    /\ SESV2.in_TemplateName input = Some (SESV2.Id d)
    /\ (forall field value,
          In (field, value)
             [(SESV2.in_FromEmailAddress input, SESV2.from_email_address d);
              (SESV2.in_TemplateSubject input, SESV2.template_subject d);
              (SESV2.in_TemplateContent input, SESV2.template_content d);
              (SESV2.in_SuccessRedirectionURL input, SESV2.success_redirection_url d);
              (SESV2.in_FailureRedirectionURL input, SESV2.failure_redirection_url d)] ->
          field <> Some EmptyString
          /\ (value = EmptyString -> field = None)
          /\ (value <> EmptyString -> field = Some value))
    /\ (forall e, SESV2.conn_Update conn [] input = Some e ->
          rest = []
          /\ r = (Err (SESV2.DiagError "updating" "Custom Verification Email Template"
                         (SESV2.Id d) e),
                  {| SESV2.rd := d; SESV2.trace := [SESV2.CallUpdate input] |}))
    /\ (SESV2.conn_Update conn [] input = None ->
        rest = [SESV2.CallGet (Some (SESV2.Id d))]).
Proof.
  cbv zeta. exists (templateUpdateInput d).
  unfold SESV2.resourceCustomVerificationEmailTemplateUpdate, aws_String. op_unfold.
  cbn -[SESV2.resourceCustomVerificationEmailTemplateRead].
  change (SESV2.Build_TemplateInput _ _ _ _ _ _) with (templateUpdateInput d).
  destruct (SESV2.conn_Update conn [] (templateUpdateInput d)) as [e|];
    cbn -[SESV2.resourceCustomVerificationEmailTemplateRead templateUpdateInput].
  - exists []. split; [reflexivity|]. split; [reflexivity|]. split.
    + getok_fields.
    + split; [|discriminate]. intros e' [= <-]. split; reflexivity.
  - eexists. split.
    + ses_unfold. cbn.
      destruct (SESV2.conn_Get conn _ _) as [[o|] [e'|]]; cbn;
        try destruct (SESV2.is_NotFoundException e'); cbn;
        repeat match goal with |- context [if ?b then _ else _] => destruct b; cbn end;
        reflexivity.
    + split; [reflexivity|]. split.
      * getok_fields.
      * split; [discriminate|]. intros _. reflexivity.
Qed.


Lemma template_update_request_witness :
  run_ses (SESV2.resourceCustomVerificationEmailTemplateUpdate ses_conn_denied
             is_NotFoundError) (template_from "noreply@example.com")
  = (Err (SESV2.DiagError "updating" "Custom Verification Email Template" "welcome"
            (SESV2.OtherErr "denied")),
     {| SESV2.rd := template_from "noreply@example.com";
        SESV2.trace :=
          [SESV2.CallUpdate
             {| SESV2.in_TemplateName := Some "welcome";
                SESV2.in_FromEmailAddress := Some "noreply@example.com";
                SESV2.in_TemplateSubject := None; SESV2.in_TemplateContent := None;
                SESV2.in_SuccessRedirectionURL := None;
                SESV2.in_FailureRedirectionURL := None |}] |}).
Proof.
  destruct (template_update_request ses_conn_denied is_NotFoundError
              (template_from "noreply@example.com"))
    as (input & rest & Ht & _ & _ & Herr & _).
  destruct (Herr (SESV2.OtherErr "denied") eq_refl) as [_ Hr].
  rewrite Hr. vm_compute in Ht. injection Ht as <- _. reflexivity.
Defined.

(** X20.  Delete sends one request, for the identifier of the resource, and
    never writes the resource data.  It succeeds when the service reports
    no error and when it reports that the template is not found; any other
    error is returned, with the identifier. *)
Theorem template_delete_outcomes (conn : SESV2.Conn) (d : SESV2.ResourceData) :
  let err := SESV2.conn_Delete conn [] (Some (SESV2.Id d)) in
  let r := run_ses (SESV2.resourceCustomVerificationEmailTemplateDelete conn) d in
  snd r = {| SESV2.rd := d; SESV2.trace := [SESV2.CallDelete (Some (SESV2.Id d))] |}
  /\ (fst r = Ok tt <->
      err = None \/ exists e, err = Some e /\ SESV2.is_NotFoundException e = true)
  /\ (forall e, err = Some e -> SESV2.is_NotFoundException e = false ->
        fst r = Err (SESV2.DiagError "deleting" "Custom Verification Email Template"
                       (SESV2.Id d) e)).
Proof.
  cbv zeta. ses_unfold. cbn.
  destruct (SESV2.conn_Delete conn [] (Some (SESV2.Id d))) as [e|]; cbn.
  - destruct (SESV2.is_NotFoundException e) eqn:He; cbn;
      (split; [reflexivity|]); (split; [split|]).
    + intros _. right. eauto.
    + reflexivity.
    + intros e' [= <-] He'. congruence.
    + discriminate.
    + intros [H|(e' & [= <-] & He')]; [discriminate H | congruence].
    + intros e' [= <-] _. reflexivity.
  - split; [reflexivity|]. split; [split; auto|]. discriminate.
Qed.

Lemma template_delete_outcomes_witness :
  fst (run_ses (SESV2.resourceCustomVerificationEmailTemplateDelete ses_conn_denied)
         (template false))
  = Err (SESV2.DiagError "deleting" "Custom Verification Email Template" "welcome"
           (SESV2.OtherErr "denied")).
Proof.
  destruct (template_delete_outcomes ses_conn_denied (template false)) as (_ & _ & H).
  exact (H (SESV2.OtherErr "denied") eq_refl eq_refl).
Defined.

(** X21.  The read of the data source asks for the configured template name.
    Every error of the finder (the not-found error, any other error of the
    service, the empty result) is returned as an error that wraps it, the
    resource data being left as it was: the data source is never removed
    from the state.  When the template is found, the identifier becomes the
    name in the response (the empty string when that name is nil), the five
    attributes become the texts of the response, and the configured
    template name is kept. *)
Theorem data_source_read_outcomes (conn : SESV2.Conn) (d : SESV2.ResourceData) :
  let name := SESV2.template_name d in
  let answer := SESV2.conn_Get conn [] (Some name) in
  let r := run_ses (SESV2.dataSourceCustomVerificationEmailTemplateRead conn) d in
  let d' := SESV2.rd (snd r) in
  let failed inner :=
    (Err (SESV2.DiagError "reading" "Custom Verification Email Template Data Source"
            name inner),
     {| SESV2.rd := d; SESV2.trace := [SESV2.CallGet (Some name)] |}) in
  SESV2.trace (snd r) = [SESV2.CallGet (Some name)]
  /\ (forall e, fst r = Err e ->
        d' = d
        /\ exists inner,
             e = SESV2.DiagError "reading" "Custom Verification Email Template Data Source"
                   name inner)
  /\ (forall message, snd answer = Some (SESV2.NotFoundException message) ->
        fst r = Err (SESV2.DiagError "reading"
                       "Custom Verification Email Template Data Source" name
                       (SESV2.NotFoundError (SESV2.NotFoundException message))))
  /\ (forall e, snd answer = Some e ->
        r = failed (if SESV2.is_NotFoundException e then SESV2.NotFoundError e else e))
  /\ (answer = (None, None) -> r = failed SESV2.EmptyResultError)
  /\ (forall out, answer = (Some out, None) ->
        fst r = Ok tt
        /\ SESV2.Id d' = default EmptyString (SESV2.out_TemplateName out)
        /\ SESV2.IsNewResource d' = SESV2.IsNewResource d
        /\ SESV2.template_name d' = name
        /\ SESV2.from_email_address d'
           = default EmptyString (SESV2.out_FromEmailAddress out)
        /\ SESV2.template_subject d'
           = default EmptyString (SESV2.out_TemplateSubject out)
        /\ SESV2.template_content d'
           = default EmptyString (SESV2.out_TemplateContent out)
        /\ SESV2.success_redirection_url d'
           = default EmptyString (SESV2.out_SuccessRedirectionURL out)
        /\ SESV2.failure_redirection_url d'
           = default EmptyString (SESV2.out_FailureRedirectionURL out)).
Proof.
  cbv zeta. ses_unfold. cbn.
  destruct (SESV2.conn_Get conn [] (Some (SESV2.template_name d))) as [[o|] [e|]]; cbn;
    try destruct (SESV2.is_NotFoundException e) eqn:He; cbn;
    (split; [reflexivity|]); (split; [|split; [|split; [|split]]]).
  all: try (intros e' [= <-]; eauto; fail).
  all: try (intros e' [=]; fail).
  all: try (intros m [= ->]; first [reflexivity | discriminate He]).
  all: try (intros e' [= <-]; rewrite ?He; reflexivity).
  all: try (intros [=]; fail).
  all: try (intros out' [= <-]; repeat split; fail).
  all: try (intros out' [=]; fail).
  all: try (intros _; reflexivity).
Qed.

Lemma data_source_read_outcomes_witness :
  fst (run_ses (SESV2.dataSourceCustomVerificationEmailTemplateRead ses_conn_gone)
         (template false))
  = Err (SESV2.DiagError "reading" "Custom Verification Email Template Data Source"
           "welcome" (SESV2.NotFoundError (SESV2.NotFoundException "gone"))).
Proof.
  destruct (data_source_read_outcomes ses_conn_gone (template false)) as (_ & _ & H & _).
  exact (H "gone" eq_refl).
Defined.
